(** * vidcat: video to terminal escape-sequence stream

    A shallow embedding of [vidcat.py] and the properties of its dimension
    calculator, metadata probe, frame ordering, frame renderer prefix,
    stream encoder, playback command and main program.

    Python values are modelled as follows.
    - [int] is [Z] (unbounded).
    - [float] is an IEEE 754 binary64 number, [spec_float] with precision 53
      and maximal exponent 1024; arithmetic is the round-to-nearest-even
      arithmetic of [SpecFloat].
    - [str] is a list of Unicode code points ([pystr]).
    - a raised exception is the [Err] branch of [result].
    - the file system is a finite map from the paths of regular files to
      their text; a text file holds what was written to it, the encoding to
      bytes being the runtime's.
    - external tools (ffprobe, ffmpeg, zstd), the rendering library and the
      failures of file operations are inputs of the model: every outcome
      they can have is a value of an outcome type or of [Env]. *)

From Stdlib Require Import ZArith NArith List Bool Ascii String Lia.
From Stdlib Require Import QArith Qround Qpower Lqa.
From Stdlib Require Import Floats.SpecFloat.
From stdpp Require Import base option list gmap strings sorting.

Local Open Scope Z_scope.

(** ** Python runtime model *)

(** A Python [str]: a sequence of code points. *)
Abbreviation pystr := (list N).

(** A literal of the source, given by its ASCII characters. *)
Definition lit (s : string) : pystr :=
  map (fun a : ascii => N_of_ascii a) (list_ascii_of_string s).

(** The escape character, written [\033] in the source. *)
Definition ESC : N := 27%N.
(** The newline character. *)
Definition LF : N := 10%N.

(** Exception classes that the modelled code can raise. *)
Inductive exn_class :=
| ValueError
| RuntimeError
| KeyError
| TypeError
| IndexError
| AttributeError
| ZeroDivisionError
| OverflowError
| UnicodeEncodeError
| OSError
| CalledProcessError.

(** An exception: its class and, for the [raise] statements of the source,
    its message; exceptions raised by the runtime carry [None]. *)
Inductive exn := Exc (c : exn_class) (msg : option pystr).

Definition raised_by_runtime (c : exn_class) : exn := Exc c None.

Inductive result (A : Type) :=
| Ok (a : A)
| Err (e : exn).
Arguments Ok {A} a.
Arguments Err {A} e.

Definition result_bind {A B} (m : result A) (f : A -> result B) : result B :=
  match m with
  | Ok a => f a
  | Err e => Err e
  end.

#[global] Instance result_ret : MRet result := fun A a => Ok a.
#[global] Instance result_mbind : MBind result := fun A B f m => result_bind m f.
#[global] Instance result_fmap : FMap result :=
  fun A B f m => result_bind m (fun a => Ok (f a)).

(** The value of a computation, forgetting which exception was raised. *)
Definition result_value {A} (r : result A) : option A :=
  match r with
  | Ok a => Some a
  | Err _ => None
  end.

Definition is_Err {A} (r : result A) : bool :=
  match r with
  | Ok _ => false
  | Err _ => true
  end.

(** *** Floats *)

Definition float := spec_float.
Definition prec : Z := 53.
Definition emax : Z := 1024.

Definition fdiv : float -> float -> float := SFdiv prec emax.
Definition fmul : float -> float -> float := SFmul prec emax.

Definition is_fzero (x : float) : bool :=
  match x with
  | S754_zero _ => true
  | _ => false
  end.

(** An integer as an exact (unrounded) binary number. *)
Definition exact_of_int (z : Z) : float :=
  match z with
  | Z0 => S754_zero false
  | Zpos p => S754_finite false p 0
  | Zneg p => S754_finite true p 0
  end.

(** [float(z)] for an int: the nearest double, [OverflowError] beyond range. *)
Definition float_of_int (z : Z) : result float :=
  match binary_normalize prec emax z 0 false with
  | S754_infinity _ => Err (raised_by_runtime OverflowError)
  | f => Ok f
  end.

(** [a / b] on two ints: the correctly rounded quotient. *)
Definition int_truediv (a b : Z) : result float :=
  if b =? 0 then Err (raised_by_runtime ZeroDivisionError)
  else match fdiv (exact_of_int a) (exact_of_int b) with
       | S754_infinity _ => Err (raised_by_runtime OverflowError)
       | f => Ok f
       end.

(** [x / y] on two floats. *)
Definition float_truediv (x y : float) : result float :=
  if is_fzero y then Err (raised_by_runtime ZeroDivisionError)
  else Ok (fdiv x y).

(** [x * y] on two floats. *)
Definition float_mul (x y : float) : result float := Ok (fmul x y).

(** [int(x)] for a float: truncation toward zero. *)
Definition int_of_float (x : float) : result Z :=
  match x with
  | S754_nan => Err (raised_by_runtime ValueError)
  | S754_infinity _ => Err (raised_by_runtime OverflowError)
  | S754_zero _ => Ok 0
  | S754_finite s m e =>
      let a := match e with
               | Zneg k => Z.pos m / 2 ^ Z.pos k
               | _ => Z.pos m * 2 ^ e
               end in
      Ok (if s then - a else a)
  end.

(** A Python number: the operands of mixed int and float arithmetic. *)
Inductive number :=
| PyInt (z : Z)
| PyFloat (x : float).

Definition to_float (n : number) : result float :=
  match n with
  | PyInt z => float_of_int z
  | PyFloat x => Ok x
  end.

(** Truthiness of an attribute that is [None] or an int. *)
Definition truthy (o : option Z) : bool :=
  match o with
  | None => false
  | Some z => negb (z =? 0)
  end.

(** ** [VideoProcessor] *)

Record VideoProcessor := {
  video_path : pystr;
  terminal_width : Z;
  fps : option float;
  width : option Z;
  height : option Z;
  frame_count : option Z;
  terminal_height : option Z
}.

(** [VideoProcessor.__init__] *)
Definition VideoProcessor_init (path : pystr) (tw : Z) : VideoProcessor :=
  {| video_path := path; terminal_width := tw; fps := None; width := None;
     height := None; frame_count := None; terminal_height := None |}.

Definition set_terminal_height (self : VideoProcessor) (th : Z) : VideoProcessor :=
  {| video_path := video_path self; terminal_width := terminal_width self;
     fps := fps self; width := width self; height := height self;
     frame_count := frame_count self; terminal_height := Some th |}.

Definition dimensions_not_set : exn :=
  Exc ValueError
      (Some (lit "Video dimensions not set - call get_video_metadata first")).

(** The arithmetic of [calculate_terminal_dimensions] after its guard. *)
Definition terminal_rows (W H C : Z) : result Z :=
  aspect_ratio ← int_truediv W H;
  c ← float_of_int C;
  x ← float_truediv c aspect_ratio;
  two ← float_of_int 2;
  y ← float_truediv x two;
  th ← int_of_float y;
  let th := if negb (th mod 2 =? 0) then th - 1 else th in
  Ok (Z.max 2 th).

(** [VideoProcessor.calculate_terminal_dimensions]: the updated object and
    the returned pair. *)
Definition calculate_terminal_dimensions (self : VideoProcessor)
  : result (VideoProcessor * (Z * Z)) :=
  if negb (truthy (width self)) || negb (truthy (height self))
  then Err dimensions_not_set
  else
    match width self, height self with
    | Some W, Some H =>
        th ← terminal_rows W H (terminal_width self);
        Ok (set_terminal_height self th, (terminal_width self, th))
    | _, _ => Err dimensions_not_set
    end.

(** The dimension contract in the words of the specification, in exact
    arithmetic: the aspect ratio [a = W/H], the row count
    [floor (C / a / 2)], decremented when odd, then clamped to a minimum
    of 2; the result is [(C, r)]. *)
Definition spec_dimensions (W H C : Z) : Z * Z :=
  let a := (inject_Z W / inject_Z H)%Q in
  let r := Qfloor (inject_Z C / a / 2)%Q in
  let r := if Z.odd r then r - 1 else r in
  (C, Z.max 2 r).

(** ** Strings *)

(** Decimal digits of a natural number, least significant first. *)
Fixpoint digits_le (fuel : nat) (n : N) : list N :=
  match fuel with
  | O => []
  | S fuel' =>
      (n mod 10)%N :: (if (n <? 10)%N then [] else digits_le fuel' (n / 10)%N)
  end.

Definition digit_char (d : N) : N := (48 + d)%N.

(** The decimal numeral of a natural number, without leading zeros. *)
Definition decimal (n : N) : pystr :=
  map digit_char (rev (digits_le (S (N.to_nat (N.log2 n))) n)).

(** [str(z)], also the rendering of an int inside an f-string. *)
Definition str_of_int (z : Z) : pystr :=
  match z with
  | Zneg p => 45%N :: decimal (N.pos p)
  | _ => decimal (Z.to_N z)
  end.

(** The printf conversion [%06d] on a frame number: at least six digits,
    padded with zeros on the left. *)
Definition format_06d (n : N) : pystr :=
  let d := decimal n in
  repeat 48%N (6 - length d)%nat ++ d.

(** Comparison of two [str] values: lexicographic on code points. *)
Fixpoint str_compare (a b : pystr) : comparison :=
  match a, b with
  | [], [] => Eq
  | [], _ :: _ => Lt
  | _ :: _, [] => Gt
  | x :: a', y :: b' =>
      match (x ?= y)%N with
      | Eq => str_compare a' b'
      | c => c
      end
  end.

Definition str_le (a b : pystr) : Prop := str_compare a b <> Gt.
Definition str_lt (a b : pystr) : Prop := str_compare a b = Lt.

#[global] Instance str_le_dec a b : Decision (str_le a b).
Proof. unfold str_le. destruct (str_compare a b); [left|left|right]; congruence. Defined.

Fixpoint starts_with (pre s : pystr) : bool :=
  match pre, s with
  | [], _ => true
  | _ :: _, [] => false
  | x :: pre', y :: s' => (x =? y)%N && starts_with pre' s'
  end.

Definition ends_with (suf s : pystr) : bool := starts_with (rev suf) (rev s).

(** ** Frame extraction *)

(** The name ffmpeg gives to frame [n] under the pattern [frame_%06d.png]. *)
Definition frame_name (n : N) : pystr :=
  lit "frame_" ++ format_06d n ++ lit ".png".

(** The glob pattern [frame_*.png]. *)
Definition glob_frame (name : pystr) : bool :=
  starts_with (lit "frame_") name && ends_with (lit ".png") name
  && (10 <=? length name)%nat.

(** [sorted] on paths of one directory: ordered by name. *)
Definition sorted (names : list pystr) : list pystr := merge_sort str_le names.

(** What running ffmpeg leaves behind: a failure with the captured standard
    error, or the scratch directory as the file system enumerates it. *)
Inductive ffmpeg_outcome :=
| FfmpegFailed (stderr : pystr)
| FfmpegDone (listing : list pystr).

(** [VideoProcessor.extract_frames]: the frame files in the order the
    generator yields them. *)
Definition extract_frames (outcome : ffmpeg_outcome) : result (list pystr) :=
  match outcome with
  | FfmpegFailed stderr =>
      Err (Exc RuntimeError (Some (lit "ffmpeg frame extraction failed: " ++ stderr)))
  | FfmpegDone listing =>
      let frame_files := sorted (filter (fun n => glob_frame n = true) listing) in
      Ok frame_files
  end.

(** ** [ANSIFrameGenerator] *)

Record ANSIFrameGenerator := {
  gen_terminal_width : Z;
  gen_terminal_height : Z
}.

(** [ANSIFrameGenerator.frame_to_ansi]; [rendered] is what the rendering
    library printed for the image, or the exception it raised. *)
Definition frame_to_ansi (self : ANSIFrameGenerator) (rendered : result pystr)
  : result pystr :=
  ansi_output ← rendered;
  let frame_data := ESC :: lit "[" ++ str_of_int (gen_terminal_height self) ++ lit "A" in
  let frame_data := frame_data ++ ansi_output in
  Ok frame_data.

(** How a terminal reads a cursor-up control sequence at the head of a
    text: [ESC [ Pn A] moves the cursor up [Pn] lines, an absent or zero
    parameter standing for one line.  Returns the number of lines and the
    text that follows. *)
Definition is_digit (c : N) : bool := (48 <=? c)%N && (c <=? 57)%N.

Fixpoint read_number (acc : N) (s : pystr) : N * pystr :=
  match s with
  | c :: s' => if is_digit c then read_number (10 * acc + (c - 48))%N s'
               else (acc, s)
  | [] => (acc, s)
  end.

Definition read_cursor_up (s : pystr) : option (Z * pystr) :=
  match s with
  | 27%N :: 91%N :: s' =>
      match read_number 0 s' with
      | (n, 65%N :: rest) => Some (Z.of_N (if (n =? 0)%N then 1 else n), rest)
      | _ => None
      end
  | _ => None
  end.

(** ** UTF-8 *)

(** The number of bytes of a code point in UTF-8. *)
Definition utf8_width (c : N) : nat :=
  if (c <? 128)%N then 1 else if (c <? 2048)%N then 2
  else if (c <? 65536)%N then 3 else 4.

(** The number of bytes of a string in UTF-8. *)
Definition utf8_length (s : pystr) : nat := list_sum (map utf8_width s).

(** [ch.encode("utf-8")] for one code point; surrogates and values beyond
    the Unicode range have no encoding. *)
Definition utf8_encode_char (c : N) : option (list N) :=
  if (c <? 128)%N then Some [c]
  else if (c <? 2048)%N then
    Some [N.lor 192 (N.shiftr c 6); N.lor 128 (N.land c 63)]
  else if (c <? 65536)%N then
    if (55296 <=? c)%N && (c <=? 57343)%N then None
    else Some [N.lor 224 (N.shiftr c 12);
               N.lor 128 (N.land (N.shiftr c 6) 63);
               N.lor 128 (N.land c 63)]
  else if (c <? 1114112)%N then
    Some [N.lor 240 (N.shiftr c 18);
          N.lor 128 (N.land (N.shiftr c 12) 63);
          N.lor 128 (N.land (N.shiftr c 6) 63);
          N.lor 128 (N.land c 63)]
  else None.

Fixpoint utf8_encode (s : pystr) : result (list N) :=
  match s with
  | [] => Ok []
  | c :: s' =>
      match utf8_encode_char c with
      | None => Err (raised_by_runtime UnicodeEncodeError)
      | Some bytes => rest ← utf8_encode s'; Ok (bytes ++ rest)
      end
  end.

(** ** File system and input/output *)

(** Paths are strings; a file system maps the paths of its regular files to
    their text. *)
Abbreviation path := pystr (only parsing).
Abbreviation fs := (gmap pystr pystr) (only parsing).

(** A computation that may change the file system and may raise. *)
Definition io (A : Type) : Type := fs -> result A * fs.

Definition io_ret {A} (a : A) : io A := fun s => (Ok a, s).

Definition io_bind {A B} (m : io A) (f : A -> io B) : io B :=
  fun s => match m s with
           | (Ok a, s') => f a s'
           | (Err e, s') => (Err e, s')
           end.

#[global] Instance io_mret : MRet io := fun A a => io_ret a.
#[global] Instance io_mbind : MBind io := fun A B f m => io_bind m f.

Definition io_lift {A} (r : result A) : io A := fun s => (r, s).

(** [try: body finally: cleanup].  The cleanup runs on every exit of the
    body; an exception of the cleanup replaces the outcome of the body. *)
Definition try_finally {A} (body : io A) (cleanup : io unit) : io A :=
  fun s => let '(r, s1) := body s in
           match cleanup s1 with
           | (Ok _, s2) => (r, s2)
           | (Err e, s2) => (Err e, s2)
           end.

(** Operations on a path or an open text file that the operating system or
    the text encoding can refuse. *)
Inductive file_op :=
| OpOpen (p : path)
| OpWrite (p : path) (s : pystr)
| OpClose (p : path)
| OpExists (p : path)
| OpUnlink (p : path).

Inductive io_error :=
| IOFailure
| EncodeFailure.

Definition exn_of_io_error (e : io_error) : exn :=
  match e with
  | IOFailure => raised_by_runtime OSError
  | EncodeFailure => raised_by_runtime UnicodeEncodeError
  end.

(** An exit of the external compressor. *)
Inductive zstd_exit :=
| ZstdOk
| ZstdNonZero
| ZstdNotStarted.

(** The world outside the program: [with_suffix] of the path library, the
    failures of file operations, and the compressor, which may leave the
    file system in any state. *)
Record Env := {
  with_suffix : path -> pystr -> option path;
  file_fault : file_op -> fs -> option io_error;
  run_zstd : path -> path -> fs -> zstd_exit * fs
}.

Section Encoder.
Context (env : Env).

(** [p.with_suffix(suffix)], which raises [ValueError] on a path without
    a name. *)
Definition path_with_suffix (p : path) (suffix : pystr) : result path :=
  match with_suffix env p suffix with
  | Some q => Ok q
  | None => Err (raised_by_runtime ValueError)
  end.

(** [f.write(s)] on the file opened at [p]. *)
Definition file_write (p : path) (s : pystr) : io unit :=
  fun st => match file_fault env (OpWrite p s) st with
            | Some e => (Err (exn_of_io_error e), st)
            | None => (Ok tt, <[p := default [] (st !! p) ++ s]> st)
            end.

(** [with open(p, "w") as f: body]: the file is created or truncated,
    and closed when the body ends, normally or not. *)
Definition with_open_w {A} (p : path) (body : io A) : io A :=
  fun st => match file_fault env (OpOpen p) st with
            | Some e => (Err (exn_of_io_error e), st)
            | None =>
                let '(r, st1) := body (<[p := []]> st) in
                match file_fault env (OpClose p) st1 with
                | Some e => (Err (exn_of_io_error e), st1)
                | None => (r, st1)
                end
            end.

(** [subprocess.run(["zstd", "-f", temp, "-o", out], check=True)] *)
Definition subprocess_run_zstd (temp out : path) : io unit :=
  fun st => match run_zstd env temp out st with
            | (ZstdOk, st') => (Ok tt, st')
            | (ZstdNonZero, st') => (Err (raised_by_runtime CalledProcessError), st')
            | (ZstdNotStarted, st') => (Err (raised_by_runtime OSError), st')
            end.

(** [p.exists()]: the operating system can refuse the test, as on a
    directory that may not be searched. *)
Definition path_exists (p : path) : io bool :=
  fun st => match file_fault env (OpExists p) st with
            | Some e => (Err (exn_of_io_error e), st)
            | None => (Ok (bool_decide (is_Some (st !! p))), st)
            end.

(** [p.unlink()]: the operating system can refuse the removal, as in a
    directory that may not be written, and then the file stays; a path
    without a file raises [FileNotFoundError], an [OSError]. *)
Definition path_unlink (p : path) : io unit :=
  fun st => match file_fault env (OpUnlink p) st with
            | Some e => (Err (exn_of_io_error e), st)
            | None =>
                match st !! p with
                | Some _ => (Ok tt, delete p st)
                | None => (Err (raised_by_runtime OSError), st)
                end
            end.

(** The [for] loop writing the frames. *)
Fixpoint write_frames (p : path) (frame_data_list : list pystr) : io unit :=
  match frame_data_list with
  | [] => io_ret tt
  | frame_data :: rest => _ ← file_write p frame_data; write_frames p rest
  end.

(** [s * n] on a string: no copy when [n] is not positive. *)
Definition str_repeat (s : pystr) (n : Z) : pystr :=
  concat (repeat s (Z.to_nat n)).

(** The codes that hide and show the cursor. *)
Definition hide_cursor : pystr := ESC :: lit "[?25l".
Definition show_cursor : pystr := ESC :: lit "[?25h".

(** The body of the [with] statement: the uncompressed stream. *)
Definition write_stream (temp_file : path) (frame_data_list : list pystr)
    (terminal_height : Z) : io unit :=
  with_open_w temp_file (
    _ ← file_write temp_file (str_repeat [LF] terminal_height);
    _ ← file_write temp_file hide_cursor;
    _ ← write_frames temp_file frame_data_list;
    file_write temp_file show_cursor).

(** The list comprehension computing the encoded size of every frame. *)
Fixpoint frame_sizes_of (frame_data_list : list pystr) : result (list Z) :=
  match frame_data_list with
  | [] => Ok []
  | frame_data :: rest =>
      bytes ← utf8_encode frame_data;
      sizes ← frame_sizes_of rest;
      Ok (Z.of_nat (length bytes) :: sizes)
  end.

(** [sum] on a list of ints. *)
Definition py_sum (l : list Z) : Z := fold_left Z.add l 0.

(** The dictionary of statistics. *)
Record stats := {
  frame_sizes : list Z;
  total_frames : Z;
  avg_frame_size : number
}.

(** Truthiness of a list. *)
Definition is_nonempty {A} (l : list A) : bool :=
  match l with
  | [] => false
  | _ :: _ => true
  end.

(** The statistics computed once the compressor has succeeded: the
    dictionary that [compress_frames_to_file] returns. *)
Definition calculate_statistics (frame_data_list : list pystr) : result stats :=
  frame_sizes ← frame_sizes_of frame_data_list;
  avg ← (if is_nonempty frame_sizes
         then q ← int_truediv (py_sum frame_sizes) (Z.of_nat (length frame_sizes));
              Ok (PyFloat q)
         else Ok (PyInt 0));
  Ok {| frame_sizes := frame_sizes;
        total_frames := Z.of_nat (length frame_sizes);
        avg_frame_size := avg |}.

(** [compress_frames_to_file] *)
Definition compress_frames_to_file (frame_data_list : list pystr)
    (output_path : path) (terminal_height : Z) : io stats :=
  temp_file ← io_lift (path_with_suffix output_path (lit ".ansi.tmp"));
  try_finally
    (_ ← write_stream temp_file frame_data_list terminal_height;
     _ ← subprocess_run_zstd temp_file output_path;
     io_lift (calculate_statistics frame_data_list))
    (e ← path_exists temp_file;
     if e : bool then path_unlink temp_file else io_ret tt).
End Encoder.

(** ** Playback command *)

(** [generate_playback_command]; [output_path] is the path as formatted
    into the command line. *)
Definition generate_playback_command (output_path : pystr) (fps : float)
    (avg_frame_size : number) : result pystr :=
  a ← to_float avg_frame_size;
  product ← float_mul a fps;
  bytes_per_second ← int_of_float product;
  Ok (lit "cat " ++ output_path ++ lit " | zstd -d | pv -q -L "
      ++ str_of_int bytes_per_second).

(** The exact value of a finite double as a fraction [fnum / fden]. *)
Definition fnum (x : float) : Z :=
  match x with
  | S754_finite s m e =>
      (if s then Z.neg m else Z.pos m) * 2 ^ Z.max e 0
  | _ => 0
  end.

Definition fden (x : float) : Z :=
  match x with
  | S754_finite _ _ e => 2 ^ Z.max (- e) 0
  | _ => 1
  end.

Definition is_finite (x : float) : bool :=
  match x with
  | S754_zero _ | S754_finite _ _ _ => true
  | _ => false
  end.

(** Rounding of a fraction to the nearest integer, ties to the even one, as
    [round] does; the playback contract in the words of the specification
    rounds the byte rate so. *)
Definition round_nearest (n d : Z) : Z :=
  let q := n / d in
  let r := n mod d in
  match 2 * r ?= d with
  | Lt => q
  | Gt => q + 1
  | Eq => if Z.even q then q else q + 1
  end.

Definition spec_bytes_per_second (avg fps : float) : Z :=
  let p := fmul avg fps in round_nearest (fnum p) (fden p).

(** ** Metadata probe *)

(** A value produced by [json.loads]. *)
#[warnings="-register-all"]
Inductive json :=
| JNull
| JBool (b : bool)
| JInt (z : Z)
| JFloat (x : float)
| JStr (s : pystr)
| JList (items : list json)
| JDict (entries : list (pystr * json)).

Definition pystr_eqb (a b : pystr) : bool := bool_decide (a = b).

(** Lookup in a [dict] with string keys. *)
Fixpoint dict_get (entries : list (pystr * json)) (key : pystr) : option json :=
  match entries with
  | [] => None
  | (k, v) :: rest => if pystr_eqb k key then Some v else dict_get rest key
  end.

(** [v[key]] with a string key: only a [dict] can be indexed so. *)
Definition getitem (v : json) (key : pystr) : result json :=
  match v with
  | JDict entries =>
      match dict_get entries key with
      | Some x => Ok x
      | None => Err (raised_by_runtime KeyError)
      end
  | _ => Err (raised_by_runtime TypeError)
  end.

(** The values a [for] loop draws from [v]: the items of a list, the keys
    of a dict, the characters of a string. *)
Definition iterate (v : json) : result (list json) :=
  match v with
  | JList items => Ok items
  | JDict entries => Ok (map (fun kv => JStr (fst kv)) entries)
  | JStr s => Ok (map (fun c => JStr [c]) s)
  | _ => Err (raised_by_runtime TypeError)
  end.

(** [v == "..."] *)
Definition equals_str (v : json) (s : pystr) : bool :=
  match v with
  | JStr t => pystr_eqb t s
  | _ => false
  end.

(** The conversions [int(s)] and [float(s)] of the runtime on a string:
    [None] where they raise [ValueError]. *)
Class StrConversions := {
  int_of_str : pystr -> option Z;
  float_of_str : pystr -> option float
}.

Definition bool_to_Z (b : bool) : Z := if b then 1 else 0.

Section Probe.
Context {conv : StrConversions}.

(** [int(v)] *)
Definition py_int (v : json) : result Z :=
  match v with
  | JInt z => Ok z
  | JBool b => Ok (bool_to_Z b)
  | JFloat x => int_of_float x
  | JStr s => match int_of_str s with
              | Some z => Ok z
              | None => Err (raised_by_runtime ValueError)
              end
  | _ => Err (raised_by_runtime TypeError)
  end.

(** [float(v)] *)
Definition py_float (v : json) : result float :=
  match v with
  | JInt z => float_of_int z
  | JBool b => float_of_int (bool_to_Z b)
  | JFloat x => Ok x
  | JStr s => match float_of_str s with
              | Some x => Ok x
              | None => Err (raised_by_runtime ValueError)
              end
  | _ => Err (raised_by_runtime TypeError)
  end.

(** [s.split("/")]: the pieces between the separators, never empty. *)
Fixpoint split_slash (cur : pystr) (s : pystr) : list pystr :=
  match s with
  | [] => [rev cur]
  | c :: s' => if (c =? 47)%N then rev cur :: split_slash [] s'
               else split_slash (c :: cur) s'
  end.

Definition str_split (v : json) : result (list pystr) :=
  match v with
  | JStr s => Ok (split_slash [] s)
  | _ => Err (raised_by_runtime AttributeError)
  end.

(** [l[i]] on a list. *)
Definition list_item {A} (l : list A) (i : nat) : result A :=
  match l !! i with
  | Some x => Ok x
  | None => Err (raised_by_runtime IndexError)
  end.

(** The loop that looks for the first stream whose type is video; the
    stream found is a dict, given by its entries. *)
Fixpoint find_video_stream (streams : list json)
  : result (option (list (pystr * json))) :=
  match streams with
  | [] => Ok None
  | stream :: rest =>
      codec_type ← getitem stream (lit "codec_type");
      if equals_str codec_type (lit "video")
      then match stream with
           | JDict entries => Ok (Some entries)
           | _ => Err (raised_by_runtime TypeError)
           end
      else find_video_stream rest
  end.

(** What running ffprobe and decoding its output gives: the tool could
    not be started, exited non-zero with the captured standard error,
    printed text that is not JSON, or printed a JSON value. *)
Inductive ffprobe_outcome :=
| ProbeNotStarted
| ProbeExitNonZero (stderr : pystr)
| ProbeNotJson (error : pystr)
| ProbeJson (metadata : json).

Record video_metadata := {
  md_fps : float;
  md_width : Z;
  md_height : Z;
  md_frame_count : Z
}.

Definition set_metadata (self : VideoProcessor) (md : video_metadata)
  : VideoProcessor :=
  {| video_path := video_path self; terminal_width := terminal_width self;
     fps := Some (md_fps md); width := Some (md_width md);
     height := Some (md_height md); frame_count := Some (md_frame_count md);
     terminal_height := terminal_height self |}.

(** The fields read from the video stream once it is found. *)
Definition read_video_stream (metadata : json)
    (video_stream : list (pystr * json)) : result video_metadata :=
  w ← getitem (JDict video_stream) (lit "width");
  w ← py_int w;
  h ← getitem (JDict video_stream) (lit "height");
  h ← py_int h;
  rate ← getitem (JDict video_stream) (lit "r_frame_rate");
  fps_parts ← str_split rate;
  num ← list_item fps_parts 0;
  num ← py_float (JStr num);
  den ← list_item fps_parts 1;
  den ← py_float (JStr den);
  fps ← float_truediv num den;
  frame_count ←
    (if bool_decide (is_Some (dict_get video_stream (lit "nb_frames")))
     then n ← getitem (JDict video_stream) (lit "nb_frames"); py_int n
     else format ← getitem metadata (lit "format");
          d ← getitem format (lit "duration");
          duration ← py_float d;
          p ← float_mul duration fps;
          int_of_float p);
  Ok {| md_fps := fps; md_width := w; md_height := h;
        md_frame_count := frame_count |}.

Definition no_video_stream : exn :=
  Exc ValueError (Some (lit "No video stream found")).

(** [VideoProcessor.get_video_metadata]: the updated object and the
    returned metadata. *)
Definition get_video_metadata (self : VideoProcessor)
    (outcome : ffprobe_outcome) : result (VideoProcessor * video_metadata) :=
  match outcome with
  | ProbeNotStarted => Err (raised_by_runtime OSError)
  | ProbeExitNonZero stderr =>
      Err (Exc RuntimeError (Some (lit "ffprobe failed: " ++ stderr)))
  | ProbeNotJson error =>
      Err (Exc RuntimeError
               (Some (lit "Failed to parse ffprobe output: " ++ error)))
  | ProbeJson metadata =>
      streams ← getitem metadata (lit "streams");
      streams ← iterate streams;
      video_stream ← find_video_stream streams;
      match video_stream with
      | None | Some [] => Err no_video_stream
      | Some video_stream =>
          md ← read_video_stream metadata video_stream;
          Ok (set_metadata self md, md)
      end
  end.
End Probe.

(** A stream of video type, in the words of the specification. *)
Definition is_video_stream (stream : json) : bool :=
  match stream with
  | JDict entries =>
      match dict_get entries (lit "codec_type") with
      | Some t => equals_str t (lit "video")
      | None => false
      end
  | _ => false
  end.

(** The decoded metadata hold a stream of video type. *)
Definition has_video_stream (metadata : json) : bool :=
  match metadata with
  | JDict entries =>
      match dict_get entries (lit "streams") with
      | Some (JList streams) => existsb is_video_stream streams
      | _ => false
      end
  | _ => false
  end.

(** The failure cases named by the specification, read off the outcome of
    the probe: a non-zero exit, output that is not structured data, no
    stream of video type in the decoded metadata. *)
Definition spec_probe_fails (outcome : ffprobe_outcome) : bool :=
  match outcome with
  | ProbeNotStarted => false
  | ProbeExitNonZero _ => true
  | ProbeNotJson _ => true
  | ProbeJson metadata => negb (has_video_stream metadata)
  end.

(** ** Notions used by the properties *)

(** A float that is not negative: a zero, a finite number or an infinity
    with a clear sign bit, or a NaN. *)
Definition sign_clear (x : float) : bool :=
  match x with
  | S754_zero s | S754_infinity s | S754_finite s _ _ => negb s
  | S754_nan => true
  end.

(** The processor of the end-to-end scenario: a 1920 by 1080 source and 80
    requested columns. *)
Definition hd_source : VideoProcessor :=
  {| video_path := lit "video.mp4"; terminal_width := 80; fps := None;
     width := Some 1920; height := Some 1080; frame_count := None;
     terminal_height := None |}.

(** An attribute is unset or zero. *)
Definition unset_or_zero (o : option Z) : Prop := o = None \/ o = Some 0.

(** A 352 by 288 source at 132 columns. *)
Definition cif_source : VideoProcessor :=
  {| video_path := lit "video.mp4"; terminal_width := 132; fps := None;
     width := Some 352; height := Some 288; frame_count := None;
     terminal_height := None |}.

(** The exact value of a double, as a rational number. *)
Definition fval (x : float) : Q :=
  match x with
  | S754_finite s m e =>
      (inject_Z (if s then Z.neg m else Z.pos m) * (2 # 1) ^ e)%Q
  | _ => 0%Q
  end.

(** The relative error bound of one rounding step used below, [2 ^ -52]. *)
Definition ulp_error : Q := 1 # 4503599627370496.

(** The value of a numeral given by its digits, most significant first. *)
Fixpoint be_val (ds : list N) : N :=
  match ds with
  | [] => 0
  | d :: ds' => d * 10 ^ N.of_nat (length ds') + be_val ds'
  end%N.

(** The digits of [decimal n], as numbers. *)
Definition decimal_digits (n : N) : list N :=
  rev (digits_le (S (N.to_nat (N.log2 n))) n).

(** The digits that [%06d] prints. *)
Definition format_06d_digits (n : N) : list N :=
  repeat 0%N (6 - length (decimal_digits n)) ++ decimal_digits n.

(** [a] is yielded at some point before [b]. *)
Definition yielded_before (a b : pystr) (yielded : list pystr) : Prop :=
  exists l1 l2 l3, yielded = l1 ++ a :: l2 ++ b :: l3.

(** No file operation fails. *)
Definition fault_free (env : Env) : Prop :=
  forall op st, file_fault env op st = None.

(** The existence test and the removal at the path [p] never fail. *)
Definition removable (env : Env) (p : pystr) : Prop :=
  forall st, file_fault env (OpExists p) st = None
             /\ file_fault env (OpUnlink p) st = None.

(** The stream in the words of the specification: [rows] newlines, the
    cursor-hide code, the frame blocks in order, the cursor-show code. *)
Definition spec_stream (frame_data_list : list pystr) (rows : Z) : pystr :=
  repeat LF (Z.to_nat rows) ++ hide_cursor ++ concat frame_data_list
  ++ show_cursor.

(** A world for the examples: [out.zst] has the intermediate [out.ansi.tmp],
    no file operation fails and the compressor writes its output. *)
Definition sample_env : Env :=
  {| with_suffix := fun p suffix =>
       if bool_decide (p = lit "out.zst") then Some (lit "out" ++ suffix)
       else None;
     file_fault := fun _ _ => None;
     run_zstd := fun temp out st => (ZstdOk, <[out := lit "compressed"]> st) |}.

(** A world where the compressor exits non-zero. *)
Definition failing_zstd_env : Env :=
  {| with_suffix := with_suffix sample_env;
     file_fault := fun _ _ => None;
     run_zstd := fun temp out st => (ZstdNonZero, st) |}.

(** A world where files can be written but not removed, as in a directory
    that has lost its write permission: every [unlink] is refused. *)
Definition undeletable_env : Env :=
  {| with_suffix := with_suffix sample_env;
     file_fault := fun op _ =>
       match op with
       | OpUnlink _ => Some IOFailure
       | _ => None
       end;
     run_zstd := run_zstd sample_env |}.

(** Two frame blocks for the examples, the second being the lower half
    block character, three bytes long in UTF-8, and their statistics: six
    bytes in two frames, three bytes on average. *)
Definition sample_frames : list pystr := [lit "one"; [9604%N]].

Definition sample_stats : stats :=
  {| frame_sizes := [3; 3]; total_frames := 2;
     avg_frame_size := PyFloat (S754_finite false 6755399441055744 (-51)) |}.

(** What the encoder does once the stream is written: the outcome of the
    compressor decides the result, and the intermediate file is removed. *)
Definition after_compressor (frame_data_list : list pystr) (temp : pystr)
    (z : zstd_exit * gmap pystr pystr) : result stats * gmap pystr pystr :=
  (match fst z with
   | ZstdOk => calculate_statistics frame_data_list
   | ZstdNonZero => Err (raised_by_runtime CalledProcessError)
   | ZstdNotStarted => Err (raised_by_runtime OSError)
   end, delete temp (snd z)).

(** The statistics in the words of the claim: the sizes are the UTF-8
    lengths of the blocks and the average is their sum divided by their
    count, 0 for no block. *)
Definition spec_statistics (l : list pystr) (s : stats) : Prop :=
  frame_sizes s = map (fun frame_data => Z.of_nat (utf8_length frame_data)) l
  /\ total_frames s = Z.of_nat (length l)
  /\ match l with
     | [] => avg_frame_size s = PyInt 0
     | _ :: _ =>
         exists q,
           int_truediv (Z.of_nat (list_sum (map utf8_length l)))
                       (Z.of_nat (length l)) = Ok q
           /\ avg_frame_size s = PyFloat q
     end.

(** A computation that can only fail with the error of a file operation. *)
Definition fails_only_in_io {A} (m : io A) : Prop :=
  forall st, match fst (m st) with
             | Ok _ => True
             | Err x => exists e, x = exn_of_io_error e
             end.

(** The frame rate 25 and the average frame size 2.75 (four frames, eleven
    bytes), as the probe and the encoder compute them. *)
Definition fps_25 : float := S754_finite false 7036874417766400 (-48).

Definition avg_2_75 : float := S754_finite false 6192449487634432 (-51).

(** The fields of the metadata, as read from the first video stream [vs]
    of the decoded output [entries]: width and height converted to ints,
    the frame rate as the quotient of the two parts of [r_frame_rate], and
    the frame count from [nb_frames] when the stream has it, from the
    duration times the frame rate otherwise. *)
Definition extracted_from `{StrConversions} (entries vs : list (pystr * json))
    (md : video_metadata) : Prop :=
  (exists w, dict_get vs (lit "width") = Some w /\ py_int w = Ok (md_width md))
  /\ (exists h, dict_get vs (lit "height") = Some h
                /\ py_int h = Ok (md_height md))
  /\ (exists rate ns ds num den,
        dict_get vs (lit "r_frame_rate") = Some (JStr rate)
        /\ split_slash [] rate !! 0%nat = Some ns
        /\ split_slash [] rate !! 1%nat = Some ds
        /\ float_of_str ns = Some num /\ float_of_str ds = Some den
        /\ is_fzero den = false /\ md_fps md = fdiv num den)
  /\ match dict_get vs (lit "nb_frames") with
     | Some n => py_int n = Ok (md_frame_count md)
     | None =>
         exists format d duration,
           dict_get entries (lit "format") = Some format
           /\ getitem format (lit "duration") = Ok d
           /\ py_float d = Ok duration
           /\ int_of_float (fmul duration (md_fps md)) = Ok (md_frame_count md)
     end.

(** A decoded probe output with one video stream that has no width. *)
Definition stream_without_width : ffprobe_outcome :=
  ProbeJson
    (JDict [(lit "streams",
             JList [JDict [(lit "codec_type", JStr (lit "video"))]])]).

(** String conversions for the examples: they read plain decimal
    numerals. *)
Definition numeral_value (s : pystr) : option Z :=
  if forallb is_digit s && is_nonempty s
  then Some (Z.of_N (fst (read_number 0 s)))
  else None.

Definition numeral_conversions : StrConversions :=
  {| int_of_str := numeral_value;
     float_of_str := fun s => z ← numeral_value s; result_value (float_of_int z) |}.

(** The probe output of the end-to-end scenario: an audio stream, then a
    1920 by 1080 video stream at 30 frames per second with 10 frames. *)
Definition hd_probe_output : list (pystr * json) :=
  [(lit "streams",
    JList [JDict [(lit "codec_type", JStr (lit "audio"))];
           JDict [(lit "codec_type", JStr (lit "video"));
                  (lit "width", JInt 1920); (lit "height", JInt 1080);
                  (lit "r_frame_rate", JStr (lit "30/1"));
                  (lit "nb_frames", JStr (lit "10"))]]);
   (lit "format", JDict [(lit "duration", JStr (lit "0.333333"))])].

Definition hd_metadata : video_metadata :=
  {| md_fps := S754_finite false 8444249301319680 (-48);
     md_width := 1920; md_height := 1080; md_frame_count := 10 |}.

(** ** Notions used by the further properties *)

(** A float that is not positive: a zero, a NaN, or a finite number or an
    infinity with the sign bit set. *)
Definition not_positive (x : float) : bool :=
  match x with
  | S754_zero _ | S754_nan => true
  | S754_infinity s | S754_finite s _ _ => s
  end.

(** A stream of the probe output that is well formed and not of video
    type: a dict whose [codec_type] is something other than [video]. *)
Definition other_stream (stream : json) : Prop :=
  exists entries t,
    stream = JDict entries
    /\ dict_get entries (lit "codec_type") = Some t
    /\ equals_str t (lit "video") = false.

(** A probe output whose only stream is an audio stream. *)
Definition audio_stream : json :=
  JDict [(lit "codec_type", JStr (lit "audio"))].

Definition audio_only_output : list (pystr * json) :=
  [(lit "streams", JList [audio_stream])].

(** A probe output whose video stream reports the frame rate [0/0]. *)
Definition zero_rate_stream : list (pystr * json) :=
  [(lit "codec_type", JStr (lit "video"));
   (lit "width", JInt 640); (lit "height", JInt 480);
   (lit "r_frame_rate", JStr (lit "0/0"))].

(** The 1920 by 1080 source with a requested width of -80 columns. *)
Definition negative_width_source : VideoProcessor :=
  {| video_path := lit "video.mp4"; terminal_width := -80; fps := None;
     width := Some 1920; height := Some 1080; frame_count := None;
     terminal_height := None |}.

(** A world in which the disk is full: every write fails. *)
Definition full_disk_env : Env :=
  {| with_suffix := with_suffix sample_env;
     file_fault := fun op _ =>
       match op with
       | OpWrite _ _ => Some IOFailure
       | _ => None
       end;
     run_zstd := run_zstd sample_env |}.

(** A file system holding one unrelated file. *)
Definition one_file : gmap pystr pystr := {[ lit "notes.txt" := lit "keep" ]}.

(** The frame numbers 1 to [n]. *)
Definition frame_numbers (n : nat) : list N := map N.of_nat (seq 1 n).

(** ** Command lines *)

(** The argument list with which [get_video_metadata] runs ffprobe. *)
Definition ffprobe_command (self : VideoProcessor) : list pystr :=
  [lit "ffprobe"; lit "-v"; lit "quiet"; lit "-print_format"; lit "json";
   lit "-show_format"; lit "-show_streams"; video_path self].

(** The argument list with which [extract_frames] runs ffmpeg;
    [frame_pattern] is the path of [frame_%06d.png] inside the output
    directory, as a string.  The doubling of a terminal height that is
    still [None] raises [TypeError]. *)
Definition ffmpeg_command (self : VideoProcessor) (frame_pattern : pystr)
  : result (list pystr) :=
  match terminal_height self with
  | None => Err (raised_by_runtime TypeError)
  | Some th =>
      Ok [lit "ffmpeg"; lit "-v"; lit "quiet"; lit "-nostats"; lit "-i";
          video_path self; lit "-y"; lit "-vf";
          lit "scale=" ++ str_of_int (terminal_width self) ++ lit ":"
            ++ str_of_int (th * 2);
          frame_pattern]
  end.

(** ** Formatting of floats *)

(** The numeral of [n] padded with zeros on the left to [d] digits. *)
Definition zero_padded (d : nat) (n : N) : pystr :=
  repeat 48%N (d - length (decimal n)) ++ decimal n.

Definition float_sign (x : float) : bool :=
  match x with
  | S754_zero s | S754_infinity s | S754_finite s _ _ => s
  | S754_nan => false
  end.

(** [format(x, ".df")] for [d] decimals: the exact value rounded to the
    nearest multiple of [10 ^ -d], ties to even. *)
Definition format_fixed (d : nat) (x : float) : pystr :=
  match x with
  | S754_nan => lit "nan"
  | S754_infinity s => (if s then lit "-" else []) ++ lit "inf"
  | _ =>
      let scale := 10 ^ Z.of_nat d in
      let n := round_nearest (Z.abs (fnum x) * scale) (fden x) in
      (if float_sign x then lit "-" else [])
      ++ decimal (Z.to_N (n / scale))
      ++ match d with
         | O => []
         | _ => lit "." ++ zero_padded d (Z.to_N (n mod scale))
         end
  end.

(** ** The program *)

(** The parsed command line. *)
Record Args := {
  arg_video : pystr;
  arg_width : Z;
  arg_output : option pystr
}.

(** What one [print] puts on the error stream: a text, or [Error: ]
    followed by the message of an exception, which may span several
    lines. *)
Inductive err_line :=
| ErrText (s : pystr)
| ErrException (e : exn).

(** The file system and the two output streams. *)
Record world := {
  files : gmap pystr pystr;
  stdout : pystr;
  stderr : list err_line
}.

(** How the process ends: with an exit code, or with an exception that
    nothing caught. *)
Inductive exit_status :=
| Exit (code : Z)
| Uncaught (e : exn).

(** What [main] meets outside the program beyond [Env]: the outcomes of
    ffprobe and ffmpeg on their command lines, the scratch directory (none
    when it cannot be created), the joining of a directory and a name by
    the path library, and what the rendering library prints for a frame
    file, named as the directory lists it.  The scratch directory and the
    images in it are held here, not in [files]; its removal at the end of
    the [with] statement does not fail, and neither does printing. *)
Record Externals := {
  ext_env : Env;
  ext_ffprobe : list pystr -> ffprobe_outcome;
  ext_scratch : option pystr;
  ext_join : pystr -> pystr -> pystr;
  ext_ffmpeg : list pystr -> ffmpeg_outcome;
  ext_render : ANSIFrameGenerator -> pystr -> result pystr
}.

(** A computation of [main]: it may change the world and may raise. *)
Definition run (A : Type) : Type := world -> result A * world.

Definition run_ret {A} (a : A) : run A := fun w => (Ok a, w).

Definition run_bind {A B} (m : run A) (f : A -> run B) : run B :=
  fun w => match m w with
           | (Ok a, w') => f a w'
           | (Err e, w') => (Err e, w')
           end.

#[global] Instance run_mret : MRet run := fun A a => run_ret a.
#[global] Instance run_mbind : MBind run := fun A B f m => run_bind m f.

Definition run_lift {A} (r : result A) : run A := fun w => (r, w).

Definition run_io {A} (m : io A) : run A :=
  fun w => let '(r, st) := m (files w) in
           (r, {| files := st; stdout := stdout w; stderr := stderr w |}).

(** [print(s, end=e)] *)
Definition print_end (s e : pystr) : run unit :=
  fun w => (Ok tt, {| files := files w; stdout := stdout w ++ s ++ e;
                      stderr := stderr w |}).

(** [print(s)] *)
Definition print (s : pystr) : run unit := print_end s [LF].

Definition print_stderr (l : err_line) (w : world) : world :=
  {| files := files w; stdout := stdout w; stderr := stderr w ++ [l] |}.

(** The carriage return. *)
Definition CR : N := 13%N.

Section Main.
Context {conv : StrConversions} (ext : Externals).

(** The loop over the extracted frames. *)
Fixpoint process_frames (ansi_gen : ANSIFrameGenerator) (frames : list pystr)
    (frame_count : Z) (all_frame_data : list pystr) : run (Z * list pystr) :=
  match frames with
  | [] => run_ret (frame_count, all_frame_data)
  | frame_path :: rest =>
      _ ← print_end (lit "Processing frame " ++ str_of_int (frame_count + 1)
                      ++ lit "...") [CR];
      ansi_frame ← run_lift
        (frame_to_ansi ansi_gen (ext_render ext ansi_gen frame_path));
      process_frames ansi_gen rest (frame_count + 1)
        (all_frame_data ++ [ansi_frame])
  end.

(** The body of the [with tempfile.TemporaryDirectory()] statement, with
    the creation of the directory. *)
Definition extract_and_render (processor : VideoProcessor)
    (ansi_gen : ANSIFrameGenerator) : run (list pystr) :=
  temp_path ← run_lift (match ext_scratch ext with
                        | Some d => Ok d
                        | None => Err (raised_by_runtime OSError)
                        end);
  _ ← print (lit "Extracting frames...");
  cmd ← run_lift (ffmpeg_command processor
                    (ext_join ext temp_path (lit "frame_%06d.png")));
  frames ← run_lift (extract_frames (ext_ffmpeg ext cmd));
  '(frame_count, all_frame_data) ← process_frames ansi_gen frames 0 [];
  _ ← print (LF :: lit "Processed " ++ str_of_int frame_count ++ lit " frames");
  run_ret all_frame_data.

(** The body of the [try] statement of [main]. *)
Definition main_try (args : Args) (output : pystr) : run unit :=
  let processor := VideoProcessor_init (arg_video args) (arg_width args) in
  _ ← print (lit "Extracting video metadata...");
  '(processor, metadata) ← run_lift
    (get_video_metadata processor (ext_ffprobe ext (ffprobe_command processor)));
  _ ← print (lit "Video: " ++ str_of_int (md_width metadata) ++ lit "x"
             ++ str_of_int (md_height metadata) ++ lit ", "
             ++ format_fixed 2 (md_fps metadata) ++ lit " fps, "
             ++ str_of_int (md_frame_count metadata) ++ lit " frames");
  '(processor, (term_width, term_height)) ← run_lift
    (calculate_terminal_dimensions processor);
  _ ← print (lit "Terminal dimensions: " ++ str_of_int term_width ++ lit "x"
             ++ str_of_int term_height);
  let ansi_gen := {| gen_terminal_width := term_width;
                     gen_terminal_height := term_height |} in
  all_frame_data ← extract_and_render processor ansi_gen;
  _ ← print (lit "Compressing frames...");
  compression_metadata ← run_io
    (compress_frames_to_file (ext_env ext) all_frame_data output term_height);
  playback_cmd ← run_lift
    (generate_playback_command output (md_fps metadata)
       (avg_frame_size compression_metadata));
  _ ← print (LF :: lit "Output file: " ++ output);
  _ ← print (lit "Compressed " ++ str_of_int (total_frames compression_metadata)
             ++ lit " frames");
  avg ← run_lift (to_float (avg_frame_size compression_metadata));
  _ ← print (lit "Average frame size: " ++ format_fixed 0 avg ++ lit " bytes");
  _ ← print (LF :: lit "To play back:");
  print (lit "  " ++ playback_cmd).

(** The output path: the one given, or the video path with the suffix
    [.zst]. *)
Definition output_path_of (args : Args) : result pystr :=
  match arg_output args with
  | Some output => Ok output
  | None => path_with_suffix (ext_env ext) (arg_video args) (lit ".zst")
  end.

(** The three lines printed before the [try] statement. *)
Definition banner (args : Args) (output : pystr) : run unit :=
  _ ← print (lit "Processing video: " ++ arg_video args);
  _ ← print (lit "Terminal width: " ++ str_of_int (arg_width args));
  print (lit "Output: " ++ output).

(** [main], after the parsing of the command line.  The existence test
    and the forming of the default output path stand before the [try]
    statement: what they raise is caught by nothing. *)
Definition main (args : Args) (w : world) : exit_status * world :=
  match fst (path_exists (ext_env ext) (arg_video args) (files w)) with
  | Err e => (Uncaught e, w)
  | Ok false =>
      (Exit 1,
       print_stderr
         (ErrText (lit "Error: Video file not found: " ++ arg_video args)) w)
  | Ok true =>
      match output_path_of args with
      | Err e => (Uncaught e, w)
      | Ok output =>
          match main_try args output (snd (banner args output w)) with
          | (Ok _, w2) => (Exit 0, w2)
          | (Err e, w2) => (Exit 1, print_stderr (ErrException e) w2)
          end
      end
  end.
End Main.

(** A computation of [main] that leaves a component of the world as it
    was. *)
Definition preserves {A X} (f : world -> X) (m : run A) : Prop :=
  forall w, f (snd (m w)) = f w.

(** The block of one frame: the cursor-up sequence for [rows] lines and
    the rendered output. *)
Definition frame_block (rows : Z) (ansi_output : pystr) : pystr :=
  ESC :: lit "[" ++ str_of_int rows ++ lit "A" ++ ansi_output.

(** The outside world of the end-to-end scenario: the probe reports the
    1920 by 1080 video, ffmpeg leaves two frames that the directory lists
    in reverse, and the rendering of a frame file is its name in angle
    brackets. *)
Definition hd_externals : Externals :=
  {| ext_env := sample_env;
     ext_ffprobe := fun _ => ProbeJson (JDict hd_probe_output);
     ext_scratch := Some (lit "/tmp/scratch");
     ext_join := fun d n => d ++ lit "/" ++ n;
     ext_ffmpeg := fun _ => FfmpegDone [frame_name 2; frame_name 1];
     ext_render := fun _ frame => Ok (lit "<" ++ frame ++ lit ">") |}.

Definition hd_args : Args :=
  {| arg_video := lit "video.mp4"; arg_width := 80;
     arg_output := Some (lit "out.zst") |}.

(** A world that holds the video and nothing else. *)
Definition hd_world : world :=
  {| files := {[ lit "video.mp4" := lit "video" ]}; stdout := [];
     stderr := [] |}.

(** * Properties *)

(** Runs the binds of the exception monad whose first computation is a
    value or an exception. *)
Ltac bind_simpl := cbn [mbind result_mbind result_bind].

(** ** Floats: signs *)

Lemma binary_round_aux_sign_clear mx ex lx :
  sign_clear (binary_round_aux prec emax false mx ex lx) = true.
Proof.
  unfold binary_round_aux.
  destruct (shr_fexp prec emax mx ex lx) as [mrs' e'].
  destruct (shr_fexp prec emax _ e' loc_Exact) as [mrs'' e''].
  destruct (shr_m mrs''); try reflexivity.
  destruct (e'' <=? emax - prec)%Z; reflexivity.
Qed.

Lemma fdiv_sign_clear x y :
  sign_clear x = true -> sign_clear y = true -> sign_clear (fdiv x y) = true.
Proof.
  destruct x as [[]|[]| |[] mx ex], y as [[]|[]| |[] my ey];
    cbn; try discriminate; try reflexivity; intros _ _.
  unfold fdiv, SFdiv.
  destruct (SFdiv_core_binary prec emax (Z.pos mx) ex (Z.pos my) ey) as [[mz ez] lz].
  apply binary_round_aux_sign_clear.
Qed.

Lemma fmul_sign_clear x y :
  sign_clear x = true -> sign_clear y = true -> sign_clear (fmul x y) = true.
Proof.
  destruct x as [[]|[]| |[] mx ex], y as [[]|[]| |[] my ey];
    cbn; try discriminate; try reflexivity; intros _ _.
  apply binary_round_aux_sign_clear.
Qed.

Lemma binary_normalize_sign_clear z :
  0 <= z -> sign_clear (binary_normalize prec emax z 0 false) = true.
Proof.
  destruct z as [|p|p]; intros Hz; try lia; [reflexivity|].
  unfold binary_normalize, binary_round.
  destruct (shl_align p 0 _) as [mz ez].
  apply binary_round_aux_sign_clear.
Qed.

Lemma exact_of_int_sign_clear z : 0 <= z -> sign_clear (exact_of_int z) = true.
Proof. destruct z; intros; try lia; reflexivity. Qed.

Lemma truthy_mod2_is_odd z : negb (z mod 2 =? 0) = Z.odd z.
Proof.
  rewrite Zmod_odd. destruct (Z.odd z); reflexivity.
Qed.

(** ** Floats: range

    Rounding, division and conversion from an int stay finite as long as
    the magnitudes are far from the ends of the double range. *)

Lemma digits2_pos_bounds p :
  2 ^ (Z.pos (digits2_pos p) - 1) <= Z.pos p < 2 ^ Z.pos (digits2_pos p).
Proof.
  induction p as [p IH|p IH|]; cbn [digits2_pos].
  - rewrite Pos2Z.inj_succ.
    replace (Z.succ (Z.pos (digits2_pos p)) - 1) with (Z.succ (Z.pos (digits2_pos p) - 1)) by lia.
    rewrite !Z.pow_succ_r by lia. lia.
  - rewrite Pos2Z.inj_succ.
    replace (Z.succ (Z.pos (digits2_pos p)) - 1) with (Z.succ (Z.pos (digits2_pos p) - 1)) by lia.
    rewrite !Z.pow_succ_r by lia. lia.
  - cbn. lia.
Qed.

Lemma Zdigits2_bounds m :
  0 < m -> 2 ^ (Zdigits2 m - 1) <= m < 2 ^ Zdigits2 m.
Proof.
  destruct m as [|p|p]; try lia. intros _. apply digits2_pos_bounds.
Qed.

Lemma Zdigits2_pos m : 0 < m -> 0 < Zdigits2 m.
Proof. destruct m; cbn; lia. Qed.

Lemma Zdigits2_unique m k :
  2 ^ (k - 1) <= m < 2 ^ k -> 0 < k -> Zdigits2 m = k.
Proof.
  intros [Hlo Hhi] Hk.
  assert (Hm : 0 < m).
  { assert (0 < 2 ^ (k - 1)) by (apply Z.pow_pos_nonneg; lia). lia. }
  pose proof (Zdigits2_bounds m Hm) as [Dlo Dhi].
  pose proof (Zdigits2_pos m Hm) as Dpos.
  destruct (Z.lt_trichotomy (Zdigits2 m) k) as [Hlt|[Heq|Hgt]]; [|exact Heq|].
  - exfalso. assert (2 ^ Zdigits2 m <= 2 ^ (k - 1)) by (apply Z.pow_le_mono_r; lia). lia.
  - exfalso. assert (2 ^ k <= 2 ^ (Zdigits2 m - 1)) by (apply Z.pow_le_mono_r; lia). lia.
Qed.

Lemma shr_1_m r : 0 <= shr_m r -> shr_m (shr_1 r) = shr_m r / 2.
Proof.
  destruct r as [m r s]. cbn [shr_m]. intros Hm.
  rewrite <- Z.div2_div.
  destruct m as [|[p|p|]|p]; try lia; reflexivity.
Qed.

Lemma iter_pos_shr_1_m p : forall r,
  0 <= shr_m r -> shr_m (SpecFloat.iter_pos shr_1 p r) = shr_m r / 2 ^ Z.pos p.
Proof.
  induction p as [p IH|p IH|]; intros r Hr; cbn [SpecFloat.iter_pos].
  - assert (H1 : 0 <= shr_m (shr_1 r)).
    { rewrite shr_1_m by exact Hr. apply Z.div_pos; lia. }
    assert (H2 : 0 <= shr_m (SpecFloat.iter_pos shr_1 p (shr_1 r))).
    { rewrite IH by exact H1. apply Z.div_pos; [lia|]. apply Z.pow_pos_nonneg; lia. }
    rewrite IH by exact H2. rewrite IH by exact H1. rewrite shr_1_m by exact Hr.
    rewrite !Z.div_div by (try apply Z.pow_pos_nonneg; lia).
    f_equal. replace (Z.pos p~1) with (Z.pos p + Z.pos p + 1) by lia.
    rewrite !Z.pow_add_r by lia. change (2 ^ 1) with 2. lia.
  - assert (H2 : 0 <= shr_m (SpecFloat.iter_pos shr_1 p r)).
    { rewrite IH by exact Hr. apply Z.div_pos; [lia|]. apply Z.pow_pos_nonneg; lia. }
    rewrite IH by exact H2. rewrite IH by exact Hr.
    rewrite !Z.div_div by (try apply Z.pow_pos_nonneg; lia).
    f_equal. replace (Z.pos p~0) with (Z.pos p + Z.pos p) by lia.
    rewrite Z.pow_add_r by lia. reflexivity.
  - rewrite shr_1_m by exact Hr. reflexivity.
Qed.

Lemma shr_record_of_loc_m m l : shr_m (shr_record_of_loc m l) = m.
Proof. destruct l as [|[]]; reflexivity. Qed.

(** The mantissa and exponent after [shr_fexp]. *)
Lemma shr_fexp_spec m e l :
  0 <= m ->
  let n := Z.max 0 (fexp prec emax (Zdigits2 m + e) - e) in
  shr_m (fst (shr_fexp prec emax m e l)) = m / 2 ^ n
  /\ snd (shr_fexp prec emax m e l) = e + n.
Proof.
  intros Hm n. unfold shr_fexp, shr.
  subst n.
  destruct (fexp prec emax (Zdigits2 m + e) - e) as [|p|p] eqn:E; cbn [fst snd].
  - rewrite shr_record_of_loc_m. change (Z.max 0 0) with 0. cbn. rewrite Z.div_1_r. lia.
  - rewrite iter_pos_shr_1_m by (rewrite shr_record_of_loc_m; exact Hm).
    rewrite shr_record_of_loc_m. rewrite Z.max_r by lia. split; reflexivity.
  - rewrite shr_record_of_loc_m. rewrite Z.max_l by lia. cbn. rewrite Z.div_1_r. lia.
Qed.

Lemma round_nearest_even_bounds m l :
  m <= round_nearest_even m l <= m + 1.
Proof.
  unfold round_nearest_even. destruct l as [|[]]; try lia.
  destruct (Z.even m); lia.
Qed.

(** Rounding a number of at least [prec] digits whose magnitude is in the
    normal range gives a finite nonzero float of about the same magnitude. *)
Lemma binary_round_aux_finite s mx ex lx :
  0 < mx ->
  let D := Zdigits2 mx + ex in
  ex <= D - prec -> 3 - emax <= D -> D <= emax - 1 ->
  exists m e,
    binary_round_aux prec emax s mx ex lx = S754_finite s m e
    /\ D <= Z.pos (digits2_pos m) + e <= D + 1.
Proof.
  intros Hmx D Hex Hlo Hhi.
  unfold binary_round_aux.
  pose proof (shr_fexp_spec mx ex lx ltac:(lia)) as [Hm1 He1]. cbn zeta in Hm1, He1.
  destruct (shr_fexp prec emax mx ex lx) as [mrs' e']. cbn [fst snd] in Hm1, He1.
  pose proof (Zdigits2_bounds mx Hmx) as [Blo Bhi].
  fold D in Hm1, He1.
  assert (Hfexp : fexp prec emax D = D - prec).
  { unfold fexp, emin, prec, emax in *. lia. }
  rewrite Hfexp in Hm1, He1.
  set (n := D - prec - ex) in *.
  rewrite Z.max_r in Hm1, He1 by lia.
  assert (He' : e' = D - prec) by lia. clear He1.
  (* the shifted mantissa has exactly prec digits *)
  assert (Hdig : Zdigits2 mx = prec + n) by (unfold D in n; lia).
  assert (Hpn : 0 < 2 ^ n) by (apply Z.pow_pos_nonneg; lia).
  assert (Hm'lo : 2 ^ (prec - 1) <= shr_m mrs').
  { rewrite Hm1. apply Z.div_le_lower_bound; [lia|].
    rewrite Z.mul_comm, <- Z.pow_add_r by (unfold prec; lia).
    replace (prec - 1 + n) with (Zdigits2 mx - 1) by lia. exact Blo. }
  assert (Hm'hi : shr_m mrs' < 2 ^ prec).
  { rewrite Hm1. apply Z.div_lt_upper_bound; [lia|].
    rewrite <- Z.pow_add_r by (unfold prec; lia).
    replace (n + prec) with (Zdigits2 mx) by lia. exact Bhi. }
  pose proof (round_nearest_even_bounds (shr_m mrs') (loc_of_shr_record mrs')) as Hr.
  set (m1 := round_nearest_even (shr_m mrs') (loc_of_shr_record mrs')) in *.
  assert (Hp1 : 0 < 2 ^ (prec - 1)) by (apply Z.pow_pos_nonneg; unfold prec; lia).
  pose proof (shr_fexp_spec m1 e' loc_Exact ltac:(lia)) as [Hm2 He2]. cbn zeta in Hm2, He2.
  destruct (shr_fexp prec emax m1 e' loc_Exact) as [mrs'' e'']. cbn [fst snd] in Hm2, He2.
  destruct (Z.eq_dec m1 (2 ^ prec)) as [Hcarry|Hno].
  - (* the rounding carried into one more digit *)
    assert (Hd1 : Zdigits2 m1 = prec + 1).
    { apply Zdigits2_unique; [|unfold prec; lia].
      replace (prec + 1 - 1) with prec by lia. rewrite Hcarry.
      split; [lia|]. apply Z.pow_lt_mono_r; unfold prec; lia. }
    rewrite Hd1 in Hm2, He2.
    assert (Hf : fexp prec emax (prec + 1 + e') = e' + 1).
    { unfold fexp, emin, prec, emax in *. lia. }
    rewrite Hf in Hm2, He2.
    replace (e' + 1 - e') with 1 in Hm2, He2 by lia.
    change (Z.max 0 1) with 1 in Hm2, He2. change (2 ^ 1) with 2 in Hm2.
    assert (Hm'' : shr_m mrs'' = 2 ^ (prec - 1)).
    { rewrite Hm2, Hcarry. replace prec with (Z.succ (prec - 1)) at 1 by lia.
      rewrite Z.pow_succ_r by (unfold prec; lia).
      rewrite Z.mul_comm, Z.div_mul by lia. reflexivity. }
    rewrite Hm''.
    destruct (2 ^ (prec - 1)) as [|p|p] eqn:Ep; try lia.
    assert (Hle : (e'' <=? emax - prec) = true)
      by (apply Z.leb_le; unfold prec, emax in *; lia).
    rewrite Hle. exists p, e''. split; [reflexivity|].
    assert (Hdp : Zdigits2 (Z.pos p) = prec).
    { apply Zdigits2_unique; [|unfold prec; lia]. rewrite <- Ep.
      split; [lia|]. apply Z.pow_lt_mono_r; unfold prec; lia. }
    cbn [Zdigits2] in Hdp. rewrite Hdp. lia.
  - assert (Hd1 : Zdigits2 m1 = prec).
    { apply Zdigits2_unique; [lia|unfold prec; lia]. }
    rewrite Hd1 in Hm2, He2.
    assert (Hf : fexp prec emax (prec + e') = e').
    { unfold fexp, emin, prec, emax in *. lia. }
    rewrite Hf in Hm2, He2.
    replace (e' - e') with 0 in Hm2, He2 by lia.
    change (Z.max 0 0) with 0 in Hm2, He2. change (2 ^ 0) with 1 in Hm2.
    rewrite Z.div_1_r in Hm2. rewrite Hm2.
    destruct m1 as [|p|p] eqn:Ep; try lia.
    assert (Hle : (e'' <=? emax - prec) = true)
      by (apply Z.leb_le; unfold prec, emax in *; lia).
    rewrite Hle. exists p, e''. split; [reflexivity|].
    cbn [Zdigits2] in Hd1. rewrite Hd1. lia.
Qed.

Lemma Zdigits2_shift m d :
  0 < m -> 0 <= d -> Zdigits2 (m * 2 ^ d) = Zdigits2 m + d.
Proof.
  intros Hm Hd. pose proof (Zdigits2_bounds m Hm) as [Blo Bhi].
  pose proof (Zdigits2_pos m Hm) as Dpos.
  assert (Hp : 0 < 2 ^ d) by (apply Z.pow_pos_nonneg; lia).
  apply Zdigits2_unique; [|lia].
  replace (Zdigits2 m + d - 1) with (Zdigits2 m - 1 + d) by lia.
  rewrite !Z.pow_add_r by lia. split; nia.
Qed.

(** The quotient of two finite nonzero floats whose magnitudes are far
    from the ends of the range is a finite nonzero float. *)
Lemma SFdiv_finite sx mx ex sy my ey :
  let delta := (Z.pos (digits2_pos mx) + ex) - (Z.pos (digits2_pos my) + ey) in
  3 - emax <= delta -> delta <= emax - 2 ->
  exists m e,
    SFdiv prec emax (S754_finite sx mx ex) (S754_finite sy my ey)
    = S754_finite (xorb sx sy) m e
    /\ delta <= Z.pos (digits2_pos m) + e <= delta + 2.
Proof.
  intros delta Hlo Hhi. unfold SFdiv, SFdiv_core_binary.
  change (Zdigits2 (Z.pos mx)) with (Z.pos (digits2_pos mx)).
  change (Zdigits2 (Z.pos my)) with (Z.pos (digits2_pos my)).
  set (d1 := Z.pos (digits2_pos mx)) in *.
  set (d2 := Z.pos (digits2_pos my)) in *.
  replace (d1 + ex - (d2 + ey)) with delta by (unfold delta; lia).
  assert (Hfexp : fexp prec emax delta = delta - prec).
  { unfold fexp, emin, prec, emax in *. lia. }
  rewrite Hfexp.
  set (e' := Z.min (delta - prec) (ex - ey)).
  set (s := ex - ey - e').
  assert (Hs : 0 <= s) by (unfold s, e'; lia).
  set (m' := match s with
             | 0 => Z.pos mx
             | Z.pos _ => Z.shiftl (Z.pos mx) s
             | Z.neg _ => 0
             end).
  assert (Hm' : m' = Z.pos mx * 2 ^ s).
  { unfold m'. clearbody s. destruct s as [|p|p]; try lia.
    apply Z.shiftl_mul_pow2. lia. }
  pose proof (Z_div_mod m' (Z.pos my) ltac:(lia)) as Hdm.
  destruct (Z.div_eucl m' (Z.pos my)) as [q r] eqn:Hqr.
  assert (Hq : q = m' / Z.pos my).
  { unfold Z.div. rewrite Hqr. reflexivity. }
  pose proof (digits2_pos_bounds mx) as [B1lo B1hi].
  pose proof (digits2_pos_bounds my) as [B2lo B2hi].
  fold d1 in B1lo, B1hi. fold d2 in B2lo, B2hi.
  set (k := delta - e').
  assert (Hk : prec <= k) by (unfold k, e'; lia).
  assert (Hkd : k = d1 + s - d2) by (unfold k, s, delta; lia).
  assert (Hd1 : 0 < d1) by (unfold d1; lia).
  assert (Hd2 : 0 < d2) by (unfold d2; lia).
  assert (Hps : 0 < 2 ^ s) by (apply Z.pow_pos_nonneg; lia).
  assert (Hqlo : 2 ^ (k - 1) <= q).
  { rewrite Hq, Hm'. apply Z.div_le_lower_bound; [lia|].
    assert (E : 2 ^ (d2 - 1) * 2 ^ 1 * 2 ^ (k - 1) = 2 ^ (d1 - 1) * 2 ^ s).
    { rewrite <- !Z.pow_add_r by (unfold prec in *; lia).
      apply (f_equal (Z.pow 2)). lia. }
    assert (E2 : 2 ^ d2 = 2 ^ (d2 - 1) * 2 ^ 1).
    { rewrite <- Z.pow_add_r by lia. apply (f_equal (Z.pow 2)). lia. }
    change (2 ^ 1) with 2 in E, E2.
    assert (0 < 2 ^ (k - 1)) by (apply Z.pow_pos_nonneg; unfold prec in *; lia).
    nia. }
  assert (Hqhi : q < 2 ^ (k + 1)).
  { rewrite Hq, Hm'. apply Z.div_lt_upper_bound; [lia|].
    assert (E : 2 ^ (d2 - 1) * 2 ^ (k + 1) = 2 ^ d1 * 2 ^ s).
    { rewrite <- !Z.pow_add_r by (unfold prec in *; lia).
      apply (f_equal (Z.pow 2)). lia. }
    assert (0 < 2 ^ (k + 1)) by (apply Z.pow_pos_nonneg; unfold prec in *; lia).
    nia. }
  assert (Hqpos : 0 < q).
  { assert (0 < 2 ^ (k - 1)) by (apply Z.pow_pos_nonneg; unfold prec in *; lia).
    lia. }
  assert (Hdq : Zdigits2 q = k \/ Zdigits2 q = k + 1).
  { destruct (Z_lt_le_dec q (2 ^ k)) as [Hlt|Hge].
    - left. apply Zdigits2_unique; [lia|unfold prec in *; lia].
    - right. apply Zdigits2_unique; [|unfold prec in *; lia].
      replace (k + 1 - 1) with k by lia. lia. }
  destruct (binary_round_aux_finite (xorb sx sy) q e' (new_location (Z.pos my) r) Hqpos)
    as (m & e & Hround & Hrange).
  - unfold e'. unfold k, e' in Hdq. lia.
  - unfold k in Hdq. lia.
  - unfold k in Hdq. lia.
  - exists m, e. split; [exact Hround|].
    unfold k in Hdq. lia.
Qed.

Lemma binary_normalize_finite p :
  Z.pos (digits2_pos p) <= emax - 1 ->
  exists m e,
    binary_normalize prec emax (Z.pos p) 0 false = S754_finite false m e
    /\ Z.pos (digits2_pos p) <= Z.pos (digits2_pos m) + e
       <= Z.pos (digits2_pos p) + 1.
Proof.
  intros Hhi. unfold binary_normalize, binary_round.
  rewrite Z.add_0_r.
  set (d := Z.pos (digits2_pos p)) in *.
  assert (Hfexp : fexp prec emax d = d - prec).
  { unfold fexp, emin, prec, emax in *. lia. }
  rewrite Hfexp. unfold shl_align. rewrite Z.sub_0_r.
  destruct (d - prec) as [|n|n] eqn:En.
  - destruct (binary_round_aux_finite false (Z.pos p) 0 loc_Exact)
      as (m & e & Hr & Hrange); cbn [Zdigits2]; fold d;
      try (unfold prec, emax in *; lia).
    exists m, e. split; [exact Hr|]. cbn [Zdigits2] in Hrange. lia.
  - destruct (binary_round_aux_finite false (Z.pos p) 0 loc_Exact)
      as (m & e & Hr & Hrange); cbn [Zdigits2]; fold d;
      try (unfold prec, emax in *; lia).
    exists m, e. split; [exact Hr|]. cbn [Zdigits2] in Hrange. lia.
  - assert (Hshift : Z.pos (Pos.iter xO p n) = Z.pos p * 2 ^ Z.pos n).
    { change (Pos.iter xO p n) with (shift_pos n p).
      rewrite shift_pos_correct, Zpower_pos_nat, Zpower_nat_Z,
        positive_nat_Z. lia. }
    assert (Hdig : Zdigits2 (Z.pos (Pos.iter xO p n)) = d + Z.pos n).
    { rewrite Hshift. apply (Zdigits2_shift (Z.pos p) (Z.pos n)); lia. }
    destruct (binary_round_aux_finite false (Z.pos (Pos.iter xO p n))
                (Z.neg n) loc_Exact)
      as (m & e & Hr & Hrange); rewrite ?Hdig;
      try (unfold prec, emax in *; lia).
    exists m, e. split; [exact Hr|]. rewrite Hdig in Hrange. lia.
Qed.

Lemma digits2_pos_upper p k : 0 <= k -> Z.pos p < 2 ^ k -> Z.pos (digits2_pos p) <= k.
Proof.
  intros Hk Hp. pose proof (digits2_pos_bounds p) as [Blo _].
  destruct (Z_le_gt_dec (Z.pos (digits2_pos p)) k) as [H|H]; [exact H|].
  exfalso.
  assert (2 ^ k <= 2 ^ (Z.pos (digits2_pos p) - 1)) by (apply Z.pow_le_mono_r; lia).
  lia.
Qed.

Lemma fdiv_finite sx mx ex sy my ey :
  let delta := (Z.pos (digits2_pos mx) + ex) - (Z.pos (digits2_pos my) + ey) in
  3 - emax <= delta -> delta <= emax - 2 ->
  exists m e,
    fdiv (S754_finite sx mx ex) (S754_finite sy my ey)
    = S754_finite (xorb sx sy) m e
    /\ delta <= Z.pos (digits2_pos m) + e <= delta + 2.
Proof. apply SFdiv_finite. Qed.

(** For positive dimensions below [2 ^ 64] no step of the row arithmetic
    raises. *)
Lemma terminal_rows_returns W H C :
  0 < W < 2 ^ 64 -> 0 < H < 2 ^ 64 -> 0 < C < 2 ^ 64 ->
  exists r, terminal_rows W H C = Ok r.
Proof.
  intros [HW0 HW] [HH0 HH] [HC0 HC].
  destruct W as [|w|w]; try lia. destruct H as [|h|h]; try lia.
  destruct C as [|c|c]; try lia.
  pose proof (digits2_pos_upper w 64 ltac:(lia) HW) as Dw.
  pose proof (digits2_pos_upper h 64 ltac:(lia) HH) as Dh.
  pose proof (digits2_pos_upper c 64 ltac:(lia) HC) as Dc.
  assert (Pw : 0 < Z.pos (digits2_pos w)) by lia.
  assert (Ph : 0 < Z.pos (digits2_pos h)) by lia.
  assert (Pc : 0 < Z.pos (digits2_pos c)) by lia.
  unfold terminal_rows, int_truediv. cbn [Z.eqb exact_of_int].
  destruct (fdiv_finite false w 0 false h 0) as (ma & ea & -> & Ra);
    [unfold emax; lia|unfold emax; lia|].
  cbn [xorb mbind result_mbind result_bind].
  unfold float_of_int.
  change (binary_normalize prec emax 2 0 false)
    with (S754_finite false 4503599627370496 (-51)).
  destruct (binary_normalize_finite c) as (mc & ec & -> & Rc);
    [unfold emax; lia|].
  unfold float_truediv.
  cbn [is_fzero mbind result_mbind result_bind].
  destruct (fdiv_finite false mc ec false ma ea) as (mq & eq & -> & Rq);
    [unfold emax; lia|unfold emax; lia|].
  cbn [xorb is_fzero mbind result_mbind result_bind].
  destruct (fdiv_finite false mq eq false 4503599627370496 (-51))
    as (my & ey & -> & Ry);
    [change (Z.pos (digits2_pos 4503599627370496)) with 53; unfold emax; lia
    |change (Z.pos (digits2_pos 4503599627370496)) with 53; unfold emax; lia|].
  cbn [xorb mbind result_mbind result_bind int_of_float].
  eexists. reflexivity.
Qed.

(** ** Dimension calculator *)

Lemma int_truediv_sign_clear W H a :
  0 <= W -> 0 <= H -> int_truediv W H = Ok a -> sign_clear a = true.
Proof.
  intros HW HH. unfold int_truediv.
  destruct (H =? 0); [discriminate|].
  pose proof (fdiv_sign_clear _ _ (exact_of_int_sign_clear W HW)
                (exact_of_int_sign_clear H HH)) as Hs.
  destruct (fdiv (exact_of_int W) (exact_of_int H));
    intros [= <-]; exact Hs.
Qed.

Lemma float_of_int_sign_clear z c :
  0 <= z -> float_of_int z = Ok c -> sign_clear c = true.
Proof.
  intros Hz. unfold float_of_int.
  pose proof (binary_normalize_sign_clear z Hz) as Hs.
  destruct (binary_normalize prec emax z 0 false); intros [= <-]; exact Hs.
Qed.

Lemma float_truediv_sign_clear x y q :
  sign_clear x = true -> sign_clear y = true ->
  float_truediv x y = Ok q -> sign_clear q = true.
Proof.
  intros Hx Hy. unfold float_truediv.
  destruct (is_fzero y); [discriminate|].
  intros [= <-]. apply fdiv_sign_clear; assumption.
Qed.

(** ** Rounding error of the double arithmetic *)

(** Rounding a number of at least [prec] digits in the normal range keeps
    the leading [prec] digits or goes one unit in the last place up. *)
Lemma binary_round_aux_value s mx ex lx :
  0 < mx ->
  let D := Zdigits2 mx + ex in
  ex <= D - prec -> 3 - emax <= D -> D <= emax - 1 ->
  exists m e,
    binary_round_aux prec emax s mx ex lx = S754_finite s m e
    /\ D - prec <= e
    /\ mx / 2 ^ (D - prec - ex) <= Z.pos m * 2 ^ (e - (D - prec))
       <= mx / 2 ^ (D - prec - ex) + 1
    /\ 2 ^ (prec - 1) <= mx / 2 ^ (D - prec - ex)
    /\ D <= Z.pos (digits2_pos m) + e <= D + 1.
Proof.
  intros Hmx D Hex Hlo Hhi.
  unfold binary_round_aux.
  pose proof (shr_fexp_spec mx ex lx ltac:(lia)) as [Hm1 He1]. cbn zeta in Hm1, He1.
  destruct (shr_fexp prec emax mx ex lx) as [mrs' e']. cbn [fst snd] in Hm1, He1.
  pose proof (Zdigits2_bounds mx Hmx) as [Blo Bhi].
  fold D in Hm1, He1.
  assert (Hfexp : fexp prec emax D = D - prec).
  { unfold fexp, emin, prec, emax in *. lia. }
  rewrite Hfexp in Hm1, He1.
  set (n := D - prec - ex) in *.
  rewrite Z.max_r in Hm1, He1 by lia.
  assert (He' : e' = D - prec) by lia. clear He1.
  assert (Hdig : Zdigits2 mx = prec + n) by (unfold D in n; lia).
  assert (Hpn : 0 < 2 ^ n) by (apply Z.pow_pos_nonneg; lia).
  assert (Hm'lo : 2 ^ (prec - 1) <= shr_m mrs').
  { rewrite Hm1. apply Z.div_le_lower_bound; [lia|].
    rewrite Z.mul_comm, <- Z.pow_add_r by (unfold prec; lia).
    replace (prec - 1 + n) with (Zdigits2 mx - 1) by lia. exact Blo. }
  assert (Hm'hi : shr_m mrs' < 2 ^ prec).
  { rewrite Hm1. apply Z.div_lt_upper_bound; [lia|].
    rewrite <- Z.pow_add_r by (unfold prec; lia).
    replace (n + prec) with (Zdigits2 mx) by lia. exact Bhi. }
  pose proof (round_nearest_even_bounds (shr_m mrs') (loc_of_shr_record mrs')) as Hr.
  set (m1 := round_nearest_even (shr_m mrs') (loc_of_shr_record mrs')) in *.
  assert (Hp1 : 0 < 2 ^ (prec - 1)) by (apply Z.pow_pos_nonneg; unfold prec; lia).
  pose proof (shr_fexp_spec m1 e' loc_Exact ltac:(lia)) as [Hm2 He2]. cbn zeta in Hm2, He2.
  destruct (shr_fexp prec emax m1 e' loc_Exact) as [mrs'' e'']. cbn [fst snd] in Hm2, He2.
  rewrite <- Hm1.
  destruct (Z.eq_dec m1 (2 ^ prec)) as [Hcarry|Hno].
  - assert (Hd1 : Zdigits2 m1 = prec + 1).
    { apply Zdigits2_unique; [|unfold prec; lia].
      replace (prec + 1 - 1) with prec by lia. rewrite Hcarry.
      split; [lia|]. apply Z.pow_lt_mono_r; unfold prec; lia. }
    rewrite Hd1 in Hm2, He2.
    assert (Hf : fexp prec emax (prec + 1 + e') = e' + 1).
    { unfold fexp, emin, prec, emax in *. lia. }
    rewrite Hf in Hm2, He2.
    replace (e' + 1 - e') with 1 in Hm2, He2 by lia.
    change (Z.max 0 1) with 1 in Hm2, He2. change (2 ^ 1) with 2 in Hm2.
    assert (Hm'' : shr_m mrs'' = 2 ^ (prec - 1)).
    { rewrite Hm2, Hcarry. replace prec with (Z.succ (prec - 1)) at 1 by lia.
      rewrite Z.pow_succ_r by (unfold prec; lia).
      rewrite Z.mul_comm, Z.div_mul by lia. reflexivity. }
    rewrite Hm''.
    assert (Hdouble : 2 ^ (prec - 1) * 2 = m1).
    { rewrite Hcarry. replace prec with (Z.succ (prec - 1)) at 2 by lia.
      rewrite Z.pow_succ_r by (unfold prec; lia). lia. }
    destruct (2 ^ (prec - 1)) as [|p|p] eqn:Ep; try lia.
    assert (Hle : (e'' <=? emax - prec) = true)
      by (apply Z.leb_le; unfold prec, emax in *; lia).
    rewrite Hle. exists p, e''. split; [reflexivity|].
    assert (Hdp : Zdigits2 (Z.pos p) = prec).
    { apply Zdigits2_unique; [|unfold prec; lia]. rewrite <- Ep.
      split; [lia|]. apply Z.pow_lt_mono_r; unfold prec; lia. }
    cbn [Zdigits2] in Hdp. rewrite Hdp.
    replace (e'' - (D - prec)) with 1 by lia. change (2 ^ 1) with 2.
    repeat split; lia.
  - assert (Hd1 : Zdigits2 m1 = prec).
    { apply Zdigits2_unique; [lia|unfold prec; lia]. }
    rewrite Hd1 in Hm2, He2.
    assert (Hf : fexp prec emax (prec + e') = e').
    { unfold fexp, emin, prec, emax in *. lia. }
    rewrite Hf in Hm2, He2.
    replace (e' - e') with 0 in Hm2, He2 by lia.
    change (Z.max 0 0) with 0 in Hm2, He2. change (2 ^ 0) with 1 in Hm2.
    rewrite Z.div_1_r in Hm2. rewrite Hm2.
    destruct m1 as [|p|p] eqn:Ep; try lia.
    assert (Hle : (e'' <=? emax - prec) = true)
      by (apply Z.leb_le; unfold prec, emax in *; lia).
    rewrite Hle. exists p, e''. split; [reflexivity|].
    cbn [Zdigits2] in Hd1. rewrite Hd1.
    replace (e'' - (D - prec)) with 0 by lia. change (2 ^ 0) with 1.
    repeat split; lia.
Qed.

Lemma quotient_error P q0 R A m' :
  0 < A -> 0 <= P <= q0 -> q0 <= R <= q0 + 1 ->
  q0 * A <= m' -> m' < (q0 + 1) * A ->
  (P - 1) * m' <= P * (R * A) <= (P + 1) * m'.
Proof.
  intros HA HP HR Hlo Hhi.
  assert (HPA : P * A <= q0 * A) by nia.
  assert (HRlo : q0 * A <= R * A) by nia.
  assert (HRhi : R * A <= (q0 + 1) * A) by nia.
  assert (E1 : P * (q0 * A) <= P * (R * A)) by nia.
  assert (E2 : P * (R * A) <= P * ((q0 + 1) * A)) by nia.
  assert (E3 : P * m' < P * ((q0 + 1) * A) \/ P = 0) by nia.
  assert (E4 : P * (q0 * A) <= P * m') by nia.
  split; nia.
Qed.

(** The quotient of two positive doubles far from the ends of the range:
    the result times the divisor is the dividend up to a relative error of
    [2 ^ -52].  The values are compared after scaling by powers of two. *)
Lemma fdiv_value mx ex my ey :
  let delta := (Z.pos (digits2_pos mx) + ex) - (Z.pos (digits2_pos my) + ey) in
  3 - emax <= delta -> delta <= emax - 2 ->
  exists m e s u,
    fdiv (S754_finite false mx ex) (S754_finite false my ey)
    = S754_finite false m e
    /\ 0 <= s /\ 0 <= u /\ u - s = e + ey - ex
    /\ (2 ^ 52 - 1) * (Z.pos mx * 2 ^ s)
       <= 2 ^ 52 * (Z.pos m * Z.pos my * 2 ^ u)
       <= (2 ^ 52 + 1) * (Z.pos mx * 2 ^ s)
    /\ delta <= Z.pos (digits2_pos m) + e <= delta + 2.
Proof.
  intros delta Hlo Hhi. unfold fdiv, SFdiv, SFdiv_core_binary.
  change (Zdigits2 (Z.pos mx)) with (Z.pos (digits2_pos mx)).
  change (Zdigits2 (Z.pos my)) with (Z.pos (digits2_pos my)).
  set (d1 := Z.pos (digits2_pos mx)) in *.
  set (d2 := Z.pos (digits2_pos my)) in *.
  replace (d1 + ex - (d2 + ey)) with delta by (unfold delta; lia).
  assert (Hfexp : fexp prec emax delta = delta - prec).
  { unfold fexp, emin, prec, emax in *. lia. }
  rewrite Hfexp.
  set (e' := Z.min (delta - prec) (ex - ey)).
  set (s := ex - ey - e').
  assert (Hs : 0 <= s) by (unfold s, e'; lia).
  set (m' := match s with
             | 0 => Z.pos mx
             | Z.pos _ => Z.shiftl (Z.pos mx) s
             | Z.neg _ => 0
             end).
  assert (Hm' : m' = Z.pos mx * 2 ^ s).
  { unfold m'. clearbody s. destruct s as [|p|p]; try lia.
    apply Z.shiftl_mul_pow2. lia. }
  pose proof (Z_div_mod m' (Z.pos my) ltac:(lia)) as Hdm.
  destruct (Z.div_eucl m' (Z.pos my)) as [q r] eqn:Hqr.
  assert (Hq : q = m' / Z.pos my).
  { unfold Z.div. rewrite Hqr. reflexivity. }
  pose proof (digits2_pos_bounds mx) as [B1lo B1hi].
  pose proof (digits2_pos_bounds my) as [B2lo B2hi].
  fold d1 in B1lo, B1hi. fold d2 in B2lo, B2hi.
  set (k := delta - e').
  assert (Hk : prec <= k) by (unfold k, e'; lia).
  assert (Hkd : k = d1 + s - d2) by (unfold k, s, delta; lia).
  assert (Hd1 : 0 < d1) by (unfold d1; lia).
  assert (Hd2 : 0 < d2) by (unfold d2; lia).
  assert (Hps : 0 < 2 ^ s) by (apply Z.pow_pos_nonneg; lia).
  assert (Hqlo : 2 ^ (k - 1) <= q).
  { rewrite Hq, Hm'. apply Z.div_le_lower_bound; [lia|].
    assert (E : 2 ^ (d2 - 1) * 2 ^ 1 * 2 ^ (k - 1) = 2 ^ (d1 - 1) * 2 ^ s).
    { rewrite <- !Z.pow_add_r by (unfold prec in *; lia).
      apply (f_equal (Z.pow 2)). lia. }
    assert (E2 : 2 ^ d2 = 2 ^ (d2 - 1) * 2 ^ 1).
    { rewrite <- Z.pow_add_r by lia. apply (f_equal (Z.pow 2)). lia. }
    change (2 ^ 1) with 2 in E, E2.
    assert (0 < 2 ^ (k - 1)) by (apply Z.pow_pos_nonneg; unfold prec in *; lia).
    nia. }
  assert (Hqhi : q < 2 ^ (k + 1)).
  { rewrite Hq, Hm'. apply Z.div_lt_upper_bound; [lia|].
    assert (E : 2 ^ (d2 - 1) * 2 ^ (k + 1) = 2 ^ d1 * 2 ^ s).
    { rewrite <- !Z.pow_add_r by (unfold prec in *; lia).
      apply (f_equal (Z.pow 2)). lia. }
    assert (0 < 2 ^ (k + 1)) by (apply Z.pow_pos_nonneg; unfold prec in *; lia).
    nia. }
  assert (Hqpos : 0 < q).
  { assert (0 < 2 ^ (k - 1)) by (apply Z.pow_pos_nonneg; unfold prec in *; lia).
    lia. }
  assert (Hdq : Zdigits2 q = k \/ Zdigits2 q = k + 1).
  { destruct (Z_lt_le_dec q (2 ^ k)) as [Hlt|Hge].
    - left. apply Zdigits2_unique; [lia|unfold prec in *; lia].
    - right. apply Zdigits2_unique; [|unfold prec in *; lia].
      replace (k + 1 - 1) with k by lia. lia. }
  destruct (binary_round_aux_value false q e' (new_location (Z.pos my) r) Hqpos)
    as (m & e & Hround & He & HR & Hq0 & Hrange).
  - unfold e'. unfold k, e' in Hdq. lia.
  - unfold k in Hdq. lia.
  - unfold k in Hdq. lia.
  - cbn [xorb]. set (n := Zdigits2 q + e' - prec - e') in *.
    set (e0 := Zdigits2 q + e' - prec) in *.
    assert (Hn : 0 <= n) by (unfold n; lia).
    exists m, e, s, (n + (e - e0)).
    split; [exact Hround|]. split; [exact Hs|]. split; [lia|].
    split; [unfold n, e0, s; lia|].
    split; [|unfold k in Hdq; lia].
    assert (Hpn : 0 < 2 ^ n) by (apply Z.pow_pos_nonneg; lia).
    pose proof (Z.mul_div_le q (2 ^ n) Hpn) as Hfl.
    pose proof (Z.mul_succ_div_gt q (2 ^ n) Hpn) as Hfu.
    set (q0 := q / 2 ^ n) in *.
    rewrite Z.pow_add_r by lia.
    rewrite <- Hm'.
    replace (Z.pos m * Z.pos my * (2 ^ n * 2 ^ (e - e0)))
      with (Z.pos m * 2 ^ (e - e0) * (2 ^ n * Z.pos my)) by ring.
    apply (quotient_error (2 ^ 52) q0).
    + lia.
    + change (2 ^ (prec - 1)) with (2 ^ 52) in Hq0. lia.
    + exact HR.
    + nia.
    + nia.
Qed.

(** A number of exactly [prec] digits in the normal range is a double. *)
Lemma binary_round_aux_exact s (mx : positive) ex :
  Z.pos (digits2_pos mx) = prec ->
  3 - emax <= prec + ex -> prec + ex <= emax ->
  binary_round_aux prec emax s (Z.pos mx) ex loc_Exact = S754_finite s mx ex.
Proof.
  intros Hd Hlo Hhi. unfold binary_round_aux.
  assert (Hshr : shr_fexp prec emax (Z.pos mx) ex loc_Exact
                 = (shr_record_of_loc (Z.pos mx) loc_Exact, ex)).
  { unfold shr_fexp, shr. cbn [Zdigits2]. rewrite Hd.
    assert (Hf : fexp prec emax (prec + ex) - ex = 0).
    { unfold fexp, emin, prec, emax in *. lia. }
    rewrite Hf. reflexivity. }
  rewrite Hshr. cbn [shr_record_of_loc shr_m loc_of_shr_record
                     round_nearest_even].
  change (shr_fexp prec emax (Z.pos mx) ex loc_Exact)
    with (shr_fexp prec emax (Z.pos mx) ex loc_Exact).
  rewrite Hshr. cbn [shr_record_of_loc shr_m].
  assert (Hle : (ex <=? emax - prec) = true) by (apply Z.leb_le; lia).
  rewrite Hle. reflexivity.
Qed.

(** [float(C)] for a positive int of at most [prec] digits is exact. *)
Lemma float_of_int_exact (c : positive) :
  Z.pos (digits2_pos c) <= prec ->
  exists m e,
    float_of_int (Z.pos c) = Ok (S754_finite false m e)
    /\ e <= 0 /\ Z.pos m = Z.pos c * 2 ^ (- e)
    /\ Z.pos (digits2_pos m) + e = Z.pos (digits2_pos c).
Proof.
  intros Hd. unfold float_of_int, binary_normalize, binary_round.
  rewrite Z.add_0_r.
  set (d := Z.pos (digits2_pos c)) in *.
  assert (Hdpos : 0 < d) by (unfold d; lia).
  assert (Hfexp : fexp prec emax d = d - prec).
  { unfold fexp, emin, prec, emax in *. lia. }
  rewrite Hfexp. unfold shl_align. rewrite Z.sub_0_r.
  destruct (d - prec) as [|n|n] eqn:En; try lia.
  - rewrite binary_round_aux_exact; [|fold d; lia|unfold prec, emax; lia
                                      |unfold prec, emax; lia].
    exists c, 0. split; [reflexivity|]. split; [lia|].
    split; [cbn; lia|fold d; lia].
  - assert (Hshift : Z.pos (Pos.iter xO c n) = Z.pos c * 2 ^ Z.pos n).
    { change (Pos.iter xO c n) with (shift_pos n c).
      rewrite shift_pos_correct, Zpower_pos_nat, Zpower_nat_Z,
        positive_nat_Z. lia. }
    assert (Hdig : Zdigits2 (Z.pos (Pos.iter xO c n)) = d + Z.pos n).
    { rewrite Hshift. apply (Zdigits2_shift (Z.pos c) (Z.pos n)); lia. }
    cbn [Zdigits2] in Hdig.
    rewrite binary_round_aux_exact;
      [|lia|unfold prec, emax in *; lia|unfold prec, emax in *; lia].
    exists (Pos.iter xO c n), (Z.neg n). split; [reflexivity|].
    split; [lia|]. split; [exact Hshift|]. rewrite Hdig. lia.
Qed.

Lemma scale_bounds (A B G : Q) :
  (0 <= G)%Q ->
  ((4503599627370496 - 1) * A <= 4503599627370496 * B)%Q ->
  (4503599627370496 * B <= (4503599627370496 + 1) * A)%Q ->
  ((1 - ulp_error) * (A * G) <= B * G
   /\ B * G <= (1 + ulp_error) * (A * G))%Q.
Proof.
  intros HG Hlo Hhi. unfold ulp_error.
  pose proof (Qmult_le_compat_r _ _ G Hlo HG) as E1.
  pose proof (Qmult_le_compat_r _ _ G Hhi HG) as E2.
  split; nra.
Qed.

Lemma two_power_pos (z : Z) : (0 < (2 # 1) ^ z)%Q.
Proof. apply Qpower_0_lt. reflexivity. Qed.

Lemma two_not_zero : ~ ((2 # 1) == 0)%Q.
Proof. discriminate. Qed.

Lemma inject_two_power (k : Z) :
  0 <= k -> (inject_Z (2 ^ k) == (2 # 1) ^ k)%Q.
Proof. intros Hk. apply (Zpower_Qpower 2 k Hk). Qed.

(** The quotient of two positive doubles far from the ends of the range,
    in terms of values: the result times the divisor is the dividend up to
    a relative error of [2 ^ -52]. *)
Lemma fdiv_fval mx ex my ey :
  let delta := (Z.pos (digits2_pos mx) + ex) - (Z.pos (digits2_pos my) + ey) in
  3 - emax <= delta -> delta <= emax - 2 ->
  exists m e,
    fdiv (S754_finite false mx ex) (S754_finite false my ey)
    = S754_finite false m e
    /\ ((1 - ulp_error) * fval (S754_finite false mx ex)
        <= fval (S754_finite false m e) * fval (S754_finite false my ey))%Q
    /\ (fval (S754_finite false m e) * fval (S754_finite false my ey)
        <= (1 + ulp_error) * fval (S754_finite false mx ex))%Q
    /\ delta <= Z.pos (digits2_pos m) + e <= delta + 2.
Proof.
  intros delta Hlo Hhi.
  destruct (fdiv_value mx ex my ey Hlo Hhi)
    as (m & e & s & u & Hdiv & Hs & Hu & Hus & [Zlo Zhi] & Hrange).
  exists m, e. split; [exact Hdiv|].
  match goal with
  | |- ?A /\ ?B /\ ?C =>
      cut (A /\ B); [intros [Ha Hb]; split; [exact Ha|split; [exact Hb|exact Hrange]]|]
  end.
  cbn [fval].
  set (G := ((2 # 1) ^ ex / (2 # 1) ^ s)%Q).
  assert (HG : (0 <= G)%Q).
  { apply Qlt_le_weak. unfold G. apply Qlt_shift_div_l; [apply two_power_pos|].
    rewrite Qmult_0_l. apply two_power_pos. }
  assert (HA : (inject_Z (Z.pos mx) * (2 # 1) ^ ex
                == inject_Z (Z.pos mx * 2 ^ s) * G)%Q).
  { unfold G. rewrite inject_Z_mult, (inject_two_power s Hs). field.
    apply Qpower_not_0, two_not_zero. }
  assert (HB : (inject_Z (Z.pos m) * (2 # 1) ^ e
                * (inject_Z (Z.pos my) * (2 # 1) ^ ey)
                == inject_Z (Z.pos m * Z.pos my * 2 ^ u) * G)%Q).
  { unfold G. rewrite !inject_Z_mult, (inject_two_power u Hu).
    assert (Hp : ((2 # 1) ^ e * (2 # 1) ^ ey
                  == (2 # 1) ^ u * (2 # 1) ^ ex / (2 # 1) ^ s)%Q).
    { rewrite <- !Qpower_plus by apply two_not_zero.
      rewrite <- Qpower_minus by apply two_not_zero.
      replace (u + ex - s) with (e + ey) by lia. reflexivity. }
    transitivity (inject_Z (Z.pos m) * inject_Z (Z.pos my)
                  * ((2 # 1) ^ e * (2 # 1) ^ ey))%Q; [ring|].
    rewrite Hp. field. apply Qpower_not_0, two_not_zero. }
  rewrite HA, HB.
  apply scale_bounds; [exact HG| |].
  - rewrite Zle_Qle in Zlo. rewrite !inject_Z_mult in Zlo.
    rewrite !inject_Z_mult. exact Zlo.
  - rewrite Zle_Qle in Zhi. rewrite !inject_Z_mult in Zhi.
    rewrite !inject_Z_mult. exact Zhi.
Qed.

Lemma fval_pos m e : (0 < fval (S754_finite false m e))%Q.
Proof.
  cbn [fval]. apply Qmult_lt_0_compat; [|apply two_power_pos].
  unfold Qlt. cbn. lia.
Qed.

Lemma fval_int (m : positive) : (fval (S754_finite false m 0) == inject_Z (Z.pos m))%Q.
Proof. cbn [fval]. rewrite Qpower_0_r. ring. Qed.

(** [int] of a positive double is the floor of its value. *)
Lemma int_of_float_floor m e :
  int_of_float (S754_finite false m e)
  = Ok (Qfloor (fval (S754_finite false m e))).
Proof.
  cbn [int_of_float fval]. f_equal.
  destruct e as [|k|k].
  - rewrite Z.mul_1_r. rewrite <- (Qfloor_Z (Z.pos m)) at 1.
    apply Qfloor_comp. rewrite Qpower_0_r. ring.
  - rewrite <- (Qfloor_Z (Z.pos m * 2 ^ Z.pos k)).
    apply Qfloor_comp. rewrite inject_Z_mult, inject_two_power by lia.
    reflexivity.
  - rewrite Zdiv_Qdiv. apply Qfloor_comp.
    rewrite inject_two_power by lia.
    change (Z.neg k) with (- Z.pos k). rewrite Qpower_opp. reflexivity.
Qed.

(** The floor of the contract is an integer quotient. *)
Lemma spec_rows_quotient W H C :
  0 < W -> 0 < H ->
  Qfloor (inject_Z C / (inject_Z W / inject_Z H) / 2)%Q = (C * H) / (2 * W).
Proof.
  intros HW HH. rewrite Zdiv_Qdiv. apply Qfloor_comp.
  rewrite !inject_Z_mult.
  assert (~ (inject_Z W == 0)%Q) by (unfold Qeq; cbn; lia).
  assert (~ (inject_Z H == 0)%Q) by (unfold Qeq; cbn; lia).
  change (inject_Z 2) with 2%Q. field. split; assumption.
Qed.

Lemma rows_chain (W H C a x y d : Q) :
  (0 < W -> 0 < H -> 0 < C -> 0 < a -> 0 < x -> 0 < y -> 0 <= d -> d < 1 ->
   (1 - d) * W <= a * H -> a * H <= (1 + d) * W ->
   (1 - d) * C <= x * a -> x * a <= (1 + d) * C ->
   (1 - d) * x <= y * 2 -> y * 2 <= (1 + d) * x ->
   (1 - d) * (1 - d) * (C * H) <= (1 + d) * (y * 2 * W)
   /\ (1 - d) * (y * 2 * W) <= (1 + d) * (1 + d) * (C * H))%Q.
Proof.
  intros HW HH HC Ha Hx Hy Hd0 Hd1 A1 A2 X1 X2 Y1 Y2.
  assert (HaH : (0 <= a * H)%Q) by (apply Qmult_le_0_compat; lra).
  assert (Hy2 : (0 <= y * 2)%Q) by lra.
  assert (H1d : (0 <= 1 - d)%Q) by lra.
  assert (H1p : (0 <= 1 + d)%Q) by lra.
  pose proof (Qmult_le_compat_r _ _ (a * H) Y1 HaH) as E1.
  pose proof (Qmult_le_compat_r _ _ (a * H) Y2 HaH) as E2.
  pose proof (Qmult_le_compat_r _ _ H X1 ltac:(lra)) as E3.
  pose proof (Qmult_le_compat_r _ _ H X2 ltac:(lra)) as E4.
  pose proof (Qmult_le_compat_r _ _ (1 - d) E3 H1d) as E5.
  pose proof (Qmult_le_compat_r _ _ (1 + d) E4 H1p) as E6.
  pose proof (Qmult_le_compat_r _ _ (y * 2) A1 Hy2) as E7.
  pose proof (Qmult_le_compat_r _ _ (y * 2) A2 Hy2) as E8.
  split; nra.
Qed.

(** A positive number within three rounding errors of [N / D], for [N]
    below [2 ^ 48], has the floor of [N / D], or one less when [D]
    divides [N]. *)
Lemma floor_near (N D : Z) (y : Q) :
  0 < N < 2 ^ 48 -> 0 < D ->
  ((1 - ulp_error) * (1 - ulp_error) * inject_Z N
   <= (1 + ulp_error) * (y * inject_Z D))%Q ->
  ((1 - ulp_error) * (y * inject_Z D)
   <= (1 + ulp_error) * (1 + ulp_error) * inject_Z N)%Q ->
  Qfloor y = N / D \/ (N mod D = 0 /\ Qfloor y = N / D - 1).
Proof.
  intros [HN0 HN] HD Hlo Hhi.
  pose proof (Z.div_mod N D ltac:(lia)) as Hdm.
  pose proof (Z.mod_pos_bound N D HD) as Hr.
  set (q := N / D) in *. set (r := N mod D) in *.
  assert (HNq : (inject_Z N < 281474976710656)%Q).
  { change 281474976710656%Q with (inject_Z (2 ^ 48)).
    rewrite <- Zlt_Qlt. exact HN. }
  assert (HNp : (0 < inject_Z N)%Q) by (unfold Qlt; cbn; lia).
  assert (HDp : (0 < inject_Z D)%Q) by (unfold Qlt; cbn; lia).
  unfold ulp_error in Hlo, Hhi.
  assert (Hup : (y * inject_Z D < inject_Z N + 1)%Q) by lra.
  assert (Hdown : (inject_Z N - 1 < y * inject_Z D)%Q) by lra.
  (* the floor is at most q *)
  assert (Hle : Qfloor y <= q).
  { assert (Hy : (y < inject_Z (q + 1))%Q).
    { apply (Qmult_lt_r _ _ (inject_Z D) HDp).
      rewrite <- inject_Z_mult.
      apply (Qlt_le_trans _ _ _ Hup).
      change 1%Q with (inject_Z 1). rewrite <- inject_Z_plus, <- Zle_Qle.
      nia. }
    pose proof (Qfloor_le y) as Hf.
    pose proof (Qle_lt_trans _ _ _ Hf Hy) as Hlt.
    rewrite <- Zlt_Qlt in Hlt. lia. }
  (* and at least q, or q - 1 when the division is exact *)
  assert (Hge : forall k, D * k <= N - 1 -> k <= Qfloor y).
  { intros k Hk.
    assert (Hy : (inject_Z k <= y)%Q).
    { apply (Qmult_le_r _ _ (inject_Z D) HDp).
      rewrite <- inject_Z_mult.
      apply Qlt_le_weak. apply (Qle_lt_trans _ (inject_Z N - 1)); [|exact Hdown].
      change 1%Q with (inject_Z 1).
      unfold Qminus. rewrite <- inject_Z_opp, <- inject_Z_plus, <- Zle_Qle.
      lia. }
    apply Qfloor_resp_le in Hy. rewrite Qfloor_Z in Hy. exact Hy. }
  destruct (Z.eq_dec r 0) as [Hr0|Hr0].
  - destruct (Z.eq_dec (Qfloor y) q) as [E|E]; [left; exact E|right].
    split; [exact Hr0|]. pose proof (Hge (q - 1) ltac:(nia)). lia.
  - left. pose proof (Hge q ltac:(nia)). lia.
Qed.

(** The row arithmetic against the exact quotient: for dimensions below
    [2 ^ 24] the truncated double is the floor of [C * H / (2 * W)], or one
    less when that quotient is an integer. *)
Lemma terminal_rows_floor W H C :
  0 < W < 2 ^ 24 -> 0 < H < 2 ^ 24 -> 0 < C < 2 ^ 24 ->
  exists th,
    terminal_rows W H C
    = Ok (Z.max 2 (if negb (th mod 2 =? 0) then th - 1 else th))
    /\ (th = (C * H) / (2 * W)
        \/ ((C * H) mod (2 * W) = 0 /\ th = (C * H) / (2 * W) - 1)).
Proof.
  intros [HW0 HW] [HH0 HH] [HC0 HC].
  destruct W as [|w|w]; try lia. destruct H as [|h|h]; try lia.
  destruct C as [|c|c]; try lia.
  pose proof (digits2_pos_upper w 24 ltac:(lia) HW) as Dw.
  pose proof (digits2_pos_upper h 24 ltac:(lia) HH) as Dh.
  pose proof (digits2_pos_upper c 24 ltac:(lia) HC) as Dc.
  assert (Pw : 0 < Z.pos (digits2_pos w)) by lia.
  assert (Ph : 0 < Z.pos (digits2_pos h)) by lia.
  assert (Pc : 0 < Z.pos (digits2_pos c)) by lia.
  unfold terminal_rows, int_truediv. cbn [Z.eqb exact_of_int].
  destruct (fdiv_fval w 0 h 0) as (ma & ea & -> & A1 & A2 & Ra);
    [unfold emax; lia|unfold emax; lia|].
  cbn [mbind result_mbind result_bind].
  destruct (float_of_int_exact c) as (mc & ec & -> & Hec & Hmc & Rc);
    [unfold prec; lia|].
  cbn [mbind result_mbind result_bind].
  unfold float_truediv.
  cbn [is_fzero mbind result_mbind result_bind].
  destruct (fdiv_fval mc ec ma ea) as (mx & ex & -> & X1 & X2 & Rx);
    [unfold emax; lia|unfold emax; lia|].
  unfold float_of_int.
  change (binary_normalize prec emax 2 0 false)
    with (S754_finite false 4503599627370496 (-51)).
  cbn [is_fzero mbind result_mbind result_bind].
  destruct (fdiv_fval mx ex 4503599627370496 (-51))
    as (my & ey & -> & Y1 & Y2 & Ry);
    [change (Z.pos (digits2_pos 4503599627370496)) with 53; unfold emax; lia
    |change (Z.pos (digits2_pos 4503599627370496)) with 53; unfold emax; lia|].
  rewrite int_of_float_floor.
  cbn [mbind result_mbind result_bind].
  eexists. split; [reflexivity|].
  (* the values *)
  rewrite !fval_int in A1, A2.
  assert (Hc : (fval (S754_finite false mc ec) == inject_Z (Z.pos c))%Q).
  { cbn [fval]. rewrite Hmc, inject_Z_mult, inject_two_power by lia.
    rewrite <- Qmult_assoc, <- Qpower_plus by apply two_not_zero.
    replace (- ec + ec) with 0 by lia. rewrite Qpower_0_r. ring. }
  rewrite Hc in X1, X2.
  assert (Htwo : (fval (S754_finite false 4503599627370496 (-51)) == 2)%Q)
    by reflexivity.
  rewrite Htwo in Y1, Y2.
  pose proof (fval_pos ma ea) as Pa.
  pose proof (fval_pos mx ex) as Px.
  pose proof (fval_pos my ey) as Py.
  set (a := fval (S754_finite false ma ea)) in *.
  set (x := fval (S754_finite false mx ex)) in *.
  set (y := fval (S754_finite false my ey)) in *.
  destruct (rows_chain (inject_Z (Z.pos w)) (inject_Z (Z.pos h))
              (inject_Z (Z.pos c)) a x y ulp_error) as [Clo Chi];
    try assumption; try (unfold Qlt; cbn; lia); try (unfold Qle; cbn; lia).
  apply floor_near.
  - nia.
  - lia.
  - rewrite !inject_Z_mult. change (inject_Z 2) with 2%Q.
    assert (E : (y * (2 * inject_Z (Z.pos w)) == y * 2 * inject_Z (Z.pos w))%Q)
      by ring.
    rewrite E. exact Clo.
  - rewrite !inject_Z_mult. change (inject_Z 2) with 2%Q.
    assert (E : (y * (2 * inject_Z (Z.pos w)) == y * 2 * inject_Z (Z.pos w))%Q)
      by ring.
    rewrite E. exact Chi.
Qed.

(** The claim as the specification words it fails: for a 352 by 288 source
    at 132 columns the exact contract gives [132 * 288 / (2 * 352) = 54]
    rows, but [352 / 288] is rounded to the double just above 11/9, so
    [132 / a / 2] is a double just below 54 and the calculator returns 52
    rows. *)
Lemma calculate_terminal_dimensions_not_exact :
  calculate_terminal_dimensions cif_source
  = Ok (set_terminal_height cif_source 52, (132, 52))
  /\ spec_dimensions 352 288 132 = (132, 54)
  /\ (forall self',
        calculate_terminal_dimensions cif_source
        <> Ok (self', spec_dimensions 352 288 132)).
Proof.
  assert (Hcode : calculate_terminal_dimensions cif_source
                  = Ok (set_terminal_height cif_source 52, (132, 52)))
    by (vm_compute; reflexivity).
  assert (Hspec : spec_dimensions 352 288 132 = (132, 54))
    by (vm_compute; reflexivity).
  split; [exact Hcode|]. split; [exact Hspec|].
  intros self'. rewrite Hcode, Hspec. intros E. discriminate E.
Qed.

(** C2.  For a source of width [W] and height [H] and a requested column
    count [C], all between 1 and [2 ^ 24], the calculator returns [(C, r)]
    where [r], computed in doubles, is the row count of the contract
    ([a = W/H], [floor (C / a / 2)], minus one when odd, at least 2)
    except possibly when the exact quotient [C * H / (2 * W)] is an even
    integer: there the rounding of the doubles can make [r] the contract's
    row count minus 2. *)
Theorem calculate_terminal_dimensions_spec (self : VideoProcessor) W H C :
  width self = Some W -> height self = Some H -> terminal_width self = C ->
  0 < W < 2 ^ 24 -> 0 < H < 2 ^ 24 -> 0 < C < 2 ^ 24 ->
  exists r,
    calculate_terminal_dimensions self
    = Ok (set_terminal_height self r, (C, r))
    /\ (spec_dimensions W H C = (C, r)
        \/ ((C * H) mod (2 * W) = 0
            /\ Z.even ((C * H) / (2 * W)) = true
            /\ spec_dimensions W H C = (C, r + 2))).
Proof.
  intros Hw Hh Hc HW HH HC.
  destruct (terminal_rows_floor W H C HW HH HC) as (th & Hrows & Hth).
  assert (Hcalc : calculate_terminal_dimensions self
                  = (th ← terminal_rows W H C;
                     Ok (set_terminal_height self th, (C, th)))).
  { unfold calculate_terminal_dimensions.
    rewrite Hw, Hh, Hc. cbn [truthy].
    destruct (Z.eqb_spec W 0) as [->|_]; [lia|].
    destruct (Z.eqb_spec H 0) as [->|_]; [lia|]. reflexivity. }
  rewrite Hcalc, Hrows. bind_simpl.
  eexists. split; [reflexivity|].
  unfold spec_dimensions. rewrite spec_rows_quotient by lia.
  set (q := (C * H) / (2 * W)) in *.
  rewrite truthy_mod2_is_odd.
  destruct Hth as [->|[Hexact ->]]; [left; reflexivity|].
  replace (q - 1) with (Z.pred q) by lia. rewrite Z.odd_pred.
  rewrite <- (Z.negb_odd q).
  assert (Hq : 1 <= q).
  { unfold q. apply Z.div_le_lower_bound; [lia|].
    pose proof (Z.div_mod (C * H) (2 * W) ltac:(lia)) as Hdm.
    rewrite Hexact in Hdm.
    assert (0 < (C * H) / (2 * W)) by nia. nia. }
  destruct (Z.odd q) eqn:Hodd; cbn [negb].
  - left. replace (Z.pred q) with (q - 1) by lia. reflexivity.
  - assert (Heven : Z.even q = true) by (rewrite <- Z.negb_odd, Hodd; reflexivity).
    pose proof Heven as Hk. apply Z.even_spec in Hk. destruct Hk as [k Hk].
    destruct (Z.eq_dec q 2) as [E2|E2].
    + left. f_equal. lia.
    + right. split; [exact Hexact|]. split; [reflexivity|]. f_equal. lia.
Qed.

(** The instance of the specification: 1920 by 1080 at 80 columns gives
    80 columns and 22 rows, as the exact contract does. *)
Lemma calculate_terminal_dimensions_hd :
  calculate_terminal_dimensions hd_source
  = Ok (set_terminal_height hd_source 22, (80, 22))
  /\ spec_dimensions 1920 1080 80 = (80, 22).
Proof.
  destruct (calculate_terminal_dimensions_spec hd_source 1920 1080 80)
    as (r & Hcalc & Hrel); try reflexivity; try lia.
  assert (Hr : calculate_terminal_dimensions hd_source
               = Ok (set_terminal_height hd_source 22, (80, 22)))
    by (vm_compute; reflexivity).
  split; [exact Hr|].
  rewrite Hr in Hcalc. injection Hcalc as _ <-.
  destruct Hrel as [Hspec|(Hexact & _)]; [exact Hspec|].
  vm_compute in Hexact. discriminate Hexact.
Defined.

(** Far beyond any pixel count the doubles run out: with a height of
    [2 ^ 1100] the aspect ratio underflows to zero and the division by it
    raises. *)
Remark terminal_rows_beyond_doubles :
  terminal_rows 1 (2 ^ 1100) 80 = Err (raised_by_runtime ZeroDivisionError).
Proof. vm_compute. reflexivity. Qed.

Lemma terminal_rows_even_ge_2 W H C r :
  terminal_rows W H C = Ok r -> Z.even r = true /\ 2 <= r.
Proof.
  unfold terminal_rows.
  destruct (int_truediv W H) as [a|]; [|discriminate].
  destruct (float_of_int C) as [c|]; [|discriminate].
  bind_simpl.
  destruct (float_truediv c a) as [x|]; [|discriminate].
  destruct (float_of_int 2) as [two|]; [|discriminate].
  bind_simpl.
  destruct (float_truediv x two) as [y|]; [|discriminate].
  bind_simpl.
  destruct (int_of_float y) as [th|]; [|discriminate].
  bind_simpl.
  intros [= <-]. rewrite truthy_mod2_is_odd.
  split; [|lia].
  destruct (Z.odd th) eqn:Hodd.
  - apply Z.max_case; [reflexivity|].
    rewrite Z.even_sub, <- Z.negb_odd, Hodd. reflexivity.
  - apply Z.max_case; [reflexivity|].
    rewrite <- Z.negb_odd, Hodd. reflexivity.
Qed.

(** C3.  Whatever the source dimensions and the requested width, the row
    count that the calculator returns is even and at least 2. *)
Theorem terminal_height_even_and_at_least_2
    (self self' : VideoProcessor) (cols rows : Z) :
  calculate_terminal_dimensions self = Ok (self', (cols, rows)) ->
  Z.even rows = true /\ 2 <= rows
  /\ terminal_height self' = Some rows /\ cols = terminal_width self.
Proof.
  unfold calculate_terminal_dimensions.
  destruct (negb (truthy (width self)) || negb (truthy (height self)));
    [discriminate|].
  destruct (width self) as [W|]; [|discriminate].
  destruct (height self) as [H|]; [|discriminate].
  destruct (terminal_rows W H (terminal_width self)) as [th|] eqn:Hrows;
    [|discriminate].
  bind_simpl. intros [= <- <- <-].
  apply terminal_rows_even_ge_2 in Hrows. destruct Hrows as [He Hge].
  repeat split; assumption.
Qed.

Lemma terminal_height_even_and_at_least_2_hd :
  calculate_terminal_dimensions hd_source
  = Ok (set_terminal_height hd_source 22, (80, 22))
  /\ Z.even 22 = true /\ 2 <= 22
  /\ terminal_height (set_terminal_height hd_source 22) = Some 22
  /\ 80 = terminal_width hd_source.
Proof.
  assert (H : calculate_terminal_dimensions hd_source
              = Ok (set_terminal_height hd_source 22, (80, 22)))
    by (vm_compute; reflexivity).
  split; [exact H|].
  exact (terminal_height_even_and_at_least_2 hd_source _ 80 22 H).
Defined.

(** C10.  With the stored width or height unset or zero the calculator
    raises the [ValueError] of its guard; in every other call both are
    set, the height is not zero, and the division [W / H] does not raise
    [ZeroDivisionError]. *)
Theorem guard_precedes_division (self : VideoProcessor) :
  (unset_or_zero (width self) \/ unset_or_zero (height self) ->
   calculate_terminal_dimensions self = Err dimensions_not_set)
  /\ (calculate_terminal_dimensions self <> Err dimensions_not_set ->
      exists W H, width self = Some W /\ height self = Some H /\ H <> 0
        /\ int_truediv W H <> Err (raised_by_runtime ZeroDivisionError)
        /\ calculate_terminal_dimensions self
           = (th ← terminal_rows W H (terminal_width self);
              Ok (set_terminal_height self th, (terminal_width self, th)))).
Proof.
  unfold calculate_terminal_dimensions, unset_or_zero. split.
  - intros [[->| ->]|[->| ->]]; cbn; try reflexivity.
    + destruct (truthy (width self)); reflexivity.
    + destruct (truthy (width self)); reflexivity.
  - destruct (width self) as [W|]; cbn [truthy negb orb];
      [|intros Hne; exfalso; apply Hne; reflexivity].
    destruct (height self) as [H|]; cbn [truthy negb orb].
    2:{ intros Hne; exfalso; apply Hne.
        destruct (negb (negb (W =? 0))); reflexivity. }
    destruct (Z.eqb_spec W 0) as [->|HW]; cbn [negb orb];
      [intros Hne; exfalso; apply Hne; reflexivity|].
    destruct (Z.eqb_spec H 0) as [->|HH]; cbn [negb orb];
      [intros Hne; exfalso; apply Hne; reflexivity|].
    intros _. exists W, H. repeat split; try assumption.
    unfold int_truediv. destruct (Z.eqb_spec H 0) as [->|_]; [congruence|].
    destruct (fdiv (exact_of_int W) (exact_of_int H)); discriminate.
Qed.

(** ** Decimal numerals *)

Lemma be_val_app a b :
  be_val (a ++ b) = (be_val a * 10 ^ N.of_nat (length b) + be_val b)%N.
Proof.
  induction a as [|d a IH]; cbn [app be_val]; [lia|].
  rewrite IH, length_app, Nat2N.inj_add, N.pow_add_r. lia.
Qed.

Lemma be_val_bound ds :
  Forall (fun d => d < 10)%N ds -> (be_val ds < 10 ^ N.of_nat (length ds))%N.
Proof.
  induction 1 as [|d ds Hd _ IH]; cbn [be_val length]; [cbn; lia|].
  rewrite Nat2N.inj_succ, N.pow_succ_r'. nia.
Qed.

Lemma be_val_zeros k ds : be_val (repeat 0%N k ++ ds) = be_val ds.
Proof. induction k as [|k IH]; cbn; [reflexivity|]. rewrite IH. lia. Qed.

Lemma digits_le_spec fuel : forall n,
  (n < 2 ^ N.of_nat fuel)%N ->
  Forall (fun d => d < 10)%N (digits_le fuel n) /\ be_val (rev (digits_le fuel n)) = n.
Proof.
  induction fuel as [|fuel IH]; intros n Hn.
  - cbn in *. split; [constructor|lia].
  - cbn [digits_le]. rewrite Nat2N.inj_succ, N.pow_succ_r' in Hn.
    assert (Hmod : (n mod 10 < 10)%N) by (apply N.mod_lt; lia).
    destruct (N.ltb_spec n 10) as [Hlt|Hge].
    + split; [repeat constructor; exact Hmod|].
      cbn. rewrite N.mod_small by exact Hlt. lia.
    + assert (Hdiv : (n / 10 < 2 ^ N.of_nat fuel)%N).
      { apply N.Div0.div_lt_upper_bound. lia. }
      destruct (IH _ Hdiv) as [Hall Hval].
      split; [constructor; assumption|].
      cbn [rev]. rewrite be_val_app, Hval. cbn.
      pose proof (N.div_mod n 10 ltac:(lia)). lia.
Qed.

Lemma digits_le_length fuel : forall n k,
  (n < 10 ^ N.of_nat (S k))%N -> (length (digits_le fuel n) <= S k)%nat.
Proof.
  induction fuel as [|fuel IH]; intros n k Hn; cbn [digits_le length]; [lia|].
  destruct (N.ltb_spec n 10) as [Hlt|Hge]; cbn [length]; [lia|].
  destruct k as [|k]; [cbn in Hn; lia|].
  apply le_n_S, IH.
  rewrite Nat2N.inj_succ, N.pow_succ_r' in Hn.
  apply N.Div0.div_lt_upper_bound. lia.
Qed.

Lemma digits_le_nonempty fuel n : fuel <> O -> digits_le fuel n <> [].
Proof. destruct fuel; [congruence|discriminate]. Qed.

Lemma decimal_as_digits n : decimal n = map digit_char (decimal_digits n).
Proof. reflexivity. Qed.

Lemma decimal_fuel n : (n < 2 ^ N.of_nat (S (N.to_nat (N.log2 n))))%N.
Proof.
  rewrite Nat2N.inj_succ, N2Nat.id.
  destruct n as [|p]; [cbn; lia|].
  apply N.log2_spec. lia.
Qed.

Lemma decimal_digits_spec n :
  Forall (fun d => d < 10)%N (decimal_digits n) /\ be_val (decimal_digits n) = n.
Proof.
  unfold decimal_digits.
  destruct (digits_le_spec _ n (decimal_fuel n)) as [Hall Hval].
  split; [|exact Hval].
  apply Forall_rev. exact Hall.
Qed.

Lemma decimal_digits_length n k :
  (n < 10 ^ N.of_nat (S k))%N -> (length (decimal_digits n) <= S k)%nat.
Proof.
  intros Hn. unfold decimal_digits. rewrite length_rev.
  apply digits_le_length. exact Hn.
Qed.

Lemma is_digit_digit_char d : (d < 10)%N -> is_digit (digit_char d) = true.
Proof.
  intros Hd. unfold is_digit, digit_char.
  apply andb_true_intro. split; apply N.leb_le; lia.
Qed.

(** Reading back a numeral that is followed by something other than a
    digit gives its value. *)
Lemma read_number_digits ds : forall acc rest,
  Forall (fun d => d < 10)%N ds ->
  match rest with
  | [] => True
  | c :: _ => is_digit c = false
  end ->
  read_number acc (map digit_char ds ++ rest)
  = ((acc * 10 ^ N.of_nat (length ds) + be_val ds)%N, rest).
Proof.
  induction ds as [|d ds IH]; intros acc rest Hall Hrest.
  - cbn [map app length be_val].
    destruct rest as [|c rest]; cbn [read_number].
    + f_equal. cbn. lia.
    + rewrite Hrest. f_equal. cbn. lia.
  - inversion Hall as [|? ? Hd Hall']; subst.
    cbn [map app read_number]. rewrite (is_digit_digit_char d Hd).
    rewrite (IH _ rest Hall' Hrest). f_equal.
    cbn [length be_val]. rewrite Nat2N.inj_succ, N.pow_succ_r'.
    unfold digit_char. lia.
Qed.

Lemma read_number_decimal n rest :
  match rest with
  | [] => True
  | c :: _ => is_digit c = false
  end ->
  read_number 0 (decimal n ++ rest) = (n, rest).
Proof.
  intros Hrest. destruct (decimal_digits_spec n) as [Hall Hval].
  rewrite decimal_as_digits, (read_number_digits _ 0%N rest Hall Hrest), Hval.
  reflexivity.
Qed.

(** ** Frame renderer *)

Lemma read_cursor_up_encoded n rest :
  read_cursor_up (ESC :: lit "[" ++ decimal n ++ lit "A" ++ rest)
  = Some (Z.of_N (if (n =? 0)%N then 1 else n), rest).
Proof.
  change (lit "[") with [91%N]. change (lit "A") with [65%N].
  change ESC with 27%N.
  cbn [read_cursor_up app].
  rewrite (read_number_decimal n (65%N :: rest) eq_refl).
  reflexivity.
Qed.

(** C8.  Whatever the image was rendered to and whatever the target
    dimensions, the block returned by the renderer is the control sequence
    [ESC [ rows A] followed by the rendered content, unchanged; for a row
    count of at least one a terminal reads that sequence as a cursor
    movement up by exactly [rows] lines. *)
Theorem frame_to_ansi_moves_up_rows
    (self : ANSIFrameGenerator) (ansi_output : pystr) :
  exists frame_data,
    frame_to_ansi self (Ok ansi_output) = Ok frame_data
    /\ frame_data = ESC :: lit "[" ++ str_of_int (gen_terminal_height self)
                        ++ lit "A" ++ ansi_output
    /\ (1 <= gen_terminal_height self ->
        read_cursor_up frame_data
        = Some (gen_terminal_height self, ansi_output)).
Proof.
  assert (Hshape : frame_to_ansi self (Ok ansi_output)
                   = Ok (ESC :: lit "[" ++ str_of_int (gen_terminal_height self)
                             ++ lit "A" ++ ansi_output)).
  { unfold frame_to_ansi. bind_simpl.
    f_equal. cbn [app]. f_equal. rewrite <- !app_assoc. reflexivity. }
  eexists. split; [exact Hshape|]. split; [reflexivity|].
  intros Hrows.
  destruct (gen_terminal_height self) as [|rows|rows]; try lia.
  cbn [str_of_int Z.to_N]. rewrite read_cursor_up_encoded. reflexivity.
Qed.

Lemma frame_to_ansi_moves_up_22 :
  exists frame_data,
    frame_to_ansi {| gen_terminal_width := 80; gen_terminal_height := 22 |}
                  (Ok (lit "pixels")) = Ok frame_data
    /\ frame_data = ESC :: lit "[" ++ str_of_int 22 ++ lit "A" ++ lit "pixels"
    /\ (1 <= 22 -> read_cursor_up frame_data = Some (22, lit "pixels")).
Proof.
  exact (frame_to_ansi_moves_up_rows
           {| gen_terminal_width := 80; gen_terminal_height := 22 |}
           (lit "pixels")).
Defined.

(** ** Frame ordering *)

Lemma str_compare_refl a : str_compare a a = Eq.
Proof.
  induction a as [|x a IH]; cbn; [reflexivity|].
  rewrite N.compare_refl. exact IH.
Qed.

Lemma str_compare_eq a : forall b, str_compare a b = Eq -> a = b.
Proof.
  induction a as [|x a IH]; intros [|y b]; cbn; try discriminate;
    [reflexivity|].
  destruct (N.compare_spec x y) as [->|_|_]; try discriminate.
  intros H. f_equal. apply IH, H.
Qed.

Lemma str_compare_antisym a : forall b,
  str_compare b a = CompOpp (str_compare a b).
Proof.
  induction a as [|x a IH]; intros [|y b]; cbn; try reflexivity.
  rewrite (N.compare_antisym x y).
  destruct (x ?= y)%N; cbn; [apply IH|reflexivity|reflexivity].
Qed.

Lemma str_lt_trans a : forall b c, str_lt a b -> str_lt b c -> str_lt a c.
Proof.
  unfold str_lt.
  induction a as [|x a IH]; intros [|y b] [|z c]; cbn; try discriminate;
    try reflexivity.
  destruct (N.compare_spec x y) as [->|Hxy|Hxy]; try discriminate.
  - destruct (N.compare_spec y z) as [->|Hyz|Hyz]; try discriminate.
    + apply IH.
    + reflexivity.
  - intros _.
    destruct (N.compare_spec y z) as [->|Hyz|Hyz]; try discriminate.
    + intros _. destruct (N.compare_spec x z); try lia. reflexivity.
    + intros _. destruct (N.compare_spec x z); try lia. reflexivity.
Qed.

Lemma str_le_lt_or_eq a b : str_le a b <-> str_lt a b \/ a = b.
Proof.
  unfold str_le, str_lt. split.
  - destruct (str_compare a b) eqn:E; [|left; reflexivity|congruence].
    intros _. right. apply str_compare_eq, E.
  - intros [->| ->]; [discriminate|]. rewrite str_compare_refl. discriminate.
Qed.

#[global] Instance str_le_trans : Transitive str_le.
Proof.
  intros a b c Hab Hbc.
  apply str_le_lt_or_eq in Hab, Hbc. apply str_le_lt_or_eq.
  destruct Hab as [Hab| ->], Hbc as [Hbc| <-]; auto.
  left. eapply str_lt_trans; eassumption.
Qed.

#[global] Instance str_le_total : Total str_le.
Proof.
  intros a b. unfold str_le. rewrite (str_compare_antisym a b).
  destruct (str_compare a b); cbn; [left|left|right]; discriminate.
Qed.

Lemma str_lt_not_le a b : str_lt a b -> ~ str_le b a.
Proof.
  unfold str_lt, str_le. intros H. rewrite (str_compare_antisym a b), H.
  cbn. congruence.
Qed.

Lemma str_compare_app_same p : forall a b,
  str_compare (p ++ a) (p ++ b) = str_compare a b.
Proof.
  induction p as [|x p IH]; intros a b; cbn; [reflexivity|].
  rewrite N.compare_refl. apply IH.
Qed.

(** Numerals of one length compare as their values do. *)
Lemma str_compare_numerals x : forall y,
  length x = length y ->
  Forall (fun d => d < 10)%N x -> Forall (fun d => d < 10)%N y ->
  (be_val x < be_val y)%N ->
  forall s t, str_compare (map digit_char x ++ s) (map digit_char y ++ t) = Lt.
Proof.
  induction x as [|d x IH]; intros [|e y] Hlen Hx Hy Hlt s t;
    cbn in Hlen; try discriminate Hlen.
  - cbn in Hlt. lia.
  - inversion Hx as [|? ? Hd Hx']; inversion Hy as [|? ? He Hy']; subst.
    injection Hlen as Hlen.
    cbn [map app str_compare]. cbn [be_val] in Hlt. rewrite Hlen in Hlt.
    pose proof (be_val_bound x Hx') as Bx. rewrite Hlen in Bx.
    pose proof (be_val_bound y Hy') as By.
    unfold digit_char.
    destruct (N.compare_spec (48 + d) (48 + e)) as [Heq|Hlt'|Hgt].
    + apply IH; try assumption. assert (d = e) by lia. subst. lia.
    + reflexivity.
    + exfalso. assert (e + 1 <= d)%N by lia. nia.
Qed.

Lemma format_06d_as_digits n : format_06d n = map digit_char (format_06d_digits n).
Proof.
  unfold format_06d, format_06d_digits.
  rewrite decimal_as_digits, map_app, length_map.
  f_equal.
  induction (6 - length (decimal_digits n))%nat as [|k IH]; cbn [repeat map];
    [reflexivity|rewrite IH; reflexivity].
Qed.

Lemma format_06d_digits_spec n :
  (n < 1000000)%N ->
  length (format_06d_digits n) = 6%nat
  /\ Forall (fun d => d < 10)%N (format_06d_digits n)
  /\ be_val (format_06d_digits n) = n.
Proof.
  intros Hn. unfold format_06d_digits.
  destruct (decimal_digits_spec n) as [Hall Hval].
  pose proof (decimal_digits_length n 5 Hn) as Hlen.
  repeat split.
  - rewrite length_app, repeat_length. lia.
  - apply Forall_app. split; [|exact Hall].
    apply Forall_forall. intros d Hd.
    apply list_elem_of_In, repeat_spec in Hd. subst. lia.
  - rewrite be_val_zeros. exact Hval.
Qed.

(** Below a million, frame names are ordered as frame numbers. *)
Lemma frame_name_lt n m :
  (m < 1000000)%N -> (n < m)%N -> str_lt (frame_name n) (frame_name m).
Proof.
  intros Hm Hlt. unfold str_lt, frame_name.
  rewrite str_compare_app_same, !format_06d_as_digits.
  destruct (format_06d_digits_spec n ltac:(lia)) as (Ln & An & Vn).
  destruct (format_06d_digits_spec m Hm) as (Lm & Am & Vm).
  apply str_compare_numerals; try assumption; lia.
Qed.

(** The seventh digit breaks the order: frame 1000000 sorts before frame
    999999, indeed before frame 100001. *)
Lemma frame_name_million :
  str_lt (frame_name 1000000) (frame_name 999999)
  /\ str_lt (frame_name 1000000) (frame_name 100001).
Proof. split; vm_compute; reflexivity. Qed.

Lemma starts_with_app p s : starts_with p (p ++ s) = true.
Proof.
  induction p as [|x p IH]; cbn; [reflexivity|].
  rewrite N.eqb_refl. exact IH.
Qed.

Lemma glob_frame_frame_name n : glob_frame (frame_name n) = true.
Proof.
  unfold glob_frame, frame_name.
  rewrite starts_with_app. unfold ends_with.
  rewrite !rev_app_distr, <- app_assoc, starts_with_app.
  rewrite !length_app. cbn [andb]. apply Nat.leb_le.
  change (length (lit "frame_")) with 6%nat.
  change (length (lit ".png")) with 4%nat. lia.
Qed.

Lemma filter_all {A} (P : A -> Prop) `{!forall x, Decision (P x)} (l : list A) :
  Forall P l -> filter P l = l.
Proof.
  induction 1 as [|x l Hx _ IH]; [reflexivity|].
  rewrite filter_cons, decide_True by exact Hx. f_equal. exact IH.
Qed.

Lemma frame_name_inj_lt n m :
  (n < 1000000)%N -> (m < 1000000)%N -> n <> m ->
  str_le (frame_name n) (frame_name m) -> (n < m)%N.
Proof.
  intros Hn Hm Hne Hle.
  destruct (N.lt_trichotomy n m) as [Hlt|[Heq|Hgt]]; [exact Hlt|congruence|].
  exfalso. exact (str_lt_not_le _ _ (frame_name_lt m n Hn Hgt) Hle).
Qed.

Lemma sorted_names_sorted_numbers js :
  NoDup js -> Forall (fun n => n < 1000000)%N js ->
  StronglySorted str_le (map frame_name js) -> StronglySorted N.lt js.
Proof.
  induction js as [|a js IH]; intros Hnd Hall Hs; [constructor|].
  apply NoDup_cons in Hnd. destruct Hnd as [Hnotin Hnd].
  apply Forall_cons in Hall. destruct Hall as [Ha Hall].
  cbn [map] in Hs. apply StronglySorted_cons in Hs. destruct Hs as [Hhd Hs].
  constructor; [apply IH; assumption|].
  apply Forall_forall. intros j Hj.
  apply frame_name_inj_lt; try assumption.
  - eapply Forall_forall in Hall; eassumption.
  - intros ->. contradiction.
  - eapply Forall_forall in Hhd; [exact Hhd|].
    apply list_elem_of_fmap. exists j. split; [reflexivity|assumption].
Qed.

(** With fewer than a million frames, the frames are yielded in strictly
    increasing frame number, in whatever order the directory lists them. *)
Lemma extract_frames_in_order (numbers : list N) (listing : list pystr) :
  NoDup numbers -> Forall (fun n => n < 1000000)%N numbers ->
  listing ≡ₚ map frame_name numbers ->
  exists yielded,
    extract_frames (FfmpegDone listing) = Ok (map frame_name yielded)
    /\ yielded ≡ₚ numbers /\ StronglySorted N.lt yielded.
Proof.
  intros Hnd Hall Hperm. unfold extract_frames, sorted.
  assert (Hglob : Forall (fun n => glob_frame n = true) listing).
  { rewrite Hperm. apply Forall_forall. intros x Hx.
    apply list_elem_of_fmap in Hx. destruct Hx as (n & -> & _).
    apply glob_frame_frame_name. }
  rewrite (filter_all _ _ Hglob).
  pose proof (merge_sort_Permutation str_le listing) as Hp.
  pose proof (StronglySorted_merge_sort str_le listing) as Hs.
  apply (fun H => Permutation_trans H Hperm) in Hp.
  destruct (Permutation_map_inv frame_name _ Hp) as (yielded & Heq & Hpy).
  exists yielded. rewrite Heq in Hs |- *.
  split; [reflexivity|]. split; [symmetry; exact Hpy|].
  apply sorted_names_sorted_numbers; [| |exact Hs].
  - rewrite <- Hpy. exact Hnd.
  - rewrite <- Hpy. exact Hall.
Qed.

(** C4.  The order breaks at the seventh digit: when the scratch directory
    holds frames 999999 and 1000000, as it does for every video of a
    million frames or more, frame 1000000 is yielded before frame
    999999. *)
Theorem extract_frames_million_out_of_order (listing : list pystr) :
  frame_name 999999 ∈ listing -> frame_name 1000000 ∈ listing ->
  exists yielded,
    extract_frames (FfmpegDone listing) = Ok yielded
    /\ yielded_before (frame_name 1000000) (frame_name 999999) yielded.
Proof.
  intros Hold Hnew. unfold extract_frames, sorted.
  set (files := filter (fun n => glob_frame n = true) listing).
  eexists. split; [reflexivity|].
  pose proof (merge_sort_Permutation str_le files) as Hp.
  pose proof (StronglySorted_merge_sort str_le files) as Hs.
  assert (Hin : forall n, frame_name n ∈ listing ->
                          frame_name n ∈ merge_sort str_le files).
  { intros n Hn. rewrite Hp. apply list_elem_of_filter.
    split; [apply glob_frame_frame_name|exact Hn]. }
  apply Hin in Hold, Hnew.
  destruct frame_name_million as [Hlt _].
  apply list_elem_of_split in Hnew. destruct Hnew as (l1 & r & Hsplit).
  rewrite Hsplit in Hold, Hs |- *.
  apply elem_of_app in Hold. destruct Hold as [Hl1|Hr].
  - exfalso. apply (str_lt_not_le _ _ Hlt).
    eapply StronglySorted_app_1_elem_of; [exact Hs|exact Hl1|].
    apply elem_of_cons. left. reflexivity.
  - apply elem_of_cons in Hr. destruct Hr as [Heq|Hr].
    + exfalso. unfold str_lt in Hlt. rewrite Heq, str_compare_refl in Hlt.
      discriminate.
    + apply list_elem_of_split in Hr. destruct Hr as (l2 & l3 & ->).
      exists l1, l2, l3. reflexivity.
Qed.

Lemma extract_frames_million_out_of_order_two_files :
  exists yielded,
    extract_frames (FfmpegDone [frame_name 999999; frame_name 1000000])
    = Ok yielded
    /\ yielded_before (frame_name 1000000) (frame_name 999999) yielded.
Proof.
  apply (extract_frames_million_out_of_order
           [frame_name 999999; frame_name 1000000]).
  - apply elem_of_cons. left. reflexivity.
  - apply elem_of_cons. right. apply elem_of_cons. left. reflexivity.
Defined.

(** ** Stream encoder *)

Lemma str_repeat_char c n : str_repeat [c] n = repeat c (Z.to_nat n).
Proof.
  unfold str_repeat. induction (Z.to_nat n) as [|k IH]; cbn; congruence.
Qed.

Section EncoderFacts.
Context (env : Env).

Lemma file_write_ok (p s : pystr) (st : gmap pystr pystr) (c : pystr) :
  fault_free env -> st !! p = Some c ->
  file_write env p s st = (Ok tt, <[p := c ++ s]> st).
Proof.
  intros Hff Hp. unfold file_write. rewrite Hff, Hp. reflexivity.
Qed.

Lemma write_frames_ok (p : pystr) (l : list pystr) :
  forall (st : gmap pystr pystr) (c : pystr),
  fault_free env -> st !! p = Some c ->
  write_frames env p l st = (Ok tt, <[p := c ++ concat l]> st).
Proof.
  induction l as [|x l IH]; intros st c Hff Hp.
  - cbn. rewrite app_nil_r, insert_id by exact Hp. reflexivity.
  - cbn [write_frames concat].
    unfold mbind, io_mbind, io_bind.
    rewrite (file_write_ok p x st c Hff Hp).
    rewrite (IH _ (c ++ x) Hff) by apply lookup_insert_eq.
    rewrite insert_insert_eq, app_assoc. reflexivity.
Qed.

Lemma write_stream_ok (temp : pystr) (l : list pystr) (rows : Z)
    (st : gmap pystr pystr) :
  fault_free env ->
  write_stream env temp l rows st = (Ok tt, <[temp := spec_stream l rows]> st).
Proof.
  intros Hff. unfold write_stream, with_open_w. rewrite !Hff.
  unfold mbind, io_mbind, io_bind.
  rewrite (file_write_ok temp _ _ [] Hff) by apply lookup_insert_eq.
  rewrite insert_insert_eq.
  rewrite (file_write_ok temp _ _ _ Hff) by apply lookup_insert_eq.
  rewrite insert_insert_eq.
  rewrite (write_frames_ok temp l _ _ Hff) by apply lookup_insert_eq.
  rewrite insert_insert_eq.
  rewrite (file_write_ok temp _ _ _ Hff) by apply lookup_insert_eq.
  rewrite insert_insert_eq, Hff.
  unfold spec_stream. rewrite str_repeat_char, <- !app_assoc. reflexivity.
Qed.

Lemma fault_free_removable (p : pystr) : fault_free env -> removable env p.
Proof. intros Hff st. split; apply Hff. Qed.

(** When the existence test and the removal do not fail, the cleanup of
    the [finally] block leaves no file at the path. *)
Lemma cleanup_removes (p : pystr) (st : gmap pystr pystr) :
  removable env p ->
  (e ← path_exists env p;
   if e : bool then path_unlink env p else io_ret tt) st
  = (Ok tt, delete p st).
Proof.
  intros Hrm. destruct (Hrm st) as [Hex Hun].
  unfold mbind, io_mbind, io_bind, path_exists, path_unlink, io_ret.
  rewrite Hex. case_bool_decide as Hsome.
  - rewrite Hun. destruct Hsome as [x ->]. reflexivity.
  - rewrite delete_id; [reflexivity|].
    destruct (st !! p) eqn:E; [|reflexivity].
    exfalso. apply Hsome. eauto.
Qed.

Lemma try_finally_removes {A} (body : io A) (p : pystr)
    (st : gmap pystr pystr) :
  removable env p ->
  try_finally body
    (e ← path_exists env p;
     if e : bool then path_unlink env p else io_ret tt) st
  = (fst (body st), delete p (snd (body st))).
Proof.
  intros Hrm. unfold try_finally. destruct (body st) as [r s1].
  rewrite (cleanup_removes _ _ Hrm). reflexivity.
Qed.

(** The encoder once the path of the intermediate is formed. *)
Lemma compress_frames_to_file_unfold (l : list pystr)
    (output_path temp_file : pystr) (rows : Z) (st : gmap pystr pystr) :
  with_suffix env output_path (lit ".ansi.tmp") = Some temp_file ->
  compress_frames_to_file env l output_path rows st
  = try_finally
      (_ ← write_stream env temp_file l rows;
       _ ← subprocess_run_zstd env temp_file output_path;
       io_lift (calculate_statistics l))
      (e ← path_exists env temp_file;
       if e : bool then path_unlink env temp_file else io_ret tt) st.
Proof.
  intros Hsuffix. unfold compress_frames_to_file, path_with_suffix.
  rewrite Hsuffix. reflexivity.
Qed.
End EncoderFacts.

(** C1.  When no file operation fails, the uncompressed stream that the
    encoder writes, and on which it runs the compressor, is [rows] newline
    characters, the cursor-hide code, the frame blocks concatenated in
    their order, the cursor-show code; for no frames it is the newlines,
    the hide code and the show code. *)
Theorem compress_frames_stream (env : Env) (frame_data_list : list pystr)
    (output_path temp_file : pystr) (rows : Z) (st : gmap pystr pystr) :
  fault_free env ->
  with_suffix env output_path (lit ".ansi.tmp") = Some temp_file ->
  write_stream env temp_file frame_data_list rows st
  = (Ok tt, <[temp_file := spec_stream frame_data_list rows]> st)
  /\ compress_frames_to_file env frame_data_list output_path rows st
     = after_compressor frame_data_list temp_file
         (run_zstd env temp_file output_path
            (<[temp_file := spec_stream frame_data_list rows]> st))
  /\ spec_stream [] rows = repeat LF (Z.to_nat rows) ++ hide_cursor ++ show_cursor.
Proof.
  intros Hff Hsuffix.
  pose proof (write_stream_ok env temp_file frame_data_list rows st Hff) as Hw.
  split; [exact Hw|]. split; [|reflexivity].
  rewrite (compress_frames_to_file_unfold env _ _ _ _ _ Hsuffix).
  rewrite try_finally_removes by (apply fault_free_removable; exact Hff).
  unfold after_compressor.
  unfold mbind, io_mbind, io_bind. rewrite Hw.
  unfold subprocess_run_zstd.
  destruct (run_zstd env temp_file output_path _) as [[| |] st'];
    reflexivity.
Qed.

Lemma compress_frames_stream_sample :
  write_stream sample_env (lit "out.ansi.tmp") [lit "one"; lit "two"] 2 ∅
  = (Ok tt, {[ lit "out.ansi.tmp" :=
               [LF; LF] ++ hide_cursor ++ lit "onetwo" ++ show_cursor ]})
  /\ snd (compress_frames_to_file sample_env [lit "one"; lit "two"]
            (lit "out.zst") 2 ∅)
     = {[ lit "out.zst" := lit "compressed" ]}.
Proof.
  destruct (compress_frames_stream sample_env [lit "one"; lit "two"]
              (lit "out.zst") (lit "out.ansi.tmp") 2 ∅)
    as (Hw & Hc & _).
  - intros op st. reflexivity.
  - reflexivity.
  - split.
    + rewrite Hw. reflexivity.
    + rewrite Hc. cbn [after_compressor snd sample_env run_zstd].
      apply map_eq. intros k.
      destruct (decide (k = lit "out.ansi.tmp")) as [->|Hk].
      * rewrite lookup_delete_eq. reflexivity.
      * rewrite lookup_delete_ne by congruence.
        destruct (decide (k = lit "out.zst")) as [->|Hk'].
        -- rewrite lookup_insert_eq, lookup_singleton_eq. reflexivity.
        -- rewrite lookup_insert_ne, lookup_insert_ne, lookup_singleton_ne
             by congruence.
           reflexivity.
Defined.

(** When the removal is refused, the intermediate stays: the encoder ends
    with the error of the removal and the stream is still on disk. *)
Lemma compress_frames_cleanup_refused :
  compress_frames_to_file undeletable_env sample_frames (lit "out.zst") 2 ∅
  = (Err (raised_by_runtime OSError),
     {[ lit "out.ansi.tmp" := spec_stream sample_frames 2;
        lit "out.zst" := lit "compressed" ]})
  /\ snd (compress_frames_to_file undeletable_env sample_frames
            (lit "out.zst") 2 ∅) !! lit "out.ansi.tmp" <> None.
Proof.
  assert (Hrun : compress_frames_to_file undeletable_env sample_frames
                   (lit "out.zst") 2 ∅
                 = (Err (raised_by_runtime OSError),
                    {[ lit "out.ansi.tmp" := spec_stream sample_frames 2;
                       lit "out.zst" := lit "compressed" ]}))
    by (vm_compute; reflexivity).
  split; [exact Hrun|]. rewrite Hrun. cbn [snd].
  rewrite lookup_insert_eq. discriminate.
Qed.

(** C6.  Whenever the existence test and the removal of the intermediate
    do not themselves fail, then whatever else fails (the opening, a
    write, the closing, the compressor, the statistics) and whatever the
    compressor does, when the encoder finishes, normally or with an
    exception, no file exists at the path of the uncompressed
    intermediate; when that path cannot even be formed, the encoder
    raises without touching the file system. *)
Theorem compress_frames_cleanup (env : Env) (frame_data_list : list pystr)
    (output_path : pystr) (rows : Z) (st : gmap pystr pystr) :
  (forall temp_file,
     with_suffix env output_path (lit ".ansi.tmp") = Some temp_file ->
     removable env temp_file) ->
  match with_suffix env output_path (lit ".ansi.tmp") with
  | Some temp_file =>
      snd (compress_frames_to_file env frame_data_list output_path rows st)
        !! temp_file = None
  | None =>
      compress_frames_to_file env frame_data_list output_path rows st
      = (Err (raised_by_runtime ValueError), st)
  end.
Proof.
  intros Hrm.
  destruct (with_suffix env output_path (lit ".ansi.tmp")) as [temp_file|]
    eqn:Hsuffix.
  - rewrite (compress_frames_to_file_unfold env _ _ _ _ _ Hsuffix).
    rewrite try_finally_removes by (apply Hrm; reflexivity).
    cbn [snd]. apply lookup_delete_eq.
  - unfold compress_frames_to_file, path_with_suffix. rewrite Hsuffix.
    reflexivity.
Qed.

Lemma compress_frames_cleanup_on_failure :
  compress_frames_to_file failing_zstd_env [lit "one"] (lit "out.zst") 2 ∅
  = (Err (raised_by_runtime CalledProcessError), ∅)
  /\ snd (compress_frames_to_file failing_zstd_env [lit "one"]
            (lit "out.zst") 2 ∅) !! lit "out.ansi.tmp" = None.
Proof.
  split.
  - vm_compute. reflexivity.
  - apply (compress_frames_cleanup failing_zstd_env [lit "one"]
             (lit "out.zst") 2 ∅).
    intros temp_file _ st. split; reflexivity.
Defined.

(** ** Statistics *)

Lemma utf8_encode_char_length c bytes :
  utf8_encode_char c = Some bytes -> length bytes = utf8_width c.
Proof.
  unfold utf8_encode_char, utf8_width.
  destruct (c <? 128)%N; [intros [= <-]; reflexivity|].
  destruct (c <? 2048)%N; [intros [= <-]; reflexivity|].
  destruct (c <? 65536)%N.
  - destruct ((55296 <=? c)%N && (c <=? 57343)%N); [discriminate|].
    intros [= <-]. reflexivity.
  - destruct (c <? 1114112)%N; [|discriminate].
    intros [= <-]. reflexivity.
Qed.

Lemma utf8_encode_length s : forall bytes,
  utf8_encode s = Ok bytes -> length bytes = utf8_length s.
Proof.
  induction s as [|c s IH]; intros bytes; cbn [utf8_encode].
  - intros [= <-]. reflexivity.
  - destruct (utf8_encode_char c) as [b|] eqn:Ec; [|discriminate].
    destruct (utf8_encode s) as [rest|]; [|discriminate].
    bind_simpl. intros [= <-].
    rewrite length_app, (IH rest eq_refl), (utf8_encode_char_length c b Ec).
    reflexivity.
Qed.

Lemma frame_sizes_of_spec l : forall sizes,
  frame_sizes_of l = Ok sizes ->
  sizes = map (fun frame_data => Z.of_nat (utf8_length frame_data)) l.
Proof.
  induction l as [|x l IH]; intros sizes; cbn [frame_sizes_of].
  - intros [= <-]. reflexivity.
  - destruct (utf8_encode x) as [bytes|] eqn:Ex; [|discriminate].
    destruct (frame_sizes_of l) as [rest|]; [|discriminate].
    bind_simpl. intros [= <-].
    rewrite (utf8_encode_length x bytes Ex), (IH rest eq_refl). reflexivity.
Qed.

Lemma py_sum_of_nat (l : list nat) :
  py_sum (map Z.of_nat l) = Z.of_nat (list_sum l).
Proof.
  unfold py_sum.
  assert (H : forall acc, fold_left Z.add (map Z.of_nat l) acc
                          = acc + Z.of_nat (list_sum l)).
  { induction l as [|x l IH]; intros acc; cbn [map fold_left].
    - cbn. lia.
    - rewrite IH. change (list_sum (x :: l)) with (x + list_sum l)%nat. lia. }
  rewrite H. lia.
Qed.

Lemma calculate_statistics_spec l s :
  calculate_statistics l = Ok s -> spec_statistics l s.
Proof.
  unfold calculate_statistics, spec_statistics.
  destruct (frame_sizes_of l) as [sizes|] eqn:Hsizes; [|discriminate].
  apply frame_sizes_of_spec in Hsizes. subst sizes.
  bind_simpl.
  destruct l as [|x l].
  - cbn. intros [= <-]. cbn. auto.
  - cbn [map is_nonempty].
    match goal with
    | |- context [int_truediv ?a ?b] => destruct (int_truediv a b) as [q|] eqn:Hq
    end; [|discriminate].
    bind_simpl. intros [= <-].
    cbn [frame_sizes total_frames avg_frame_size].
    split; [reflexivity|]. rewrite length_map.
    split; [reflexivity|]. exists q. split; [|reflexivity].
    rewrite <- Hq. f_equal.
    + change (Z.of_nat (utf8_length x)
              :: map (fun frame_data => Z.of_nat (utf8_length frame_data)) l)
        with (map (fun frame_data => Z.of_nat (utf8_length frame_data)) (x :: l)).
      rewrite <- (map_map utf8_length Z.of_nat), py_sum_of_nat. reflexivity.
    + cbn [length]. rewrite length_map. reflexivity.
Qed.

Lemma calculate_statistics_no_zero_division l :
  calculate_statistics l <> Err (raised_by_runtime ZeroDivisionError).
Proof.
  unfold calculate_statistics.
  destruct (frame_sizes_of l) as [sizes|] eqn:Hsizes.
  - bind_simpl.
    destruct sizes as [|z sizes]; cbn [is_nonempty]; [discriminate|].
    unfold int_truediv.
    destruct (Z.eqb_spec (Z.of_nat (length (z :: sizes))) 0) as [H0|_];
      [cbn in H0; lia|].
    match goal with
    | |- context [fdiv ?a ?b] => destruct (fdiv a b)
    end; discriminate.
  - bind_simpl. intros [= H].
    clear -Hsizes H. revert Hsizes. subst e.
    induction l as [|x l IH]; cbn [frame_sizes_of]; [discriminate|].
    assert (Hx : utf8_encode x <> Err (raised_by_runtime ZeroDivisionError)).
    { clear. induction x as [|c x IHx]; cbn [utf8_encode]; [discriminate|].
      destruct (utf8_encode_char c); [|discriminate].
      destruct (utf8_encode x); [discriminate|].
      bind_simpl. exact IHx. }
    destruct (utf8_encode x);
      bind_simpl;
      [|intros [= ->]; apply Hx; reflexivity].
    destruct (frame_sizes_of l); [discriminate|].
    bind_simpl. exact IH.
Qed.

Section EncoderOutcomes.
Context (env : Env).

Lemma file_write_fails_only_in_io (p s : pystr) :
  fails_only_in_io (file_write env p s).
Proof.
  intros st. unfold file_write.
  destruct (file_fault env (OpWrite p s) st) as [e|]; cbn; eauto.
Qed.

Lemma bind_fails_only_in_io {A B} (m : io A) (f : A -> io B) :
  fails_only_in_io m -> (forall a, fails_only_in_io (f a)) ->
  fails_only_in_io (m ≫= f).
Proof.
  intros Hm Hf st. specialize (Hm st).
  unfold mbind, io_mbind, io_bind.
  destruct (m st) as [[a|x] st']; cbn in Hm |- *; [apply Hf|exact Hm].
Qed.

Lemma write_frames_fails_only_in_io (p : pystr) (l : list pystr) :
  fails_only_in_io (write_frames env p l).
Proof.
  induction l as [|x l IH]; cbn [write_frames].
  - intros st. exact I.
  - apply bind_fails_only_in_io;
      [apply file_write_fails_only_in_io|intros _; exact IH].
Qed.

Lemma with_open_w_fails_only_in_io {A} (p : pystr) (body : io A) :
  fails_only_in_io body -> fails_only_in_io (with_open_w env p body).
Proof.
  intros Hbody st. unfold with_open_w.
  destruct (file_fault env (OpOpen p) st) as [e|]; cbn; [eauto|].
  specialize (Hbody (<[p := []]> st)).
  destruct (body (<[p := []]> st)) as [r st1].
  destruct (file_fault env (OpClose p) st1) as [e|]; cbn; [eauto|].
  exact Hbody.
Qed.

Lemma write_stream_fails_only_in_io (p : pystr) (l : list pystr) (rows : Z) :
  fails_only_in_io (write_stream env p l rows).
Proof.
  unfold write_stream. apply with_open_w_fails_only_in_io.
  repeat (apply bind_fails_only_in_io; [|intros _]);
    auto using file_write_fails_only_in_io, write_frames_fails_only_in_io.
Qed.

(** The cleanup ends normally or with the error of the refused existence
    test or removal. *)
Lemma cleanup_outcome (p : pystr) (st : gmap pystr pystr) :
  let r := fst ((e ← path_exists env p;
                 if e : bool then path_unlink env p else io_ret tt) st) in
  r = Ok tt \/ exists e, r = Err (exn_of_io_error e).
Proof.
  unfold mbind, io_mbind, io_bind, path_exists, path_unlink, io_ret.
  destruct (file_fault env (OpExists p) st) as [e|]; cbn; [eauto|].
  case_bool_decide as Hsome; cbn; [|auto].
  destruct (file_fault env (OpUnlink p) st) as [e|]; cbn; [eauto|].
  destruct Hsome as [x ->]. auto.
Qed.

(** Every way the encoder can end. *)
Lemma compress_frames_outcome (l : list pystr) (output_path : pystr)
    (rows : Z) (st : gmap pystr pystr) :
  let r := fst (compress_frames_to_file env l output_path rows st) in
  r = Err (raised_by_runtime ValueError)
  \/ (exists e, r = Err (exn_of_io_error e))
  \/ r = Err (raised_by_runtime CalledProcessError)
  \/ r = Err (raised_by_runtime OSError)
  \/ r = calculate_statistics l.
Proof.
  destruct (with_suffix env output_path (lit ".ansi.tmp")) as [temp|]
    eqn:Hsuffix.
  - rewrite (compress_frames_to_file_unfold env _ _ _ _ _ Hsuffix).
    unfold try_finally.
    match goal with
    | |- context [let '(r, s1) := ?body st in _] =>
        assert (Hbody : fst (body st) = Err (raised_by_runtime CalledProcessError)
                        \/ fst (body st) = Err (raised_by_runtime OSError)
                        \/ (exists e, fst (body st) = Err (exn_of_io_error e))
                        \/ fst (body st) = calculate_statistics l);
        [|destruct (body st) as [r s1]]
    end.
    + pose proof (write_stream_fails_only_in_io temp l rows st) as Hw.
      unfold mbind, io_mbind, io_bind.
      destruct (write_stream env temp l rows st) as [[[]|x] st1]; cbn in Hw.
      * unfold subprocess_run_zstd.
        destruct (run_zstd env temp output_path st1) as [[| |] st2]; cbn; auto.
      * cbn. destruct Hw as [e ->]. eauto.
    + pose proof (cleanup_outcome temp s1) as Hclean. cbn zeta in Hclean.
      destruct ((e ← path_exists env temp;
                 if e : bool then path_unlink env temp else io_ret tt) s1)
        as [[[]|x] s2]; cbn [fst] in *.
      * destruct Hbody as [-> | [-> | [[e ->] | ->]]]; eauto 6.
      * destruct Hclean as [Hc|[e Hc]]; [discriminate Hc|].
        injection Hc as ->. eauto.
  - left. unfold compress_frames_to_file, path_with_suffix.
    rewrite Hsuffix. reflexivity.
Qed.
End EncoderOutcomes.

(** C9.  When the encoder returns its statistics, the frame count is the
    number of blocks, the sizes are the UTF-8 byte lengths of the blocks,
    and the average is their sum divided by their count, or 0 when there
    is no block; the division is never a division by zero. *)
Theorem compress_frames_statistics (env : Env) (frame_data_list : list pystr)
    (output_path : pystr) (rows : Z) (st : gmap pystr pystr) :
  (forall s st',
     compress_frames_to_file env frame_data_list output_path rows st
     = (Ok s, st') ->
     spec_statistics frame_data_list s)
  /\ fst (compress_frames_to_file env frame_data_list output_path rows st)
     <> Err (raised_by_runtime ZeroDivisionError).
Proof.
  pose proof (compress_frames_outcome env frame_data_list output_path rows st)
    as Hout. cbn zeta in Hout.
  split.
  - intros s st' Hrun. rewrite Hrun in Hout. cbn [fst] in Hout.
    apply calculate_statistics_spec.
    destruct Hout as [H|[[e H]|[H|[H|H]]]]; try discriminate H.
    symmetry. exact H.
  - destruct Hout as [H|[[e H]|[H|[H|H]]]]; rewrite H; try discriminate.
    + destruct e; discriminate.
    + apply calculate_statistics_no_zero_division.
Qed.

Lemma compress_frames_statistics_sample :
  compress_frames_to_file sample_env sample_frames (lit "out.zst") 2 ∅
  = (Ok sample_stats, {[ lit "out.zst" := lit "compressed" ]})
  /\ spec_statistics sample_frames sample_stats.
Proof.
  assert (Hrun : compress_frames_to_file sample_env sample_frames
                   (lit "out.zst") 2 ∅
                 = (Ok sample_stats, {[ lit "out.zst" := lit "compressed" ]}))
    by (vm_compute; reflexivity).
  split; [exact Hrun|].
  exact (proj1 (compress_frames_statistics sample_env _ _ _ _) _ _ Hrun).
Defined.

(** ** Playback command *)

(** [int] on a finite double is the quotient of its fraction, rounded
    toward zero. *)
Lemma int_of_float_truncates x :
  is_finite x = true -> int_of_float x = Ok (Z.quot (fnum x) (fden x)).
Proof.
  destruct x as [s|s| |s m e]; cbn [is_finite]; try discriminate; intros _.
  - reflexivity.
  - cbn [int_of_float fnum fden]. f_equal.
    destruct e as [|e|e].
    + change (Z.max 0 0) with 0. change (Z.max (- 0) 0) with 0.
      change (2 ^ 0) with 1. rewrite Z.quot_1_r. destruct s; lia.
    + rewrite Z.max_l, Z.max_r by lia. change (2 ^ 0) with 1.
      rewrite Z.quot_1_r. destruct s; lia.
    + rewrite Z.max_r, Z.max_l by lia.
      change (- Z.neg e) with (Z.pos e). change (2 ^ 0) with 1.
      assert (Hpow : 0 < 2 ^ Z.pos e) by (apply Z.pow_pos_nonneg; lia).
      destruct s.
      * change (Z.neg m) with (- Z.pos m).
        rewrite Z.mul_1_r, Z.quot_opp_l by lia.
        rewrite Z.quot_div_nonneg by lia. reflexivity.
      * rewrite Z.mul_1_r, Z.quot_div_nonneg by lia. reflexivity.
Qed.

Lemma fps_25_avg_2_75 :
  float_truediv (S754_finite false 7036874417766400 (-48))
                (S754_finite false 4503599627370496 (-52)) = Ok fps_25
  /\ float_of_int 25 = Ok fps_25
  /\ int_truediv 11 4 = Ok avg_2_75.
Proof. repeat split; vm_compute; reflexivity. Qed.

(** C5, as the specification states it, fails: at 25 frames per second and
    2.75 bytes per frame the product is 68.75; the command limits the rate
    to 68 bytes per second, where rounding to the nearest integer gives
    69. *)
Lemma playback_rate_is_not_rounded :
  generate_playback_command (lit "out.zst") fps_25 (PyFloat avg_2_75)
  = Ok (lit "cat out.zst | zstd -d | pv -q -L 68")
  /\ spec_bytes_per_second avg_2_75 fps_25 = 69.
Proof. split; vm_compute; reflexivity. Qed.

(** C5, amended.  For every output path, frame rate and average frame size
    whose product is a finite double, the command is the pipeline that
    decompresses the output and limits the rate to the product truncated
    toward zero. *)
Theorem generate_playback_command_truncates
    (output_path : pystr) (fps : float) (avg_frame_size : number) (a : float) :
  to_float avg_frame_size = Ok a ->
  is_finite (fmul a fps) = true ->
  generate_playback_command output_path fps avg_frame_size
  = Ok (lit "cat " ++ output_path ++ lit " | zstd -d | pv -q -L "
        ++ str_of_int (Z.quot (fnum (fmul a fps)) (fden (fmul a fps)))).
Proof.
  intros Ha Hfin. unfold generate_playback_command, float_mul.
  rewrite Ha. bind_simpl.
  rewrite (int_of_float_truncates _ Hfin). reflexivity.
Qed.

Lemma generate_playback_command_truncates_sample :
  to_float (PyFloat avg_2_75) = Ok avg_2_75
  /\ is_finite (fmul avg_2_75 fps_25) = true
  /\ Z.quot (fnum (fmul avg_2_75 fps_25)) (fden (fmul avg_2_75 fps_25)) = 68
  /\ generate_playback_command (lit "out.zst") fps_25 (PyFloat avg_2_75)
     = Ok (lit "cat " ++ lit "out.zst" ++ lit " | zstd -d | pv -q -L "
           ++ str_of_int (Z.quot (fnum (fmul avg_2_75 fps_25))
                                 (fden (fmul avg_2_75 fps_25)))).
Proof.
  split; [reflexivity|]. split; [vm_compute; reflexivity|].
  split; [vm_compute; reflexivity|].
  apply (generate_playback_command_truncates (lit "out.zst") fps_25
           (PyFloat avg_2_75) avg_2_75);
    [reflexivity|vm_compute; reflexivity].
Defined.

(** ** Metadata probe *)

Section ProbeFacts.
Context {conv : StrConversions}.

Lemma getitem_is_dict v key x :
  getitem v key = Ok x ->
  exists entries, v = JDict entries /\ dict_get entries key = Some x.
Proof.
  destruct v; cbn; try discriminate.
  destruct (dict_get entries key) as [y|] eqn:E; [|discriminate].
  intros [= <-]. eauto.
Qed.

(** The stream that the loop finds is the first stream of video type. *)
Lemma find_video_stream_first streams : forall vs,
  find_video_stream streams = Ok (Some vs) ->
  find is_video_stream streams = Some (JDict vs).
Proof.
  induction streams as [|stream rest IH]; intros vs; cbn [find_video_stream find].
  - discriminate.
  - destruct (getitem stream (lit "codec_type")) as [t|] eqn:Ht;
      [|discriminate].
    apply getitem_is_dict in Ht. destruct Ht as (entries & -> & Hget).
    cbn [mbind result_mbind result_bind is_video_stream]. rewrite Hget.
    destruct (equals_str t (lit "video")).
    + intros [= <-]. reflexivity.
    + apply IH.
Qed.

Lemma find_video_stream_of_strings (l : list pystr) vs :
  find_video_stream (map JStr l) <> Ok (Some vs).
Proof.
  intros H. apply find_video_stream_first in H.
  apply find_some in H. destruct H as [Hin _].
  apply in_map_iff in Hin. destruct Hin as (s & Hs & _). discriminate.
Qed.

(** What a successful probe has read. *)
Lemma get_video_metadata_ok self outcome self' md :
  get_video_metadata self outcome = Ok (self', md) ->
  exists entries streams vs,
    outcome = ProbeJson (JDict entries)
    /\ dict_get entries (lit "streams") = Some (JList streams)
    /\ find is_video_stream streams = Some (JDict vs)
    /\ read_video_stream (JDict entries) vs = Ok md
    /\ self' = set_metadata self md.
Proof.
  destruct outcome as [|stderr|error|metadata]; cbn [get_video_metadata];
    try discriminate.
  destruct (getitem metadata (lit "streams")) as [v|] eqn:Hv; [|discriminate].
  apply getitem_is_dict in Hv. destruct Hv as (entries & -> & Hget).
  bind_simpl.
  destruct (iterate v) as [items|] eqn:Hitems; [|discriminate].
  bind_simpl.
  destruct (find_video_stream items) as [[vs|]|] eqn:Hfind; try discriminate.
  bind_simpl.
  destruct vs as [|kv vs]; [discriminate|].
  destruct (read_video_stream (JDict entries) (kv :: vs)) as [md0|] eqn:Hread;
    [|discriminate].
  bind_simpl. intros [= <- <-].
  exists entries.
  destruct v as [| | | |s|streams|d]; cbn in Hitems; try discriminate;
    injection Hitems as <-.
  - exfalso.
    rewrite <- (map_map (fun c : N => [c]) JStr) in Hfind.
    exact (find_video_stream_of_strings _ _ Hfind).
  - exists streams, (kv :: vs).
    apply find_video_stream_first in Hfind. auto.
  - exfalso.
    rewrite <- (map_map fst JStr) in Hfind.
    exact (find_video_stream_of_strings _ _ Hfind).
Qed.
End ProbeFacts.

Section ProbeResult.
Context {conv : StrConversions}.

Lemma py_float_of_str s x :
  py_float (JStr s) = Ok x -> float_of_str s = Some x.
Proof.
  cbn. destruct (float_of_str s); [intros [= <-]; reflexivity|discriminate].
Qed.

Lemma list_item_lookup {A} (l : list A) i x :
  list_item l i = Ok x -> l !! i = Some x.
Proof.
  unfold list_item. destruct (l !! i); [intros [= <-]; reflexivity|discriminate].
Qed.

Lemma read_video_stream_extracted entries vs md :
  read_video_stream (JDict entries) vs = Ok md -> extracted_from entries vs md.
Proof.
  unfold read_video_stream, extracted_from.
  destruct (getitem (JDict vs) (lit "width")) as [w|] eqn:Ew;
    bind_simpl; [|discriminate].
  destruct (py_int w) as [wz|] eqn:Ewz;
    bind_simpl; [|discriminate].
  destruct (getitem (JDict vs) (lit "height")) as [h|] eqn:Eh;
    bind_simpl; [|discriminate].
  destruct (py_int h) as [hz|] eqn:Ehz;
    bind_simpl; [|discriminate].
  destruct (getitem (JDict vs) (lit "r_frame_rate")) as [rate|] eqn:Er;
    bind_simpl; [|discriminate].
  destruct (str_split rate) as [parts|] eqn:Eparts;
    bind_simpl; [|discriminate].
  destruct (list_item parts 0) as [ns|] eqn:Ens;
    bind_simpl; [|discriminate].
  destruct (py_float (JStr ns)) as [num|] eqn:Enum;
    bind_simpl; [|discriminate].
  destruct (list_item parts 1) as [ds|] eqn:Eds;
    bind_simpl; [|discriminate].
  destruct (py_float (JStr ds)) as [den|] eqn:Eden;
    bind_simpl; [|discriminate].
  destruct (float_truediv num den) as [rate_value|] eqn:Erate;
    bind_simpl; [|discriminate].
  match goal with
  | |- mbind _ ?m = Ok _ -> _ =>
      destruct m as [count|] eqn:Ecount;
      bind_simpl; [|discriminate]
  end.
  intros [= <-]. cbn [md_width md_height md_fps md_frame_count].
  apply getitem_is_dict in Ew, Eh, Er.
  destruct Ew as (? & [= <-] & Hw), Eh as (? & [= <-] & Hh),
           Er as (? & [= <-] & Hr).
  split; [eauto|]. split; [eauto|]. split.
  - destruct rate; cbn in Eparts; try discriminate. injection Eparts as <-.
    apply list_item_lookup in Ens, Eds.
    apply py_float_of_str in Enum, Eden.
    unfold float_truediv in Erate.
    destruct (is_fzero den) eqn:Hz; [discriminate|]. injection Erate as <-.
    exists s, ns, ds, num, den. auto 10.
  - revert Ecount. case_bool_decide as Hnb.
    + destruct Hnb as [n Hn]. rewrite Hn. cbn [getitem]. rewrite Hn.
      bind_simpl. auto.
    + destruct (dict_get vs (lit "nb_frames")) as [n|] eqn:Hn;
        [exfalso; apply Hnb; eauto|].
      destruct (getitem (JDict entries) (lit "format")) as [format|] eqn:Ef;
        bind_simpl; [|discriminate].
      destruct (getitem format (lit "duration")) as [d|] eqn:Ed;
        bind_simpl; [|discriminate].
      destruct (py_float d) as [duration|] eqn:Edur;
        bind_simpl; [|discriminate].
      unfold float_mul. bind_simpl. intros Hcount.
      apply getitem_is_dict in Ef. destruct Ef as (? & [= <-] & Hformat).
      eauto 10.
Qed.
End ProbeResult.

(** C7, as stated, fails: the tool exited with zero, its output is
    structured data with a stream of video type, and the probe fails all
    the same, on the missing width. *)
Lemma probe_fails_outside_the_three_cases :
  spec_probe_fails stream_without_width = false
  /\ forall (conv : StrConversions) (self : VideoProcessor),
       get_video_metadata self stream_without_width
       = Err (raised_by_runtime KeyError).
Proof. split; [reflexivity|]. intros conv self. reflexivity. Qed.

(** C7, amended.  The probe fails whenever the tool exits non-zero, its
    output is not structured data, or the decoded metadata holds no stream
    of video type; whenever it returns, the metadata it returns and stores
    are the width, height, frame rate and frame count read from the first
    stream of video type. *)
Theorem get_video_metadata_spec `{StrConversions}
    (self : VideoProcessor) (outcome : ffprobe_outcome) :
  (spec_probe_fails outcome = true ->
   is_Err (get_video_metadata self outcome) = true)
  /\ (forall self' md,
        get_video_metadata self outcome = Ok (self', md) ->
        exists entries streams vs,
          outcome = ProbeJson (JDict entries)
          /\ dict_get entries (lit "streams") = Some (JList streams)
          /\ find is_video_stream streams = Some (JDict vs)
          /\ extracted_from entries vs md
          /\ self' = set_metadata self md).
Proof.
  assert (Hok : forall self' md,
             get_video_metadata self outcome = Ok (self', md) ->
             exists entries streams vs,
               outcome = ProbeJson (JDict entries)
               /\ dict_get entries (lit "streams") = Some (JList streams)
               /\ find is_video_stream streams = Some (JDict vs)
               /\ extracted_from entries vs md
               /\ self' = set_metadata self md).
  { intros self' md Hrun.
    apply get_video_metadata_ok in Hrun.
    destruct Hrun as (entries & streams & vs & -> & Hs & Hf & Hr & ->).
    exists entries, streams, vs.
    split; [reflexivity|]. split; [exact Hs|]. split; [exact Hf|].
    split; [apply read_video_stream_extracted; exact Hr|reflexivity]. }
  split; [|exact Hok].
  intros Hfails.
  destruct (get_video_metadata self outcome) as [[self' md]|e] eqn:Hrun;
    [|reflexivity].
  exfalso. destruct (Hok self' md eq_refl)
    as (entries & streams & vs & -> & Hs & Hf & _).
  cbn [spec_probe_fails has_video_stream] in Hfails. rewrite Hs in Hfails.
  apply find_some in Hf. destruct Hf as [Hin Hvideo].
  assert (Hex : existsb is_video_stream streams = true).
  { apply existsb_exists. eauto. }
  rewrite Hex in Hfails. discriminate.
Qed.

Lemma get_video_metadata_hd :
  @get_video_metadata numeral_conversions
    (VideoProcessor_init (lit "video.mp4") 80) (ProbeJson (JDict hd_probe_output))
  = Ok (set_metadata (VideoProcessor_init (lit "video.mp4") 80) hd_metadata,
        hd_metadata)
  /\ exists entries streams vs,
       ProbeJson (JDict hd_probe_output) = ProbeJson (JDict entries)
       /\ dict_get entries (lit "streams") = Some (JList streams)
       /\ find is_video_stream streams = Some (JDict vs)
       /\ @extracted_from numeral_conversions entries vs hd_metadata
       /\ set_metadata (VideoProcessor_init (lit "video.mp4") 80) hd_metadata
          = set_metadata (VideoProcessor_init (lit "video.mp4") 80) hd_metadata.
Proof.
  assert (Hrun : @get_video_metadata numeral_conversions
                   (VideoProcessor_init (lit "video.mp4") 80)
                   (ProbeJson (JDict hd_probe_output))
                 = Ok (set_metadata (VideoProcessor_init (lit "video.mp4") 80)
                         hd_metadata, hd_metadata))
    by (vm_compute; reflexivity).
  split; [exact Hrun|].
  exact (proj2 (@get_video_metadata_spec numeral_conversions _ _) _ _ Hrun).
Defined.

(** * Further properties *)

(** ** Frame extraction *)

#[global] Instance str_le_antisym : AntiSymm (=) str_le.
Proof.
  intros a b Hab Hba. apply str_le_lt_or_eq in Hab.
  destruct Hab as [Hlt|Heq]; [|exact Heq].
  exfalso. exact (str_lt_not_le _ _ Hlt Hba).
Qed.

(** X1.  The generator yields exactly the directory entries that match the
    pattern, each as often as the directory lists it, in the order of their
    names; it never yields another entry. *)
Theorem extract_frames_yields_matching (listing : list pystr) :
  exists yielded,
    extract_frames (FfmpegDone listing) = Ok yielded
    /\ yielded ≡ₚ filter (fun n => glob_frame n = true) listing
    /\ StronglySorted str_le yielded
    /\ (forall n, n ∈ yielded <-> n ∈ listing /\ glob_frame n = true)
    /\ (length yielded <= length listing)%nat.
Proof.
  eexists. split; [reflexivity|]. unfold sorted.
  set (files := filter (fun n => glob_frame n = true) listing).
  pose proof (merge_sort_Permutation str_le files) as Hp.
  split; [exact Hp|]. split; [apply StronglySorted_merge_sort; apply _|].
  split.
  - intros n. rewrite Hp. unfold files. rewrite list_elem_of_filter. tauto.
  - rewrite Hp. apply length_filter.
Qed.

(** X2.  The order in which the file system enumerates the scratch directory
    has no influence on what is yielded, whatever the names. *)
Theorem extract_frames_enumeration_independent (l1 l2 : list pystr) :
  l1 ≡ₚ l2 ->
  extract_frames (FfmpegDone l1) = extract_frames (FfmpegDone l2).
Proof.
  intros Hperm. cbn [extract_frames]. f_equal. unfold sorted.
  apply (StronglySorted_unique str_le).
  - apply StronglySorted_merge_sort; apply _.
  - apply StronglySorted_merge_sort; apply _.
  - rewrite !merge_sort_Permutation. rewrite Hperm. reflexivity.
Qed.

Lemma extract_frames_enumeration_independent_sample :
  extract_frames (FfmpegDone [frame_name 2; lit "notes.txt"; frame_name 1])
  = extract_frames (FfmpegDone [frame_name 1; frame_name 2; lit "notes.txt"]).
Proof.
  apply extract_frames_enumeration_independent.
  symmetry. exact (Permutation_cons_append [frame_name 2; lit "notes.txt"]
                     (frame_name 1)).
Defined.

Lemma frame_numbers_sorted (start n : nat) :
  StronglySorted N.lt (map N.of_nat (seq start n)).
Proof.
  revert start. induction n as [|n IH]; intros start; cbn [seq map];
    constructor; [apply IH|].
  apply Forall_forall. intros x Hx. apply list_elem_of_fmap in Hx.
  destruct Hx as (k & -> & Hk). apply elem_of_seq in Hk. lia.
Qed.

(** X3.  When ffmpeg leaves the frames 1 to [n], fewer than a million, and
    nothing else, the generator yields them as frame 1, frame 2, ...,
    frame [n], in whatever order the directory lists them. *)
Theorem extract_frames_consecutive (n : nat) (listing : list pystr) :
  (N.of_nat n < 1000000)%N ->
  listing ≡ₚ map frame_name (frame_numbers n) ->
  extract_frames (FfmpegDone listing) = Ok (map frame_name (frame_numbers n)).
Proof.
  intros Hn Hlisting.
  destruct (extract_frames_in_order (frame_numbers n) listing)
    as (yielded & -> & Hperm & Hsorted).
  - unfold frame_numbers. apply NoDup_fmap; [apply _|]. apply NoDup_seq.
  - apply Forall_forall. intros x Hx. apply list_elem_of_fmap in Hx.
    destruct Hx as (k & -> & Hk). apply elem_of_seq in Hk. cbn beta. lia.
  - exact Hlisting.
  - f_equal. f_equal.
    apply (StronglySorted_unique_strong N.lt); try assumption.
    + intros x1 x2 _ _ H12 H21. lia.
    + apply frame_numbers_sorted.
Qed.

Lemma extract_frames_consecutive_three :
  extract_frames (FfmpegDone [frame_name 3; frame_name 1; frame_name 2])
  = Ok [frame_name 1; frame_name 2; frame_name 3].
Proof.
  apply (extract_frames_consecutive 3); [lia|].
  exact (Permutation_cons_append [frame_name 1; frame_name 2] (frame_name 3)).
Defined.

(** ** Dimension calculator *)

(** X4.  The calculator changes nothing of the processor but the stored terminal
    height, and calling it again on the updated processor returns the same
    pair and leaves the processor as it is. *)
Theorem calculate_terminal_dimensions_idempotent
    (self self' : VideoProcessor) (dims : Z * Z) :
  calculate_terminal_dimensions self = Ok (self', dims) ->
  calculate_terminal_dimensions self' = Ok (self', dims)
  /\ video_path self' = video_path self
  /\ terminal_width self' = terminal_width self
  /\ fps self' = fps self /\ width self' = width self
  /\ height self' = height self /\ frame_count self' = frame_count self
  /\ terminal_height self' = Some (snd dims).
Proof.
  unfold calculate_terminal_dimensions.
  destruct (negb (truthy (width self)) || negb (truthy (height self))) eqn:G;
    [discriminate|].
  destruct (width self) as [W|] eqn:Hw; [|discriminate].
  destruct (height self) as [H|] eqn:Hh; [|discriminate].
  destruct (terminal_rows W H (terminal_width self)) as [th|] eqn:Hrows;
    [|discriminate].
  bind_simpl. intros [= <- <-].
  cbn [set_terminal_height width height terminal_width video_path fps
       frame_count terminal_height snd].
  rewrite Hw, Hh, G, Hrows. bind_simpl.
  repeat split; reflexivity.
Qed.

Lemma calculate_terminal_dimensions_idempotent_hd :
  calculate_terminal_dimensions hd_source
  = Ok (set_terminal_height hd_source 22, (80, 22))
  /\ calculate_terminal_dimensions (set_terminal_height hd_source 22)
     = Ok (set_terminal_height hd_source 22, (80, 22)).
Proof.
  assert (H : calculate_terminal_dimensions hd_source
              = Ok (set_terminal_height hd_source 22, (80, 22)))
    by (vm_compute; reflexivity).
  split; [exact H|].
  exact (proj1 (calculate_terminal_dimensions_idempotent _ _ _ H)).
Defined.

Lemma binary_round_aux_not_positive mx ex lx :
  not_positive (binary_round_aux prec emax true mx ex lx) = true.
Proof.
  unfold binary_round_aux.
  destruct (shr_fexp prec emax mx ex lx) as [mrs' e'].
  destruct (shr_fexp prec emax _ e' loc_Exact) as [mrs'' e''].
  destruct (shr_m mrs''); try reflexivity.
  destruct (e'' <=? emax - prec)%Z; reflexivity.
Qed.

Lemma fdiv_not_positive x y :
  not_positive x = true -> sign_clear y = true ->
  not_positive (fdiv x y) = true.
Proof.
  destruct x as [[]|[]| |[] mx ex], y as [[]|[]| |[] my ey];
    cbn; try discriminate; try reflexivity; intros _ _.
  unfold fdiv, SFdiv.
  destruct (SFdiv_core_binary prec emax (Z.pos mx) ex (Z.pos my) ey)
    as [[mz ez] lz].
  apply binary_round_aux_not_positive.
Qed.

Lemma float_of_int_not_positive z c :
  z <= 0 -> float_of_int z = Ok c -> not_positive c = true.
Proof.
  intros Hz. unfold float_of_int.
  destruct z as [|p|p]; try lia.
  - cbn. intros [= <-]. reflexivity.
  - unfold binary_normalize, binary_round.
    destruct (shl_align p 0 _) as [mz ez].
    pose proof (binary_round_aux_not_positive (Z.pos mz) ez loc_Exact) as Hs.
    destruct (binary_round_aux prec emax true (Z.pos mz) ez loc_Exact);
      intros [= <-]; exact Hs.
Qed.

Lemma int_of_float_not_positive y z :
  not_positive y = true -> int_of_float y = Ok z -> z <= 0.
Proof.
  destruct y as [s|s| |s m e]; cbn [int_of_float not_positive];
    try discriminate.
  - intros _ [= <-]. lia.
  - intros -> [= <-].
    destruct e as [|e|e].
    + lia.
    + assert (0 < 2 ^ Z.pos e) by (apply Z.pow_pos_nonneg; lia). nia.
    + assert (0 < 2 ^ Z.pos e) by (apply Z.pow_pos_nonneg; lia).
      assert (0 <= Z.pos m / 2 ^ Z.pos e) by (apply Z.div_pos; lia). lia.
Qed.

Lemma terminal_rows_not_positive_width W H C r :
  0 < W -> 0 < H -> C <= 0 -> terminal_rows W H C = Ok r -> r = 2.
Proof.
  intros HW HH HC. unfold terminal_rows.
  destruct (int_truediv W H) as [a|] eqn:Ea; [|discriminate].
  apply int_truediv_sign_clear in Ea; [|lia|lia].
  destruct (float_of_int C) as [c|] eqn:Ec; [|discriminate].
  apply float_of_int_not_positive in Ec; [|exact HC].
  bind_simpl. unfold float_truediv at 2.
  destruct (is_fzero a); [discriminate|]. bind_simpl.
  destruct (float_of_int 2) as [two|] eqn:Etwo; [|discriminate].
  apply float_of_int_sign_clear in Etwo; [|lia].
  bind_simpl. unfold float_truediv.
  destruct (is_fzero two); [discriminate|]. bind_simpl.
  pose proof (fdiv_not_positive _ _ (fdiv_not_positive c a Ec Ea) Etwo) as Hy.
  destruct (int_of_float (fdiv (fdiv c a) two)) as [th|] eqn:Eth;
    [|discriminate].
  apply int_of_float_not_positive in Eth; [|exact Hy].
  bind_simpl. intros [= <-].
  destruct (negb (th mod 2 =? 0)); lia.
Qed.

(** X5.  A requested width of zero or less, on a source of positive
    dimensions, is not refused: whenever the calculator returns, the row
    count is the minimum, 2. *)
Theorem calculate_terminal_dimensions_not_positive_width
    (self self' : VideoProcessor) (W H cols rows : Z) :
  width self = Some W -> height self = Some H -> 0 < W -> 0 < H ->
  terminal_width self <= 0 ->
  calculate_terminal_dimensions self = Ok (self', (cols, rows)) ->
  rows = 2 /\ cols = terminal_width self.
Proof.
  intros Hw Hh HW HH HC. unfold calculate_terminal_dimensions.
  rewrite Hw, Hh.
  destruct (negb (truthy (Some W)) || negb (truthy (Some H)));
    [discriminate|].
  destruct (terminal_rows W H (terminal_width self)) as [th|] eqn:Hrows;
    [|discriminate].
  bind_simpl. intros [= <- <- <-].
  split; [|reflexivity].
  exact (terminal_rows_not_positive_width W H _ th HW HH HC Hrows).
Qed.

Lemma calculate_terminal_dimensions_negative_width_hd :
  calculate_terminal_dimensions negative_width_source
  = Ok (set_terminal_height negative_width_source 2, (-80, 2))
  /\ 2 = 2 /\ -80 = terminal_width negative_width_source.
Proof.
  assert (H : calculate_terminal_dimensions negative_width_source
              = Ok (set_terminal_height negative_width_source 2, (-80, 2)))
    by (vm_compute; reflexivity).
  split; [exact H|].
  apply (calculate_terminal_dimensions_not_positive_width
           negative_width_source
           (set_terminal_height negative_width_source 2) 1920 1080 (-80) 2);
    first [reflexivity | exact H | cbn; lia].
Defined.

(** ** Metadata probe *)

Section ProbeEdges.
Context {conv : StrConversions}.

Lemma find_video_stream_skips pre : forall rest,
  Forall other_stream pre ->
  find_video_stream (pre ++ rest) = find_video_stream rest.
Proof.
  induction pre as [|s pre IH]; intros rest Hpre; [reflexivity|].
  apply Forall_cons in Hpre. destruct Hpre as [(entries & t & -> & Ht & Hne) Hpre].
  cbn [app find_video_stream getitem]. rewrite Ht. bind_simpl. rewrite Hne.
  apply IH, Hpre.
Qed.

Lemma find_video_stream_found vs rest :
  is_video_stream (JDict vs) = true ->
  find_video_stream (JDict vs :: rest) = Ok (Some vs).
Proof.
  cbn [is_video_stream find_video_stream getitem].
  destruct (dict_get vs (lit "codec_type")) as [t|]; [|discriminate].
  bind_simpl. intros ->. reflexivity.
Qed.

(** X6.  When the probe output lists streams and each of them is a well-formed
    stream of another type (or there is none at all), the probe raises the
    [ValueError] saying that no video stream was found. *)
Theorem get_video_metadata_no_video_stream
    (self : VideoProcessor) (entries : list (pystr * json))
    (streams : list json) :
  dict_get entries (lit "streams") = Some (JList streams) ->
  Forall other_stream streams ->
  get_video_metadata self (ProbeJson (JDict entries)) = Err no_video_stream.
Proof.
  intros Hs Hall. cbn [get_video_metadata getitem]. rewrite Hs. bind_simpl.
  cbn [iterate]. bind_simpl.
  rewrite <- (app_nil_r streams), (find_video_stream_skips streams [] Hall).
  reflexivity.
Qed.

(** X7.  The probe reads the first stream of video type, skipping the streams of
    other types before it; when the second part of its frame rate converts
    to zero, as in [0/0], the probe raises [ZeroDivisionError]. *)
Theorem get_video_metadata_zero_rate
    (self : VideoProcessor) (entries vs : list (pystr * json))
    (pre post : list json) (w h : json) (wz hz : Z)
    (rate ns ds : pystr) (more : list pystr) (num den : float) :
  dict_get entries (lit "streams") = Some (JList (pre ++ JDict vs :: post)) ->
  Forall other_stream pre ->
  is_video_stream (JDict vs) = true ->
  dict_get vs (lit "width") = Some w -> py_int w = Ok wz ->
  dict_get vs (lit "height") = Some h -> py_int h = Ok hz ->
  dict_get vs (lit "r_frame_rate") = Some (JStr rate) ->
  split_slash [] rate = ns :: ds :: more ->
  float_of_str ns = Some num -> float_of_str ds = Some den ->
  is_fzero den = true ->
  get_video_metadata self (ProbeJson (JDict entries))
  = Err (raised_by_runtime ZeroDivisionError).
Proof.
  intros Hs Hpre Hvideo Hw Hwz Hh Hhz Hr Hsplit Hnum Hden Hzero.
  cbn [get_video_metadata getitem]. rewrite Hs. bind_simpl.
  cbn [iterate]. bind_simpl.
  rewrite (find_video_stream_skips pre _ Hpre),
    (find_video_stream_found vs post Hvideo). bind_simpl.
  destruct vs as [|kv vs']; [discriminate Hw|].
  unfold read_video_stream. cbn [getitem].
  rewrite Hw. bind_simpl. rewrite Hwz. bind_simpl.
  rewrite Hh. bind_simpl. rewrite Hhz. bind_simpl.
  rewrite Hr. bind_simpl. cbn [str_split]. bind_simpl.
  rewrite Hsplit. unfold list_item. cbn [lookup list_lookup]. bind_simpl.
  cbn [py_float]. rewrite Hnum. bind_simpl. rewrite Hden. bind_simpl.
  unfold float_truediv. rewrite Hzero. reflexivity.
Qed.

(** X8.  The probe and the calculator in sequence: after a successful probe that
    read a width and a height between 1 and [2 ^ 64], and for a requested
    width in that range, the calculator returns the requested width and an
    even row count of at least 2; after a probe that read a zero width or
    height, the calculator raises the [ValueError] of its guard. *)
Theorem calculate_terminal_dimensions_after_probe
    (self probed : VideoProcessor) (outcome : ffprobe_outcome)
    (md : video_metadata) :
  get_video_metadata self outcome = Ok (probed, md) ->
  (0 < md_width md < 2 ^ 64 -> 0 < md_height md < 2 ^ 64 ->
   0 < terminal_width self < 2 ^ 64 ->
   exists rows,
     calculate_terminal_dimensions probed
     = Ok (set_terminal_height probed rows, (terminal_width self, rows))
     /\ Z.even rows = true /\ 2 <= rows)
  /\ (md_width md = 0 \/ md_height md = 0 ->
      calculate_terminal_dimensions probed = Err dimensions_not_set).
Proof.
  intros Hprobe. apply get_video_metadata_ok in Hprobe.
  destruct Hprobe as (entries & streams & vs & _ & _ & _ & _ & ->).
  unfold calculate_terminal_dimensions.
  cbn [set_metadata width height terminal_width truthy]. split.
  - intros HW HH HC.
    destruct (Z.eqb_spec (md_width md) 0) as [E|_]; [lia|].
    destruct (Z.eqb_spec (md_height md) 0) as [E|_]; [lia|].
    cbn [negb orb].
    destruct (terminal_rows_returns _ _ _ HW HH HC) as [rows Hrows].
    rewrite Hrows. bind_simpl. exists rows. split; [reflexivity|].
    exact (terminal_rows_even_ge_2 _ _ _ _ Hrows).
  - intros [-> | ->]; cbn [Z.eqb negb orb]; [reflexivity|].
    destruct (negb (negb (md_width md =? 0))); reflexivity.
Qed.
End ProbeEdges.

Lemma get_video_metadata_no_video_stream_audio :
  @get_video_metadata numeral_conversions
    (VideoProcessor_init (lit "song.mp3") 80) (ProbeJson (JDict audio_only_output))
  = Err no_video_stream.
Proof.
  apply (@get_video_metadata_no_video_stream numeral_conversions _
           audio_only_output [audio_stream]); [reflexivity|].
  repeat constructor.
  exists [(lit "codec_type", JStr (lit "audio"))], (JStr (lit "audio")).
  repeat split; reflexivity.
Defined.

Lemma get_video_metadata_zero_rate_sample :
  @get_video_metadata numeral_conversions
    (VideoProcessor_init (lit "clip.mkv") 80)
    (ProbeJson (JDict [(lit "streams", JList [audio_stream; JDict zero_rate_stream])]))
  = Err (raised_by_runtime ZeroDivisionError).
Proof.
  apply (@get_video_metadata_zero_rate numeral_conversions _ _ zero_rate_stream
           [audio_stream] [] (JInt 640) (JInt 480) 640 480 (lit "0/0")
           (lit "0") (lit "0") [] (S754_zero false) (S754_zero false));
    try reflexivity.
  repeat constructor.
  exists [(lit "codec_type", JStr (lit "audio"))], (JStr (lit "audio")).
  repeat split; reflexivity.
Defined.

Lemma calculate_terminal_dimensions_after_probe_hd :
  exists rows,
    calculate_terminal_dimensions
      (set_metadata (VideoProcessor_init (lit "video.mp4") 80) hd_metadata)
    = Ok (set_terminal_height
            (set_metadata (VideoProcessor_init (lit "video.mp4") 80) hd_metadata)
            rows, (80, rows))
    /\ Z.even rows = true /\ 2 <= rows.
Proof.
  refine (proj1 (@calculate_terminal_dimensions_after_probe numeral_conversions
                   (VideoProcessor_init (lit "video.mp4") 80) _
                   (ProbeJson (JDict hd_probe_output)) hd_metadata _) _ _ _).
  - vm_compute. reflexivity.
  - cbn. lia.
  - cbn. lia.
  - cbn. lia.
Defined.

(** ** Stream encoder *)

Section EncoderFrame.
Context (env : Env).

Lemma file_write_other (p s q : pystr) (st : gmap pystr pystr) :
  q <> p -> snd (file_write env p s st) !! q = st !! q.
Proof.
  intros Hq. unfold file_write.
  destruct (file_fault env (OpWrite p s) st); cbn [snd]; [reflexivity|].
  apply lookup_insert_ne. congruence.
Qed.

Lemma io_bind_other {A B} (m : io A) (f : A -> io B) (q : pystr)
    (st : gmap pystr pystr) :
  (forall st0, snd (m st0) !! q = st0 !! q) ->
  (forall a st0, snd (f a st0) !! q = st0 !! q) ->
  snd ((m ≫= f) st) !! q = st !! q.
Proof.
  intros Hm Hf. unfold mbind, io_mbind, io_bind.
  specialize (Hm st). destruct (m st) as [[a|e] st1]; cbn [snd] in *.
  - rewrite Hf. exact Hm.
  - exact Hm.
Qed.

Lemma write_frames_other (p q : pystr) (l : list pystr) :
  q <> p -> forall st : gmap pystr pystr,
  snd (write_frames env p l st) !! q = st !! q.
Proof.
  intros Hq. induction l as [|x l IH]; intros st; [reflexivity|].
  cbn [write_frames]. apply io_bind_other.
  - intros st0. apply file_write_other, Hq.
  - intros _ st0. apply IH.
Qed.

(** Writing the stream touches no file but the intermediate, whether the
    writing succeeds or fails on the way. *)
Lemma write_stream_other (p q : pystr) (l : list pystr) (rows : Z)
    (st : gmap pystr pystr) :
  q <> p -> snd (write_stream env p l rows st) !! q = st !! q.
Proof.
  intros Hq. unfold write_stream, with_open_w.
  destruct (file_fault env (OpOpen p) st); [reflexivity|].
  match goal with
  | |- context [let '(r, st1) := ?body ?s0 in _] =>
      assert (Hbody : snd (body s0) !! q = s0 !! q);
      [|destruct (body s0) as [r st1]]
  end.
  - repeat (apply io_bind_other; [|intros _ ?]);
      intros; auto using file_write_other, write_frames_other.
  - cbn [snd] in Hbody. rewrite lookup_insert_ne in Hbody by congruence.
    destruct (file_fault env (OpClose p) st1); exact Hbody.
Qed.

(** X9.  When the writing of the stream fails, and the existence test and
    the removal of the intermediate do not fail in turn, the encoder
    raises the error of the writing, does not run the compressor, removes
    what was written of the intermediate and leaves every other file as it
    was. *)
Theorem compress_frames_write_failure (frame_data_list : list pystr)
    (output_path temp_file : pystr) (rows : Z) (st : gmap pystr pystr)
    (e : exn) :
  with_suffix env output_path (lit ".ansi.tmp") = Some temp_file ->
  removable env temp_file ->
  fst (write_stream env temp_file frame_data_list rows st) = Err e ->
  compress_frames_to_file env frame_data_list output_path rows st
  = (Err e, delete temp_file st).
Proof.
  intros Hsuffix Hrm Hfail.
  rewrite (compress_frames_to_file_unfold env _ _ _ _ _ Hsuffix).
  rewrite try_finally_removes by exact Hrm.
  pose proof (fun q => write_stream_other temp_file q frame_data_list rows st)
    as Hother.
  unfold mbind, io_mbind, io_bind.
  destruct (write_stream env temp_file frame_data_list rows st) as [r st1].
  cbn [fst snd] in *. subst r. cbn [fst snd]. f_equal.
  apply map_eq. intros q.
  destruct (decide (q = temp_file)) as [->|Hq].
  - rewrite !lookup_delete_eq. reflexivity.
  - rewrite !lookup_delete_ne by congruence. apply Hother, Hq.
Qed.
End EncoderFrame.

Lemma compress_frames_write_failure_full_disk :
  fst (write_stream full_disk_env (lit "out.ansi.tmp") sample_frames 2 one_file)
  = Err (raised_by_runtime OSError)
  /\ compress_frames_to_file full_disk_env sample_frames (lit "out.zst") 2
       one_file
     = (Err (raised_by_runtime OSError), one_file).
Proof.
  assert (Hfail : fst (write_stream full_disk_env (lit "out.ansi.tmp")
                         sample_frames 2 one_file)
                  = Err (raised_by_runtime OSError))
    by (vm_compute; reflexivity).
  split; [exact Hfail|].
  assert (Hrm : removable full_disk_env (lit "out.ansi.tmp"))
    by (intros st; split; reflexivity).
  rewrite (compress_frames_write_failure full_disk_env sample_frames
             (lit "out.zst") (lit "out.ansi.tmp") 2 one_file _ eq_refl Hrm
             Hfail).
  reflexivity.
Defined.

Lemma utf8_encode_app a : forall b ba bb,
  utf8_encode a = Ok ba -> utf8_encode b = Ok bb ->
  utf8_encode (a ++ b) = Ok (ba ++ bb).
Proof.
  induction a as [|c a IH]; intros b ba bb; cbn [utf8_encode app].
  - intros [= <-] Hb. exact Hb.
  - destruct (utf8_encode_char c) as [bc|]; [|discriminate].
    destruct (utf8_encode a) as [ra|] eqn:Ea; [|discriminate].
    bind_simpl. intros [= <-] Hb.
    rewrite (IH b ra bb eq_refl Hb). bind_simpl.
    rewrite app_assoc. reflexivity.
Qed.

Lemma utf8_encode_ascii s :
  Forall (fun c => c < 128)%N s -> utf8_encode s = Ok s.
Proof.
  induction 1 as [|c s Hc _ IH]; [reflexivity|].
  cbn [utf8_encode]. unfold utf8_encode_char.
  destruct (N.ltb_spec c 128) as [_|Hge]; [|lia].
  rewrite IH. reflexivity.
Qed.

Lemma utf8_encode_concat l : forall sizes,
  frame_sizes_of l = Ok sizes ->
  exists bytes,
    utf8_encode (concat l) = Ok bytes
    /\ Z.of_nat (length bytes) = py_sum sizes.
Proof.
  induction l as [|x l IH]; intros sizes; cbn [frame_sizes_of concat].
  - intros [= <-]. exists []. split; reflexivity.
  - destruct (utf8_encode x) as [bx|] eqn:Ex; [|discriminate].
    destruct (frame_sizes_of l) as [rest|]; [|discriminate].
    bind_simpl. intros [= <-].
    destruct (IH rest eq_refl) as (bl & Hl & Hlen).
    exists (bx ++ bl). split; [exact (utf8_encode_app x _ _ _ Ex Hl)|].
    rewrite length_app, Nat2Z.inj_add, Hlen.
    unfold py_sum. cbn [fold_left].
    assert (Hacc : forall (zs : list Z) acc,
               fold_left Z.add zs acc = acc + fold_left Z.add zs 0).
    { induction zs as [|z zs IHz]; intros acc; cbn [fold_left]; [lia|].
      rewrite (IHz (acc + z)), (IHz (0 + z)). lia. }
    rewrite (Hacc rest (0 + Z.of_nat (length bx))). lia.
Qed.

(** X10.  The statistics account for the stream: when no file operation fails
    and the row count is not negative, the stream written for the frames
    has, in UTF-8, as many bytes as the sum of the reported frame sizes
    plus the rows and the twelve bytes of the two cursor codes. *)
Theorem stream_size_from_statistics (env : Env) (temp_file : pystr)
    (frame_data_list : list pystr) (rows : Z) (st : gmap pystr pystr)
    (s : stats) :
  fault_free env -> 0 <= rows ->
  calculate_statistics frame_data_list = Ok s ->
  exists text bytes,
    snd (write_stream env temp_file frame_data_list rows st) !! temp_file
    = Some text
    /\ utf8_encode text = Ok bytes
    /\ Z.of_nat (length bytes) = rows + 12 + py_sum (frame_sizes s).
Proof.
  intros Hff Hrows Hstats.
  rewrite (write_stream_ok env temp_file frame_data_list rows st Hff).
  cbn [snd]. rewrite lookup_insert_eq.
  unfold calculate_statistics in Hstats.
  destruct (frame_sizes_of frame_data_list) as [sizes|] eqn:Hsizes;
    [|discriminate].
  destruct (utf8_encode_concat _ _ Hsizes) as (bl & Hl & Hlen).
  assert (Hs : frame_sizes s = sizes).
  { revert Hstats. bind_simpl.
    destruct (is_nonempty sizes).
    - destruct (int_truediv _ _); bind_simpl; [|discriminate].
      intros [= <-]. reflexivity.
    - bind_simpl. intros [= <-]. reflexivity. }
  rewrite Hs.
  assert (Hnl : utf8_encode (repeat LF (Z.to_nat rows))
                = Ok (repeat LF (Z.to_nat rows))).
  { apply utf8_encode_ascii, Forall_forall. intros c Hc.
    apply list_elem_of_In, repeat_spec in Hc. subst c. reflexivity. }
  assert (Hhide : utf8_encode hide_cursor = Ok hide_cursor)
    by (vm_compute; reflexivity).
  assert (Hshow : utf8_encode show_cursor = Ok show_cursor)
    by (vm_compute; reflexivity).
  eexists _, _. split; [reflexivity|]. split.
  - unfold spec_stream.
    apply utf8_encode_app; [exact Hnl|].
    apply utf8_encode_app; [exact Hhide|].
    apply utf8_encode_app; [exact Hl|exact Hshow].
  - rewrite !length_app, repeat_length, !Nat2Z.inj_add, Z2Nat.id by lia.
    rewrite Hlen.
    change (length hide_cursor) with 6%nat.
    change (length show_cursor) with 6%nat. lia.
Qed.

Lemma stream_size_from_statistics_sample :
  exists text bytes,
    snd (write_stream sample_env (lit "out.ansi.tmp") sample_frames 2 ∅)
      !! lit "out.ansi.tmp" = Some text
    /\ utf8_encode text = Ok bytes
    /\ Z.of_nat (length bytes) = 2 + 12 + py_sum (frame_sizes sample_stats).
Proof.
  apply (stream_size_from_statistics sample_env (lit "out.ansi.tmp")
           sample_frames 2 ∅ sample_stats).
  - intros op st. reflexivity.
  - lia.
  - vm_compute. reflexivity.
Defined.

(** ** Playback command *)

(** X11.  For a video without frames the encoder reports the average 0 and the
    playback command limits the rate to 0 bytes per second, whatever the
    finite frame rate. *)
Theorem playback_command_without_frames (env : Env)
    (output_path : pystr) (rows : Z) (st st' : gmap pystr pystr) (s : stats)
    (fps : float) :
  compress_frames_to_file env [] output_path rows st = (Ok s, st') ->
  is_finite fps = true ->
  avg_frame_size s = PyInt 0
  /\ generate_playback_command output_path fps (avg_frame_size s)
     = Ok (lit "cat " ++ output_path ++ lit " | zstd -d | pv -q -L 0").
Proof.
  intros Hrun Hfin.
  pose proof (compress_frames_outcome env [] output_path rows st) as Hout.
  cbn zeta in Hout. rewrite Hrun in Hout. cbn [fst] in Hout.
  assert (Havg : avg_frame_size s = PyInt 0).
  { destruct Hout as [H|[[e H]|[H|[H|H]]]]; try discriminate H.
    cbn in H. injection H as ->. reflexivity. }
  split; [exact Havg|]. rewrite Havg.
  unfold generate_playback_command. cbn [to_float].
  change (float_of_int 0) with (Ok (S754_zero false)). bind_simpl.
  unfold float_mul. bind_simpl.
  destruct fps as [sf|sf| |sf mf ef]; try discriminate Hfin; reflexivity.
Qed.

Lemma playback_command_without_frames_sample :
  compress_frames_to_file sample_env [] (lit "out.zst") 2 ∅
  = (Ok {| frame_sizes := []; total_frames := 0; avg_frame_size := PyInt 0 |},
     {[ lit "out.zst" := lit "compressed" ]})
  /\ generate_playback_command (lit "out.zst") fps_25 (PyInt 0)
     = Ok (lit "cat " ++ lit "out.zst" ++ lit " | zstd -d | pv -q -L 0").
Proof.
  assert (Hrun : compress_frames_to_file sample_env [] (lit "out.zst") 2 ∅
    = (Ok {| frame_sizes := []; total_frames := 0; avg_frame_size := PyInt 0 |},
       {[ lit "out.zst" := lit "compressed" ]}))
    by (vm_compute; reflexivity).
  split; [exact Hrun|].
  exact (proj2 (playback_command_without_frames sample_env _ _ _ _ _ fps_25
                  Hrun eq_refl)).
Defined.

(** ** The program *)

Lemma preserves_bind {A B X} (f : world -> X) (m : run A) (k : A -> run B) :
  preserves f m -> (forall a, preserves f (k a)) -> preserves f (m ≫= k).
Proof.
  intros Hm Hk w. unfold mbind, run_mbind, run_bind.
  specialize (Hm w). destruct (m w) as [[a|e] w1]; cbn [snd] in *.
  - rewrite Hk. exact Hm.
  - exact Hm.
Qed.

Lemma preserves_print_files s e : preserves files (print_end s e).
Proof. intros w. reflexivity. Qed.

Lemma preserves_print_stderr s e : preserves stderr (print_end s e).
Proof. intros w. reflexivity. Qed.

Lemma preserves_lift {A X} (f : world -> X) (r : result A) :
  preserves f (run_lift r).
Proof. intros w. reflexivity. Qed.

Lemma preserves_ret {A X} (f : world -> X) (a : A) : preserves f (run_ret a).
Proof. intros w. reflexivity. Qed.

Lemma run_bind_print {B} s e (k : unit -> run B) w :
  (print_end s e ≫= k) w =
  k tt {| files := files w; stdout := stdout w ++ s ++ e;
          stderr := stderr w |}.
Proof. reflexivity. Qed.

Lemma run_bind_lift {A B} (r : result A) (k : A -> run B) w :
  (run_lift r ≫= k) w =
  match r with Ok a => k a w | Err e => (Err e, w) end.
Proof. unfold mbind, run_mbind, run_bind, run_lift. destruct r; reflexivity. Qed.

Lemma run_bind_unfold {A B} (m : run A) (k : A -> run B) w :
  (m ≫= k) w =
  match m w with (Ok a, w') => k a w' | (Err e, w') => (Err e, w') end.
Proof. reflexivity. Qed.

Section MainFacts.
Context {conv : StrConversions} (ext : Externals).

Lemma preserves_process_frames {X} (f : world -> X) gen frames :
  (forall s e, preserves f (print_end s e)) ->
  forall n acc, preserves f (process_frames ext gen frames n acc).
Proof.
  intros Hprint. induction frames as [|x frames IH]; intros n acc;
    cbn [process_frames]; [apply preserves_ret|].
  apply preserves_bind; [apply Hprint|intros _].
  apply preserves_bind; [apply preserves_lift|intros b]. apply IH.
Qed.

Lemma preserves_extract_and_render {X} (f : world -> X) processor gen :
  (forall s e, preserves f (print_end s e)) ->
  preserves f (extract_and_render ext processor gen).
Proof.
  intros Hprint. unfold extract_and_render, print.
  apply preserves_bind; [apply preserves_lift|intros temp_path].
  apply preserves_bind; [apply Hprint|intros _].
  apply preserves_bind; [apply preserves_lift|intros cmd].
  apply preserves_bind; [apply preserves_lift|intros frames].
  apply preserves_bind; [apply preserves_process_frames, Hprint|].
  intros [frame_count all_frame_data].
  apply preserves_bind; [apply Hprint|intros _]. apply preserves_ret.
Qed.

Lemma preserves_banner {X} (f : world -> X) args output :
  (forall s e, preserves f (print_end s e)) ->
  preserves f (banner args output).
Proof.
  intros Hprint. unfold banner, print.
  apply preserves_bind; [apply Hprint|intros _].
  apply preserves_bind; [apply Hprint|intros _]. apply Hprint.
Qed.

(** What [main_try] does to the files: nothing, or what the encoder does
    to them, called with an even number of rows of at least 2. *)
Lemma main_try_files args output w :
  files (snd (main_try ext args output w)) = files w \/
  exists all_frame_data rows,
    Z.even rows = true /\ 2 <= rows /\
    files (snd (main_try ext args output w)) =
    snd (compress_frames_to_file (ext_env ext) all_frame_data output rows
           (files w)).
Proof.
  unfold main_try, print.
  rewrite run_bind_print, run_bind_lift.
  destruct (get_video_metadata _ _) as [[processor metadata]|e];
    [|left; reflexivity].
  rewrite run_bind_print, run_bind_lift.
  destruct (calculate_terminal_dimensions processor)
    as [[processor' [term_width term_height]]|e] eqn:Hdims;
    [|left; reflexivity].
  rewrite run_bind_print, run_bind_unfold.
  match goal with |- context [extract_and_render ext ?p ?g ?w0] =>
    pose proof (preserves_extract_and_render files p g
                  preserves_print_files w0) as Hfiles;
    destruct (extract_and_render ext p g w0) as [[all_frame_data|e] w1]
  end; cbn [snd files] in Hfiles; [|left; exact Hfiles].
  right. exists all_frame_data, term_height.
  rewrite run_bind_print, run_bind_unfold. unfold run_io.
  cbn [files]. rewrite Hfiles.
  assert (Z.even term_height = true /\ 2 <= term_height) as [Heven Hge].
  { unfold calculate_terminal_dimensions in Hdims.
    destruct (negb (truthy (width processor)) || negb (truthy (height processor)));
      [discriminate Hdims|].
    destruct (width processor) as [W|]; [|discriminate Hdims].
    destruct (height processor) as [H|]; [|discriminate Hdims].
    destruct (terminal_rows W H (terminal_width processor)) as [th|] eqn:Hrows;
      [|discriminate Hdims].
    cbn in Hdims. injection Hdims as _ _ <-.
    exact (terminal_rows_even_ge_2 _ _ _ _ Hrows). }
  split; [exact Heven|]. split; [exact Hge|].
  destruct (compress_frames_to_file _ _ _ _ _) as [[cm|e] st];
    [|reflexivity].
  match goal with |- files (snd (?m ?w0)) = _ =>
    assert (preserves files m) as Hrest
  end.
  { apply preserves_bind; [apply preserves_lift|intros playback_cmd].
    apply preserves_bind; [apply preserves_print_files|intros _].
    apply preserves_bind; [apply preserves_print_files|intros _].
    apply preserves_bind; [apply preserves_lift|intros avg].
    apply preserves_bind; [apply preserves_print_files|intros _].
    apply preserves_bind; [apply preserves_print_files|intros _].
    apply preserves_print_files. }
  rewrite Hrest. reflexivity.
Qed.

Lemma frame_to_ansi_block gen o :
  frame_to_ansi gen (Ok o) = Ok (frame_block (gen_terminal_height gen) o).
Proof.
  unfold frame_to_ansi, frame_block. bind_simpl. f_equal.
  cbn [app lit]. rewrite <- !app_assoc. reflexivity.
Qed.

Lemma process_frames_renders gen frames outs :
  Forall2 (fun f o => ext_render ext gen f = Ok o) frames outs ->
  forall n acc w, exists w',
    process_frames ext gen frames n acc w
    = (Ok (n + Z.of_nat (length frames),
           acc ++ map (frame_block (gen_terminal_height gen)) outs), w')
    /\ files w' = files w.
Proof.
  induction 1 as [|f o frames outs Hf _ IH]; intros n acc w.
  - exists w. cbn [process_frames length map]. unfold run_ret.
    rewrite Z.add_0_r, app_nil_r. auto.
  - cbn [process_frames]. rewrite run_bind_print, run_bind_lift, Hf.
    rewrite frame_to_ansi_block.
    match goal with |- context [process_frames ext gen frames ?m ?a ?w0] =>
      destruct (IH m a w0) as (w' & -> & Hfiles)
    end.
    exists w'. split; [|exact Hfiles].
    replace (n + Z.of_nat (length (f :: frames)))
      with (n + 1 + Z.of_nat (length frames)) by (rewrite length_cons; lia).
    cbn [map]. rewrite <- (app_assoc acc [_] _). reflexivity.
Qed.

Lemma extract_and_render_renders processor cols rows d listing outs w :
  terminal_height processor = Some rows ->
  ext_scratch ext = Some d ->
  (forall cmd,
     ffmpeg_command processor (ext_join ext d (lit "frame_%06d.png")) = Ok cmd ->
     ext_ffmpeg ext cmd = FfmpegDone listing) ->
  Forall2 (fun f o =>
             ext_render ext {| gen_terminal_width := cols;
                               gen_terminal_height := rows |} f = Ok o)
          (sorted (filter (fun n => glob_frame n = true) listing)) outs ->
  exists w',
    extract_and_render ext processor
      {| gen_terminal_width := cols; gen_terminal_height := rows |} w
    = (Ok (map (frame_block rows) outs), w')
    /\ files w' = files w.
Proof.
  intros Hth Hd Hffmpeg Hrender. unfold extract_and_render, print.
  rewrite Hd, run_bind_lift, run_bind_print, run_bind_lift.
  destruct (ffmpeg_command processor _) as [cmd|e] eqn:Hcmd;
    [|unfold ffmpeg_command in Hcmd; rewrite Hth in Hcmd; discriminate Hcmd].
  rewrite run_bind_lift, (Hffmpeg cmd eq_refl). cbn [extract_frames].
  rewrite run_bind_unfold.
  match goal with |- context [process_frames ext ?g ?fs ?m ?a ?w0] =>
    destruct (process_frames_renders g fs outs Hrender m a w0)
      as (w' & -> & Hfiles)
  end.
  rewrite run_bind_print. unfold run_ret. cbn [gen_terminal_height app].
  eexists. split; [reflexivity|]. exact Hfiles.
Qed.

(** With no failing file operation the encoder hands the compressor the
    file system in which the intermediate holds the stream, and removes
    the intermediate afterwards. *)
Lemma compress_frames_fault_free (l : list pystr) (output temp : pystr)
    (rows : Z) (st : gmap pystr pystr) :
  fault_free (ext_env ext) ->
  with_suffix (ext_env ext) output (lit ".ansi.tmp") = Some temp ->
  compress_frames_to_file (ext_env ext) l output rows st
  = after_compressor l temp
      (run_zstd (ext_env ext) temp output (<[temp := spec_stream l rows]> st)).
Proof.
  intros Hff Hsuffix.
  rewrite (compress_frames_to_file_unfold _ _ _ _ _ _ Hsuffix).
  rewrite try_finally_removes by (apply fault_free_removable; exact Hff).
  unfold mbind, io_mbind, io_bind.
  rewrite (write_stream_ok _ _ _ _ _ Hff).
  unfold subprocess_run_zstd, after_compressor.
  destruct (run_zstd _ _ _ _) as [[| |] st2]; reflexivity.
Qed.
End MainFacts.

(** X12.  After the calculator has run, the ffmpeg command line asks for frames
    of the terminal width by twice the terminal rows, a height that is a
    multiple of 4 and at least 4. *)
Theorem ffmpeg_command_after_dimensions (self self' : VideoProcessor)
    (cols rows : Z) (frame_pattern : pystr) :
  calculate_terminal_dimensions self = Ok (self', (cols, rows)) ->
  exists pixel_rows,
    ffmpeg_command self' frame_pattern
    = Ok [lit "ffmpeg"; lit "-v"; lit "quiet"; lit "-nostats"; lit "-i";
          video_path self; lit "-y"; lit "-vf";
          lit "scale=" ++ str_of_int cols ++ lit ":" ++ str_of_int pixel_rows;
          frame_pattern]
    /\ pixel_rows = 2 * rows /\ pixel_rows mod 4 = 0 /\ 4 <= pixel_rows.
Proof.
  unfold calculate_terminal_dimensions.
  destruct (negb (truthy (width self)) || negb (truthy (height self)));
    [discriminate|].
  destruct (width self) as [W|]; [|discriminate].
  destruct (height self) as [H|]; [|discriminate].
  destruct (terminal_rows W H (terminal_width self)) as [th|] eqn:Hrows;
    [|discriminate].
  cbn. intros [= <- <- <-].
  destruct (terminal_rows_even_ge_2 _ _ _ _ Hrows) as [Heven Hge].
  exists (2 * th). split; [|split; [reflexivity|]].
  - unfold ffmpeg_command. cbn [terminal_height set_terminal_height
      terminal_width video_path]. rewrite (Z.mul_comm th 2). reflexivity.
  - apply Z.even_spec in Heven. destruct Heven as [k ->]. split; [|lia].
    replace (2 * (2 * k)) with (k * 4) by lia. apply Z_mod_mult.
Qed.

Lemma ffmpeg_command_after_dimensions_hd :
  calculate_terminal_dimensions hd_source
  = Ok (set_terminal_height hd_source 22, (80, 22))
  /\ exists pixel_rows,
       ffmpeg_command (set_terminal_height hd_source 22) (lit "frame_%06d.png")
       = Ok [lit "ffmpeg"; lit "-v"; lit "quiet"; lit "-nostats"; lit "-i";
             video_path hd_source; lit "-y"; lit "-vf";
             lit "scale=" ++ str_of_int 80 ++ lit ":" ++ str_of_int pixel_rows;
             lit "frame_%06d.png"]
       /\ pixel_rows = 2 * 22 /\ pixel_rows mod 4 = 0 /\ 4 <= pixel_rows.
Proof.
  split; [vm_compute; reflexivity|].
  apply (ffmpeg_command_after_dimensions hd_source). vm_compute. reflexivity.
Defined.

(** X14.  The program changes the files only through the encoder: after a run
    they are as before, or as the encoder leaves them when called on them
    with the output path and an even number of rows of at least 2. *)
Theorem main_touches_files_only_by_encoding {conv : StrConversions}
    (ext : Externals) (args : Args) (w : world) :
  files (snd (main ext args w)) = files w
  \/ exists output all_frame_data rows,
       output_path_of ext args = Ok output
       /\ Z.even rows = true /\ 2 <= rows
       /\ files (snd (main ext args w))
          = snd (compress_frames_to_file (ext_env ext) all_frame_data output
                   rows (files w)).
Proof.
  unfold main.
  destruct (fst (path_exists (ext_env ext) (arg_video args) (files w)))
    as [[|]|e]; [|left; reflexivity|left; reflexivity].
  destruct (output_path_of ext args) as [output|e] eqn:Hout;
    [|left; reflexivity].
  pose proof (main_try_files ext args output (snd (banner args output w)))
    as Hfiles.
  rewrite (preserves_banner files args output preserves_print_files)
    in Hfiles.
  destruct (main_try ext args output _) as [[[]|e] w2]; cbn [fst snd] in *;
    unfold print_stderr; cbn [files];
    (destruct Hfiles as [Hsame|(l & rows & Heven & Hge & Henc)];
     [left; exact Hsame|right; exists output, l, rows; auto]).
Qed.

(** X15.  If no file is at the path of the encoder's intermediate before a run
    of the program, and the existence test and the removal at that path
    are never refused, no file is there after the run, however it ends. *)
Theorem main_leaves_no_intermediate {conv : StrConversions} (ext : Externals)
    (args : Args) (w : world) (output temp_file : pystr) :
  output_path_of ext args = Ok output ->
  with_suffix (ext_env ext) output (lit ".ansi.tmp") = Some temp_file ->
  removable (ext_env ext) temp_file ->
  files w !! temp_file = None ->
  files (snd (main ext args w)) !! temp_file = None.
Proof.
  intros Hout Hsuffix Hrm Habsent. unfold main.
  destruct (fst (path_exists (ext_env ext) (arg_video args) (files w)))
    as [[|]|e]; [|exact Habsent|exact Habsent].
  rewrite Hout.
  pose proof (main_try_files ext args output (snd (banner args output w)))
    as Hfiles.
  rewrite (preserves_banner files args output preserves_print_files)
    in Hfiles.
  assert (files (snd (main_try ext args output (snd (banner args output w))))
          !! temp_file = None) as Hnone.
  { destruct Hfiles as [->|(l & rows & _ & _ & ->)]; [exact Habsent|].
    rewrite (compress_frames_to_file_unfold _ _ _ _ _ _ Hsuffix).
    rewrite try_finally_removes by exact Hrm.
    cbn [snd]. apply lookup_delete_eq. }
  destruct (main_try ext args output _) as [[[]|e] w2]; exact Hnone.
Qed.

Lemma main_leaves_no_intermediate_hd :
  files hd_world !! lit "out.ansi.tmp" = None
  /\ files (snd (@main numeral_conversions hd_externals hd_args hd_world))
     !! lit "out.ansi.tmp" = None.
Proof.
  split; [reflexivity|].
  apply (@main_leaves_no_intermediate numeral_conversions hd_externals hd_args
           hd_world (lit "out.zst")); try reflexivity.
  intros st. split; reflexivity.
Defined.

(** X16.  When everything up to the rendering succeeds and no file operation
    fails, the program runs the compressor on the file system in which the
    intermediate holds the newlines, the hide code, one block per matching
    frame file in the order of the names, and the show code, each block
    being the cursor-up sequence for the calculated rows and the rendered
    frame; afterwards the intermediate is gone.  If the compressor exits
    with 0 and the statistics and the playback command are computed, the
    program ends with status 0, adds nothing to the error stream and
    prints the playback command, after two spaces, as its last line;
    if the compressor fails, the program ends with status 1. *)
Theorem main_encodes_rendered_frames {conv : StrConversions}
    (ext : Externals) (args : Args) (w : world) (output : pystr)
    (probed processor : VideoProcessor) (md : video_metadata) (cols rows : Z)
    (d temp_file : pystr) (listing outs : list pystr) :
  is_Some (files w !! arg_video args) ->
  output_path_of ext args = Ok output ->
  get_video_metadata
    (VideoProcessor_init (arg_video args) (arg_width args))
    (ext_ffprobe ext
       (ffprobe_command (VideoProcessor_init (arg_video args) (arg_width args))))
  = Ok (probed, md) ->
  calculate_terminal_dimensions probed = Ok (processor, (cols, rows)) ->
  ext_scratch ext = Some d ->
  (forall cmd,
     ffmpeg_command processor (ext_join ext d (lit "frame_%06d.png")) = Ok cmd ->
     ext_ffmpeg ext cmd = FfmpegDone listing) ->
  Forall2 (fun f o =>
             ext_render ext {| gen_terminal_width := cols;
                               gen_terminal_height := rows |} f = Ok o)
          (sorted (filter (fun n => glob_frame n = true) listing)) outs ->
  fault_free (ext_env ext) ->
  with_suffix (ext_env ext) output (lit ".ansi.tmp") = Some temp_file ->
  let blocks := map (frame_block rows) outs in
  let z := run_zstd (ext_env ext) temp_file output
             (<[temp_file := spec_stream blocks rows]> (files w)) in
  files (snd (main ext args w)) = delete temp_file (snd z)
  /\ (fst z = ZstdOk ->
      forall s playback_cmd,
        calculate_statistics blocks = Ok s ->
        generate_playback_command output (md_fps md) (avg_frame_size s)
        = Ok playback_cmd ->
        fst (main ext args w) = Exit 0
        /\ stderr (snd (main ext args w)) = stderr w
        /\ exists text,
             stdout (snd (main ext args w))
             = text ++ (lit "  " ++ playback_cmd) ++ [LF])
  /\ (fst z <> ZstdOk -> fst (main ext args w) = Exit 1).
Proof.
  intros Hvideo Hout Hprobe Hdims Hd Hffmpeg Hrender Hff Hsuffix blocks z.
  assert (terminal_height processor = Some rows) as Hth.
  { unfold calculate_terminal_dimensions in Hdims.
    destruct (negb (truthy (width probed)) || negb (truthy (height probed)));
      [discriminate Hdims|].
    destruct (width probed) as [W|]; [|discriminate Hdims].
    destruct (height probed) as [H|]; [|discriminate Hdims].
    destruct (terminal_rows W H (terminal_width probed)) as [th|];
      [|discriminate Hdims].
    cbn in Hdims. injection Hdims as <- _ <-. reflexivity. }
  pose proof (preserves_banner files args output preserves_print_files w)
    as Hbanner_files.
  pose proof (preserves_banner stderr args output preserves_print_stderr w)
    as Hbanner_stderr.
  unfold main, path_exists. rewrite Hff.
  rewrite bool_decide_eq_true_2 by exact Hvideo. cbn [fst].
  rewrite Hout.
  set (w0 := snd (banner args output w)) in *.
  unfold main_try, print.
  rewrite run_bind_print, run_bind_lift, Hprobe.
  rewrite run_bind_print, run_bind_lift, Hdims.
  rewrite run_bind_print, run_bind_unfold.
  match goal with |- context [extract_and_render ext processor ?g ?w1] =>
    pose proof (preserves_extract_and_render ext stderr processor g
                  preserves_print_stderr w1) as Hstderr;
    destruct (extract_and_render_renders ext processor cols rows d listing
                outs w1 Hth Hd Hffmpeg Hrender) as (w2 & Hrun & Hfiles);
    rewrite Hrun in Hstderr |- *
  end.
  cbn [files] in Hfiles. rewrite Hbanner_files in Hfiles.
  cbn [snd stderr] in Hstderr. rewrite Hbanner_stderr in Hstderr.
  rewrite run_bind_print, run_bind_unfold. unfold run_io. cbn [files].
  rewrite Hfiles.
  rewrite (compress_frames_fault_free ext _ _ _ _ _ Hff Hsuffix).
  fold blocks. fold z. unfold after_compressor.
  destruct z as [exit st2]. cbn [fst snd].
  destruct exit.
  - destruct (calculate_statistics blocks) as [s|e] eqn:Hstats.
    + rewrite run_bind_lift.
      destruct (generate_playback_command output (md_fps md)
                  (avg_frame_size s)) as [playback_cmd|e] eqn:Hcmd.
      * rewrite !run_bind_print, run_bind_lift.
        assert (exists a, to_float (avg_frame_size s) = Ok a) as [a Ha].
        { unfold generate_playback_command in Hcmd.
          destruct (to_float (avg_frame_size s)) as [a|]; [eauto|].
          discriminate Hcmd. }
        rewrite Ha, !run_bind_print. unfold print_end. cbn [fst snd files].
        split; [reflexivity|]. split; [|intros Hne; contradiction].
        intros _ s' playback_cmd' [= <-] Hcmd'.
        rewrite Hcmd in Hcmd'. injection Hcmd' as <-.
        split; [reflexivity|]. cbn [stderr stdout].
        split; [exact Hstderr|]. eexists. reflexivity.
      * cbn [fst snd print_stderr files].
        split; [reflexivity|]. split; [|intros Hne; contradiction].
        intros _ s' playback_cmd' [= <-] Hcmd'. congruence.
    + cbn [fst snd print_stderr files].
      split; [reflexivity|]. split; [|intros Hne; contradiction].
      intros _ s' playback_cmd' Hstats'. discriminate Hstats'.
  - cbn [fst snd print_stderr files].
    split; [reflexivity|]. split; [intros Hne; discriminate Hne|reflexivity].
  - cbn [fst snd print_stderr files].
    split; [reflexivity|]. split; [intros Hne; discriminate Hne|reflexivity].
Qed.

Lemma main_encodes_rendered_frames_hd :
  @main numeral_conversions hd_externals hd_args hd_world
  = (Exit 0,
     {| files := {[ lit "video.mp4" := lit "video";
                    lit "out.zst" := lit "compressed" ]};
        stdout := stdout (snd (@main numeral_conversions hd_externals hd_args
                                 hd_world));
        stderr := [] |})
  /\ exists text,
       stdout (snd (@main numeral_conversions hd_externals hd_args hd_world))
       = text ++ (lit "  " ++ lit "cat out.zst | zstd -d | pv -q -L 690")
         ++ [LF].
Proof.
  split; [vm_compute; reflexivity|].
  refine (proj2 (proj2 (proj1 (proj2 (@main_encodes_rendered_frames numeral_conversions
            hd_externals hd_args hd_world (lit "out.zst")
            (set_metadata (VideoProcessor_init (lit "video.mp4") 80)
               hd_metadata)
            (set_terminal_height
               (set_metadata (VideoProcessor_init (lit "video.mp4") 80)
                  hd_metadata) 22)
            hd_metadata 80 22 (lit "/tmp/scratch") (lit "out.ansi.tmp")
            [frame_name 2; frame_name 1]
            [lit "<" ++ frame_name 1 ++ lit ">";
             lit "<" ++ frame_name 2 ++ lit ">"]
            _ _ _ _ _ _ _ _ _)) _ _ _ _ _))).
  - vm_compute. eauto.
  - reflexivity.
  - vm_compute. reflexivity.
  - vm_compute. reflexivity.
  - reflexivity.
  - intros cmd _. reflexivity.
  - vm_compute. repeat constructor.
  - intros op st. reflexivity.
  - vm_compute. reflexivity.
  - vm_compute. reflexivity.
  - vm_compute. reflexivity.
  - vm_compute. reflexivity.
Defined.
